(** * vscode-linkify: the link orchestrator of [extension/utilities/npm-link.ts]

    A shallow embedding of the package-manager detection, command selection
    and link-with-fallback protocol, together with the properties the
    specification states about it.

    Conventions of the embedding.
    - A JavaScript string is the [string] of its UTF-8 bytes. [trim]
      removes the white space and the line terminators of ECMAScript, inside
      ASCII and outside it. [toLowerCase] lowers the ASCII letters and the two
      code points outside ASCII whose lower case holds an ASCII letter; the
      lower case of every other code point lies outside ASCII, where the code
      never looks, and such a code point keeps its bytes.
    - A promise is the value it settles to: [Resolved a] or [Rejected e],
      where [e] is the JavaScript value that was thrown.
    - The file system, the package-manager detector and [cp.exec] are
      oracles over an abstract [World]; every call may change the world, so
      two calls with the same arguments may answer differently.
    - The logger only writes to an output channel; its calls are left out. *)

From Stdlib Require Import String Ascii List Bool Arith Lia DecimalString.
Import ListNotations.
Open Scope string_scope.

Set Implicit Arguments.

(* ================================================================== *)
(** ** JavaScript strings *)

Module Js.

(** The line feed of the template literals ([\n]). *)
Definition LF : string := String (ascii_of_nat 10) EmptyString.

(** The string of the given UTF-8 bytes. *)
Definition bytes (l : list nat) : string :=
  fold_right (fun n s => String (ascii_of_nat n) s) EmptyString l.

(** A byte of ASCII: a code point of one byte. *)
Definition is_ascii (c : ascii) : bool := (nat_of_ascii c <? 128)%nat.

Definition is_upper (c : ascii) : bool :=
  (Ascii.leb "A" c && Ascii.leb c "Z")%char.

Definition lower_char (c : ascii) : ascii :=
  if is_upper c then ascii_of_nat (nat_of_ascii c + 32) else c.

(** [String.prototype.toLowerCase]. Besides the letters [A] to [Z], two
    code points have a lower case that holds an ASCII letter: the Kelvin
    sign U+212A (bytes 226 132 170), whose lower case is [k], and the capital
    I with dot above U+0130 (bytes 196 176), whose lower case is [i] followed
    by the combining dot above U+0307 (bytes 204 135). Every other code point
    outside ASCII keeps its bytes here: its lower case has no ASCII letter,
    and the code compares the lowered text with ASCII words only, so that
    each of its comparisons comes out as in JavaScript. *)
Fixpoint toLowerCase (s : string) : string :=
  match s with
  | EmptyString => EmptyString
  | String c r =>
      if Ascii.eqb c "226" then
        match r with
        | String c1 (String c2 r2) =>
            if Ascii.eqb c1 "132" && Ascii.eqb c2 "170" then
              String "k" (toLowerCase r2)
            else String c (toLowerCase r)
        | _ => String c (toLowerCase r)
        end
      else if Ascii.eqb c "196" then
        match r with
        | String c1 r1 =>
            if Ascii.eqb c1 "176" then
              String "i" (String "204" (String "135" (toLowerCase r1)))
            else String c (toLowerCase r)
        | EmptyString => String c (toLowerCase r)
        end
      else String (lower_char c) (toLowerCase r)
  end.

(** [true] when [p] is a prefix of [s]. *)
Fixpoint startsWith (s p : string) {struct p} : bool :=
  match p with
  | EmptyString => true
  | String a p' =>
      match s with
      | EmptyString => false
      | String b s' => Ascii.eqb a b && startsWith s' p'
      end
  end.

(** [String.prototype.includes]: [t] occurs in [s] as a substring. *)
Fixpoint includes (s t : string) : bool :=
  startsWith s t ||
  match s with
  | EmptyString => false
  | String _ r => includes r t
  end.

(** The code points [String.prototype.trim] removes, each by its bytes: the
    white space of ECMAScript (tab, vertical tab, form feed, space, the
    no-break space U+00A0, the other space separators U+1680, U+2000 to
    U+200A, U+202F, U+205F and U+3000, the byte order mark U+FEFF) and its
    line terminators (line feed, carriage return, U+2028, U+2029). *)
Definition whiteSpace : list string :=
  [ bytes [9]; bytes [10]; bytes [11]; bytes [12]; bytes [13]; bytes [32];
    bytes [194; 160];
    bytes [225; 154; 128];
    bytes [226; 128; 128]; bytes [226; 128; 129]; bytes [226; 128; 130];
    bytes [226; 128; 131]; bytes [226; 128; 132]; bytes [226; 128; 133];
    bytes [226; 128; 134]; bytes [226; 128; 135]; bytes [226; 128; 136];
    bytes [226; 128; 137]; bytes [226; 128; 138];
    bytes [226; 128; 168]; bytes [226; 128; 169];
    bytes [226; 128; 175];
    bytes [226; 129; 159];
    bytes [227; 128; 128];
    bytes [239; 187; 191] ].

(** [s] without its prefix [p], when it has it. *)
Fixpoint stripPrefix (p s : string) : option string :=
  match p with
  | EmptyString => Some s
  | String a p' =>
      match s with
      | EmptyString => None
      | String b s' => if Ascii.eqb a b then stripPrefix p' s' else None
      end
  end.

(** [s] without the first of [prefixes] it starts with. *)
Definition afterAny (prefixes : list string) (s : string) : option string :=
  fold_right
    (fun p found => match stripPrefix p s with Some rest => Some rest | None => found end)
    None prefixes.

(** [s] without the white space code point it starts with. *)
Definition afterWhiteSpace (s : string) : option string := afterAny whiteSpace s.

(** White space taken off the start, one code point at a step. Every step
    takes at least one byte, so the length of the string is steps enough. *)
Fixpoint dropWhiteSpace (steps : nat) (s : string) : string :=
  match steps with
  | 0 => s
  | S steps' =>
      match afterWhiteSpace s with
      | Some rest => dropWhiteSpace steps' rest
      | None => s
      end
  end.

Definition trimStart (s : string) : string := dropWhiteSpace (String.length s) s.

(** Nothing but white space. *)
Definition isBlank (s : string) : bool :=
  match trimStart s with EmptyString => true | _ => false end.

Fixpoint trimEnd (s : string) : string :=
  match s with
  | EmptyString => EmptyString
  | String c r => if isBlank s then EmptyString else String c (trimEnd r)
  end.

(** [String.prototype.trim] *)
Definition trim (s : string) : string := trimEnd (trimStart s).

(** A value that can be thrown, or that a promise can reject with. The
    code tells [Error] instances from everything else
    ([error instanceof Error]). *)
Inductive Thrown : Type :=
| Error (message : string)   (* an instance of Error *)
| Str (s : string)           (* a primitive string *)
| Null
| Undefined.

Definition instanceofError (e : Thrown) : bool :=
  match e with Error _ => true | _ => false end.

(** [String(e)] *)
Definition toStr (e : Thrown) : string :=
  match e with
  | Error m => "Error: " ++ m
  | Str s => s
  | Null => "null"
  | Undefined => "undefined"
  end.

(** How a promise settles. *)
Inductive Outcome (A : Type) : Type :=
| Resolved (a : A)
| Rejected (e : Thrown).
Arguments Resolved {A} a.
Arguments Rejected {A} e.

(** [TypeError], an [Error]. *)
Definition TypeError (message : string) : Thrown := Error message.

(** The own property names of [Object.prototype]: what every object
    literal inherits, and so what the [in] operator finds in it besides its
    own keys. *)
Definition Object_prototype_keys : list string :=
  [ "constructor"; "__defineGetter__"; "__defineSetter__"; "hasOwnProperty";
    "__lookupGetter__"; "__lookupSetter__"; "isPrototypeOf";
    "propertyIsEnumerable"; "toString"; "valueOf"; "__proto__";
    "toLocaleString" ].

(** Own property lookup in an object literal given as its key/value list. *)
Fixpoint getOwn {V : Type} (o : list (string * V)) (k : string) : option V :=
  match o with
  | [] => None
  | (k', v) :: r => if String.eqb k' k then Some v else getOwn r k
  end.

Definition hasOwn {V : Type} (o : list (string * V)) (k : string) : bool :=
  match getOwn o k with Some _ => true | None => false end.

Definition inherited (k : string) : bool :=
  existsb (String.eqb k) Object_prototype_keys.

(** [k in o] for an object literal [o]: own or inherited. *)
Definition has {V : Type} (o : list (string * V)) (k : string) : bool :=
  hasOwn o k || inherited k.

End Js.

Import Js.

(* ================================================================== *)
(** ** The pure part: normalization and the command tables *)

(** [normalizeDependencyType]; [None] is the omitted argument, which takes
    the default ['prod']. *)
Definition normalizeDependencyType (dependencyType : option string) : string :=
  let dependencyType := match dependencyType with Some d => d | None => "prod" end in
  let lowerType := toLowerCase dependencyType in
  if (lowerType =? "optionaldependencies") || (lowerType =? "optional") then "optional"
  else if (lowerType =? "peerdependencies") || (lowerType =? "peer") then "peer"
  else if (lowerType =? "devdependencies") || (lowerType =? "dev") then "dev"
  else "prod".

Definition CommandGenerator : Type := string -> string.

(** [packageManagerCommands], keys in the order of the source. *)
Definition packageManagerCommands : list (string * list (string * CommandGenerator)) :=
  [ ("npm",
      [ ("optional", fun packagePath => "npm install --save-optional " ++ packagePath);
        ("peer", fun packagePath => "npm install --save-peer " ++ packagePath);
        ("dev", fun packagePath => "npm install --save-dev " ++ packagePath);
        ("prod", fun packagePath => "npm install --save " ++ packagePath) ]);
    ("pnpm",
      [ ("optional", fun packagePath => "pnpm add --save-optional " ++ packagePath);
        ("peer", fun packagePath => "pnpm add --save-peer " ++ packagePath);
        ("dev", fun packagePath => "pnpm add --save-dev " ++ packagePath);
        ("prod", fun packagePath => "pnpm add --save " ++ packagePath) ]);
    ("bun",
      [ ("peer", fun packagePath => "bun install --peer " ++ packagePath);
        ("dev", fun packagePath => "bun install --dev " ++ packagePath);
        ("optional", fun packagePath => "bun install " ++ packagePath);
        ("prod", fun packagePath => "bun install " ++ packagePath) ]);
    ("yarn",
      [ ("optional", fun packagePath => "yarn add --optional " ++ packagePath);
        ("peer", fun packagePath => "yarn add --peer " ++ packagePath);
        ("dev", fun packagePath => "yarn add --dev " ++ packagePath);
        ("prod", fun packagePath => "yarn add " ++ packagePath) ]) ].

(** What calling [packageManagerCommands[manager][normalizedType]] throws
    when that member is not a function. *)
Definition not_a_function : Thrown :=
  TypeError "packageManagerCommands[manager][normalizedType] is not a function".

(** [getAddCommand]. The guard is the [in] operator, which also finds the
    members inherited from [Object.prototype]; for such a [manager] the row
    is a built-in function (or the prototype itself), it has no member named
    after a dependency type, and the call throws. *)
Definition getAddCommand (packageManager packagePath dependencyType : string)
  : Outcome string :=
  let normalizedType := normalizeDependencyType (Some dependencyType) in
  let manager := packageManager in
  let manager := if negb (has packageManagerCommands manager) then "npm" else manager in
  match getOwn packageManagerCommands manager with
  | Some row =>
      match getOwn row normalizedType with
      | Some generator => Resolved (generator packagePath)
      | None => Rejected not_a_function
      end
  | None => Rejected not_a_function
  end.

(** [isWorkspaceError], on the message of the [Error] it is given. *)
Definition isWorkspaceError (message : string) : bool :=
  let errorMessage := toLowerCase message in
  includes errorMessage "workspace" ||
  includes errorMessage "err_pnpm_workspace_pkg_not_found".

(** [createLinkCommand] *)
Definition createLinkCommand (packageManager packagePath : string) : string :=
  if packageManager =? "yarn" then "yarn link " ++ packagePath
  else if packageManager =? "pnpm" then "pnpm link " ++ packagePath
  else if packageManager =? "bun" then "bun link " ++ packagePath
  else "npm link " ++ packagePath.

(* ================================================================== *)
(** ** Data of the orchestrator *)

(** [LinkOptions]; an omitted [dependencyType] is [None]. *)
Record LinkOptions : Type := {
  dependencyType : option string;
  packageName : string;
  packagePath : string;
  projectPath : string
}.

(** [LinkResult]; an absent [error] is [None]. *)
Record LinkResult : Type := {
  success : bool;
  message : string;
  error : option Thrown
}.

(** What the code reads of an [fs.Stats]. *)
Record Stats : Type := {
  isDirectory : bool;
  isFile : bool
}.

(** What the code reads of the detector's result: its [name], [None] when
    it is [null] or [undefined]. *)
Record DetectResult : Type := {
  name : option string
}.

(** What [cp.exec] hands to its callback: the error ([None] for [null],
    otherwise the message of the [ExecException]) and the two captured
    streams. *)
Record ExecResult : Type := {
  exec_error : option string;
  stdout : string;
  stderr : string
}.

(** A value [JSON.parse] can return. A number is kept as the text
    [String] gives for it. *)
#[warnings="-register-all"] Inductive Json : Type :=
| JNull
| JBool (b : bool)
| JNum (text : string)
| JStr (s : string)
| JArr (items : list Json)
| JObj (members : list (string * Json)).

(** [packageJson.name]; [None] is [undefined]. Reading a property of
    [null] throws. *)
Definition getName (packageJson : Json) : Outcome (option Json) :=
  match packageJson with
  | JNull => Rejected (TypeError "Cannot read properties of null (reading 'name')")
  | JObj members => Resolved (getOwn members "name")
  | _ => Resolved None
  end.

(** Truthiness of a property value, as [!packageJson.name] tests it. *)
Definition truthy (v : option Json) : bool :=
  match v with
  | None | Some JNull => false
  | Some (JBool b) => b
  | Some (JNum text) => negb (text =? "0")
  | Some (JStr s) => negb (s =? EmptyString)
  | Some (JArr _) | Some (JObj _) => true
  end.

(** [v !== packageName] for a string [packageName]. *)
Definition strictNotEqual (v : option Json) (packageName : string) : bool :=
  match v with
  | Some (JStr s) => negb (s =? packageName)
  | _ => true
  end.

Definition not_primitive : Thrown :=
  TypeError "Cannot convert object to primitive value".

(** The text a template literal puts for a parsed value. An array joins
    its items with commas, [null] items giving nothing; an object gives
    [[object Object]] unless a member of its own hides [toString], which
    then is not callable. *)
Fixpoint toText (v : Json) : Outcome string :=
  match v with
  | JNull => Resolved "null"
  | JBool b => Resolved (if b then "true" else "false")
  | JNum text => Resolved text
  | JStr s => Resolved s
  | JArr items =>
      (fix join (l : list Json) : Outcome string :=
         match l with
         | [] => Resolved EmptyString
         | x :: r =>
             match (match x with JNull => Resolved EmptyString | _ => toText x end) with
             | Rejected e => Rejected e
             | Resolved first =>
                 match r with
                 | [] => Resolved first
                 | _ :: _ =>
                     match join r with
                     | Rejected e => Rejected e
                     | Resolved rest => Resolved (first ++ "," ++ rest)
                     end
                 end
             end
         end) items
  | JObj members =>
      if hasOwn members "toString" then Rejected not_primitive
      else Resolved "[object Object]"
  end.

(** [${v}] for a property value; [None] is [undefined]. *)
Definition interpolate (v : option Json) : Outcome string :=
  match v with
  | None => Resolved "undefined"
  | Some j => toText j
  end.

(** [error.message] for a caught value taken to be an [Error]
    ([error as Error]): a primitive string has no such property, and
    reading a property of [null] or [undefined] throws. *)
Definition readMessage (e : Thrown) : Outcome string :=
  match e with
  | Error m => Resolved m
  | Str _ => Resolved "undefined"
  | Null => Rejected (TypeError "Cannot read properties of null (reading 'message')")
  | Undefined =>
      Rejected (TypeError "Cannot read properties of undefined (reading 'message')")
  end.

(** [error instanceof Error ? error.message : String(error)] *)
Definition describe (e : Thrown) : string :=
  match e with
  | Error m => m
  | _ => toStr e
  end.

(** [error instanceof Error ? error : new Error(String(error))] *)
Definition asError (e : Thrown) : Thrown :=
  match e with
  | Error _ => e
  | _ => Error (toStr e)
  end.

(* ================================================================== *)
(** ** The orchestrator over its collaborators *)

(** The collaborators of the core, over the state [World] of everything
    outside it. *)
Class Collaborators (World : Type) : Type := {
  (** [fs.stat] and [fs.readFile] of [node:fs/promises] *)
  fs_stat : string -> World -> Outcome Stats * World;
  fs_readFile : string -> World -> Outcome string * World;
  (** [path.join] and [JSON.parse] *)
  path_join : string -> string -> string;
  JSON_parse : string -> Outcome Json;
  (** [detect] of [package-manager-detector], called with [{ cwd }] *)
  detect : string -> World -> Outcome (option DetectResult) * World;
  (** [cp.exec], called with the command and the working directory; the
      answer is what it passes to its callback *)
  cp_exec : string -> string -> World -> ExecResult * World
}.

(** The world together with the commands handed to [cp.exec] so far, each
    with its working directory, oldest first. *)
Record Machine (World : Type) : Type := {
  world : World;
  executed : list (string * string)
}.

Section Orchestrator.

Context {World : Type} {io : Collaborators World}.

(** An [async] computation. *)
Definition Async (A : Type) : Type :=
  Machine World -> Outcome A * Machine World.

Definition resolve {A : Type} (a : A) : Async A := fun m => (Resolved a, m).

Definition reject {A : Type} (e : Thrown) : Async A := fun m => (Rejected e, m).

Definition settle {A : Type} (o : Outcome A) : Async A := fun m => (o, m).

Definition bind {A B : Type} (c : Async A) (k : A -> Async B) : Async B :=
  fun m =>
    match c m with
    | (Resolved a, m') => k a m'
    | (Rejected e, m') => (Rejected e, m')
    end.

Definition try_catch {A : Type} (c : Async A) (handler : Thrown -> Async A) : Async A :=
  fun m =>
    match c m with
    | (Resolved a, m') => (Resolved a, m')
    | (Rejected e, m') => handler e m'
    end.

(** A call to a collaborator that runs no command. *)
Definition call {A : Type} (f : World -> Outcome A * World) : Async A :=
  fun m =>
    let (r, w) := f (world m) in
    (r, {| world := w; executed := executed m |}).

Notation "'let*' x ':=' c 'in' k" := (bind c (fun x => k))
  (at level 10, x name, c at level 100, k at level 200).

(** [detectPackageManager] *)
Definition detectPackageManager (projectPath : string) : Async string :=
  try_catch
    (let* result := call (detect projectPath) in
     resolve match result with
             | Some r => match name r with Some n => n | None => "npm" end
             | None => "npm"
             end)
    (fun _ => resolve "npm").

(** [executeCommand] *)
Definition executeCommand (command cwd : string) : Async string :=
  fun m =>
    let (r, w) := cp_exec command cwd (world m) in
    let m' := {| world := w; executed := executed m ++ [(command, cwd)] |} in
    match exec_error r with
    | Some _ =>
        (Rejected (Error ("Command execution failed: " ++ stdout r ++ LF ++ stderr r)), m')
    | None => (Resolved (trim (stdout r)), m')
    end.

(** [validatePackage]; the result [None] is [null]. *)
Definition validatePackage (packagePath packageName : string)
  : Async (option LinkResult) :=
  try_catch
    (let* packagePathStats := call (fs_stat packagePath) in
     let isPackagePathDirectory := isDirectory packagePathStats in
     if negb isPackagePathDirectory then
       resolve (Some {| message := "Package directory does not exist: " ++ packagePath;
                        success := false; error := None |})
     else
     let packageJsonPath := path_join packagePath "package.json" in
     let* packageJsonStats := call (fs_stat packageJsonPath) in
     let isPackageJsonFile := isFile packageJsonStats in
     if negb isPackageJsonFile then
       resolve (Some {| message := "No package.json found in: " ++ packagePath;
                        success := false; error := None |})
     else
     let* packageJsonContent := call (fs_readFile packageJsonPath) in
     let* packageJson := settle (JSON_parse packageJsonContent) in
     let* packageJson_name := settle (getName packageJson) in
     if negb (truthy packageJson_name) then
       resolve (Some {| message := "No package name found in package.json: "
                                     ++ packageJsonPath;
                        success := false; error := None |})
     else if strictNotEqual packageJson_name packageName then
       let* shown := settle (interpolate packageJson_name) in
       resolve (Some {| message := "Package name in package.json (" ++ shown
                                     ++ ") does not match provided package name ("
                                     ++ packageName ++ ")";
                        success := false; error := None |})
     else resolve None)
    (fun error =>
       resolve (Some {| message := "Failed to create link: " ++ describe error;
                        error := Some (asError error);
                        success := false |})).

(** [executeLinkWithFallback], its options destructured. *)
Definition executeLinkWithFallback
  (packageManager dependencyType packagePath projectPath packageName : string)
  : Async LinkResult :=
  let linkCommand := createLinkCommand packageManager packagePath in
  try_catch
    (let* output := executeCommand linkCommand projectPath in
     resolve {| message := "Successfully linked " ++ packageName ++ " from "
                             ++ packagePath ++ " to project at " ++ projectPath
                             ++ LF ++ output;
                success := true; error := None |})
    (fun linkError =>
       match linkError with
       | Error linkMessage =>
           if isWorkspaceError linkMessage then
             let* addCommand :=
               settle (getAddCommand packageManager packagePath dependencyType) in
             let* output := executeCommand addCommand projectPath in
             resolve {| message := "Successfully added " ++ packageName ++ " from "
                                     ++ packagePath ++ " to project at " ++ projectPath
                                     ++ " (fallback from link)" ++ LF ++ output;
                        success := true; error := None |}
           else reject linkError
       | _ => reject linkError
       end).

(** The [try] block of [npmLink]. *)
Definition npmLink_try (options : LinkOptions) : Async LinkResult :=
  let dependencyType :=
    match dependencyType options with Some d => d | None => "prod" end in
  let* validationResult := validatePackage (packagePath options) (packageName options) in
  match validationResult with
  | Some failure => resolve failure
  | None =>
      let* packageManager := detectPackageManager (projectPath options) in
      executeLinkWithFallback packageManager dependencyType (packagePath options)
        (projectPath options) (packageName options)
  end.

(** The [catch] block of [npmLink]. *)
Definition npmLink_catch (error : Thrown) : Async LinkResult :=
  let errorValue := error in
  let* text := settle (readMessage errorValue) in
  resolve {| message := "Failed to create link: " ++ text;
             error := Some errorValue;
             success := false |}.

(** [npmLink], the public entry point. *)
Definition npmLink (options : LinkOptions) : Async LinkResult :=
  try_catch (npmLink_try options) npmLink_catch.

End Orchestrator.

(* ================================================================== *)
(** ** The vocabulary of the specification *)

(** The six spellings the specification lists for the dependency type. *)
Definition spellings : list string :=
  [ "optional"; "optionaldependencies"; "peer"; "peerdependencies";
    "dev"; "devdependencies" ].

(** The four canonical dependency types. *)
Definition canonical : list string := [ "prod"; "dev"; "peer"; "optional" ].

(** The four known package managers. *)
Definition managers : list string := [ "npm"; "yarn"; "pnpm"; "bun" ].

(** [text] contains [token], letter case ignored. *)
Definition containsIgnoringCase (text token : string) : bool :=
  includes (toLowerCase text) (toLowerCase token).

(** The workspace test as the single check on the substring
    ["workspace"]. *)
Definition mentionsWorkspace (message : string) : bool :=
  includes (toLowerCase message) "workspace".

(** The row of the two command tables a manager string selects: its own
    for the four known managers, the npm row for every other string. *)
Definition row (manager : string) : string :=
  if existsb (String.eqb manager) managers then manager else "npm".

(** White space only: some code points of [whiteSpace], one after the
    other. *)
Inductive blank : string -> Prop :=
| blank_nil : blank EmptyString
| blank_more w s : In w whiteSpace -> blank s -> blank (w ++ s).

(** [t] is [s] with the white space at its two ends removed: white space
    only was taken off, and [t] neither starts nor ends with white space. *)
Definition trimmed (s t : string) : Prop :=
  (exists before after, s = before ++ t ++ after /\ blank before /\ blank after) /\
  (forall w rest, In w whiteSpace -> t <> w ++ rest /\ t <> rest ++ w).

(** The results the specification names. *)
Definition linked (options : LinkOptions) (output : string) : LinkResult :=
  {| success := true;
     message := "Successfully linked " ++ packageName options ++ " from "
                  ++ packagePath options ++ " to project at " ++ projectPath options
                  ++ LF ++ output;
     error := None |}.

Definition added (options : LinkOptions) (output : string) : LinkResult :=
  {| success := true;
     message := "Successfully added " ++ packageName options ++ " from "
                  ++ packagePath options ++ " to project at " ++ projectPath options
                  ++ " (fallback from link)" ++ LF ++ output;
     error := None |}.

Definition failed (cause : Thrown) (text : string) : LinkResult :=
  {| success := false;
     message := "Failed to create link: " ++ text;
     error := Some cause |}.

Definition rejection (text : string) : LinkResult :=
  {| success := false; message := text; error := None |}.

(** The text of a failed command execution. *)
Definition commandFailure (r : ExecResult) : string :=
  "Command execution failed: " ++ stdout r ++ LF ++ stderr r.

(** The dependency type [npmLink] passes on. *)
Definition requestedType (options : LinkOptions) : string :=
  match dependencyType options with Some d => d | None => "prod" end.

(** Detection that identifies nothing: it rejects, or resolves to [null],
    or to a result whose name is [null] or empty. *)
Definition degraded (d : Outcome (option DetectResult)) : Prop :=
  match d with
  | Rejected _ => True
  | Resolved None => True
  | Resolved (Some r) => name r = None \/ name r = Some EmptyString
  end.

(** The manager the core goes on with after detection answered [d]. *)
Definition chosenManager (d : Outcome (option DetectResult)) : string :=
  match d with
  | Resolved (Some r) => match name r with Some n => n | None => "npm" end
  | Resolved None => "npm"
  | Rejected _ => "npm"
  end.

Section Vocabulary.

Context {World : Type} {io : Collaborators World}.

(** The machine after [commands] were run, the world being [w] then. *)
Definition after (m : Machine World) (w : World) (commands : list (string * string))
  : Machine World :=
  {| world := w; executed := executed m ++ commands |}.

(** [packagePath] is a directory whose [package.json] is a regular file
    that parses to [packageJson]; [w] is the world once it is read. *)
Definition manifestOf (packagePath : string) (m : Machine World)
  (packageJson : Json) (w : World) : Prop :=
  exists directoryStats w1 fileStats w2 content,
    fs_stat packagePath (world m) = (Resolved directoryStats, w1) /\
    isDirectory directoryStats = true /\
    fs_stat (path_join packagePath "package.json") w1 = (Resolved fileStats, w2) /\
    isFile fileStats = true /\
    fs_readFile (path_join packagePath "package.json") w2 = (Resolved content, w) /\
    JSON_parse content = Resolved packageJson.

End Vocabulary.

(* ================================================================== *)
(** ** Scripted collaborators, for concrete runs *)

Definition QUOTE : string := String (ascii_of_nat 34) EmptyString.

(** The manifest text [{"name":"foo"}]. *)
Definition manifest_foo : string :=
  "{" ++ QUOTE ++ "name" ++ QUOTE ++ ":" ++ QUOTE ++ "foo" ++ QUOTE ++ "}".

Definition directory : Stats := {| isDirectory := true; isFile := false |}.

Definition regularFile : Stats := {| isDirectory := false; isFile := true |}.

Definition ENOENT (call path : string) : Thrown :=
  Error ("ENOENT: no such file or directory, " ++ call ++ " '" ++ path ++ "'").

(** A small tree: [/pkg] holds the manifest of [foo], [/anon] a manifest
    without a name, [/empty] is an empty directory, [/odd] a directory whose
    [package.json] is a directory, [/file] a regular file; nothing else
    exists. *)
Definition tree_stat (path : string) : Outcome Stats :=
  if path =? "/pkg" then Resolved directory
  else if path =? "/pkg/package.json" then Resolved regularFile
  else if path =? "/anon" then Resolved directory
  else if path =? "/anon/package.json" then Resolved regularFile
  else if path =? "/empty" then Resolved directory
  else if path =? "/odd" then Resolved directory
  else if path =? "/odd/package.json" then Resolved directory
  else if path =? "/file" then Resolved regularFile
  else Rejected (ENOENT "stat" path).

Definition tree_readFile (path : string) : Outcome string :=
  if path =? "/pkg/package.json" then Resolved manifest_foo
  else if path =? "/anon/package.json" then Resolved "{}"
  else Rejected (ENOENT "open" path).

Definition parse_known (text : string) : Outcome Json :=
  if text =? manifest_foo then Resolved (JObj [("name", JStr "foo")])
  else if text =? "{}" then Resolved (JObj [])
  else Rejected (Error "Unexpected token").

Definition quiet : ExecResult :=
  {| exec_error := None; stdout := EmptyString; stderr := EmptyString |}.

(** Collaborators over the tree above: detection answers [detected], and
    the n-th command run gets the n-th entry of [script]. The world is the
    number of commands run. *)
Definition scripted (detected : Outcome (option DetectResult))
  (script : list ExecResult) : Collaborators nat :=
  {| fs_stat := fun path w => (tree_stat path, w);
     fs_readFile := fun path w => (tree_readFile path, w);
     path_join := fun a b => a ++ "/" ++ b;
     JSON_parse := parse_known;
     detect := fun _ w => (detected, w);
     cp_exec := fun _ _ w => (nth w script quiet, S w) |}.

Definition start : Machine nat := {| world := 0; executed := [] |}.

Definition detected (manager : string) : Outcome (option DetectResult) :=
  Resolved (Some {| name := Some manager |}).

Definition succeeds (output : string) : ExecResult :=
  {| exec_error := None; stdout := output; stderr := EmptyString |}.

Definition fails (errors : string) : ExecResult :=
  {| exec_error := Some "Command failed"; stdout := EmptyString; stderr := errors |}.

(** The runs used below. *)
Definition pnpm_links : Collaborators nat :=
  scripted (detected "pnpm") [succeeds "ok"].

Definition pnpm_links_with_newline : Collaborators nat :=
  scripted (detected "pnpm") [succeeds ("ok" ++ LF)].

(** The link command prints [ok] and a no-break space (U+00A0). *)
Definition pnpm_links_with_no_break_space : Collaborators nat :=
  scripted (detected "pnpm") [succeeds ("ok" ++ bytes [194; 160])].

Definition pnpm_falls_back : Collaborators nat :=
  scripted (detected "pnpm")
    [fails "ERR_PNPM_WORKSPACE_PKG_NOT_FOUND"; succeeds "added"].

(** The link command fails and writes [WORKSPACE] with the Kelvin sign
    U+212A for its [K]. *)
Definition fails_with_kelvin_sign : ExecResult :=
  fails ("WOR" ++ bytes [226; 132; 170] ++ "SPACE").

Definition pnpm_fails_with_kelvin_sign : Collaborators nat :=
  scripted (detected "pnpm") [fails_with_kelvin_sign; succeeds "added"].

Definition pnpm_fails : Collaborators nat :=
  scripted (detected "pnpm") [fails "Some other error"].

(** A link command that names the workspace failure on its standard
    output only; and a link command for a package kept under [/workspace],
    whose error repeats the command, as the errors of [cp.exec] do, and so
    mentions a workspace that neither stream mentions. *)
Definition fails_on_stdout : ExecResult :=
  {| exec_error := Some ("Command failed: pnpm link /pkg" ++ LF);
     stdout := "ERR_PNPM_WORKSPACE_PKG_NOT_FOUND";
     stderr := EmptyString |}.

Definition fails_in_workspace : ExecResult :=
  {| exec_error :=
       Some ("Command failed: pnpm link /workspace/pkg" ++ LF ++ "permission denied");
     stdout := EmptyString;
     stderr := "permission denied" |}.

Definition pnpm_prints_workspace : Collaborators nat :=
  scripted (detected "pnpm") [fails_on_stdout; succeeds "added"].

(** Collaborators over a tree that holds the package [foo] at
    [/workspace/pkg] and nothing else. *)
Definition package_in_workspace : Collaborators nat :=
  {| fs_stat := fun path w =>
       (if path =? "/workspace/pkg" then Resolved directory
        else if path =? "/workspace/pkg/package.json" then Resolved regularFile
        else Rejected (ENOENT "stat" path), w);
     fs_readFile := fun path w =>
       (if path =? "/workspace/pkg/package.json" then Resolved manifest_foo
        else Rejected (ENOENT "open" path), w);
     path_join := fun a b => a ++ "/" ++ b;
     JSON_parse := parse_known;
     detect := fun _ w => (detected "pnpm", w);
     cp_exec := fun _ _ w => (nth w [fails_in_workspace; succeeds "added"] quiet, S w) |}.

Definition inherited_manager : Collaborators nat :=
  scripted (detected "constructor")
    [fails "ERR_PNPM_WORKSPACE_PKG_NOT_FOUND"; succeeds "added"].

Definition detection_rejects : Collaborators nat :=
  scripted (Rejected (Str "String error")) [succeeds "linked"].

Definition request (packagePath packageName : string) : LinkOptions :=
  {| dependencyType := None; packageName := packageName;
     packagePath := packagePath; projectPath := "/proj" |}.

(** The request of the end-to-end example: [foo] from [/pkg] into [/proj],
    dependency type omitted. *)
Definition foo_request : LinkOptions :=
  {| dependencyType := None; packageName := "foo";
     packagePath := "/pkg"; projectPath := "/proj" |}.

Definition pnpm_fallback_fails : Collaborators nat :=
  scripted (detected "pnpm")
    [fails "ERR_PNPM_WORKSPACE_PKG_NOT_FOUND"; fails "workspace root not writable"].

(** Collaborators for which every path is a directory and a regular file,
    every file reads as [content] and parses to [parsed]. *)
Definition uniform (content : Outcome string) (parsed : Outcome Json)
  : Collaborators nat :=
  {| fs_stat := fun _ w => (Resolved {| isDirectory := true; isFile := true |}, w);
     fs_readFile := fun _ w => (content, w);
     path_join := fun a b => a ++ "/" ++ b;
     JSON_parse := fun _ => parsed;
     detect := fun _ w => (detected "npm", w);
     cp_exec := fun _ _ w => (quiet, S w) |}.

(* ================================================================== *)
(** ** The storage of linked packages ([extension/services/storage-service.ts]) *)

Module StorageService.

(** [LinkedPackage] *)
Record LinkedPackage : Type := {
  packageName : string;
  localPath : string;
  linkedAt : string
}.

Definition STORAGE_KEY : string := "linkedPackages".

(** [context.globalState], a memento over the state [Store] of the editor:
    [get] answers [None] when nothing is stored under the key, [update]
    resolves or rejects. *)
Class Memento (Store : Type) : Type := {
  get : string -> Store -> option (list LinkedPackage);
  update : string -> list LinkedPackage -> Store -> Outcome unit * Store
}.

(** What the service needs of the memento: a value whose update under the
    storage key resolved is the value read back under it. *)
Definition keeps {Store : Type} (memento : Memento Store) : Prop :=
  forall value store store',
    update STORAGE_KEY value store = (Resolved tt, store') ->
    get STORAGE_KEY store' = Some value.

(** [Array.prototype.findIndex]; [None] is [-1]. *)
Fixpoint findIndex {A : Type} (predicate : A -> bool) (array : list A) : option nat :=
  match array with
  | [] => None
  | x :: rest =>
      if predicate x then Some 0
      else match findIndex predicate rest with
           | Some i => Some (S i)
           | None => None
           end
  end.

(** [array[index] = value] for an index within the array, which is where
    the code assigns. *)
Fixpoint assign {A : Type} (array : list A) (index : nat) (value : A) : list A :=
  match array, index with
  | [], _ => []
  | _ :: rest, 0 => value :: rest
  | x :: rest, S i => x :: assign rest i value
  end.

Section Service.

Context {Store : Type} {globalState : Memento Store}.

(** [getLinkedPackages]; the default [[]] stands for a missing value. *)
Definition getLinkedPackages (store : Store) : list LinkedPackage :=
  match get STORAGE_KEY store with
  | Some linkedPackages => linkedPackages
  | None => []
  end.

(** [getLinkedPackage]; [None] is [undefined]. *)
Definition getLinkedPackage (name : string) (store : Store) : option LinkedPackage :=
  let linkedPackages := getLinkedPackages store in
  find (fun package_ => packageName package_ =? name) linkedPackages.

(** [saveLinkedPackage] *)
Definition saveLinkedPackage (packageInfo : LinkedPackage) (store : Store)
  : Outcome unit * Store :=
  let linkedPackages := getLinkedPackages store in
  let existingIndex :=
    findIndex (fun package_ => packageName package_ =? packageName packageInfo)
      linkedPackages in
  let linkedPackages :=
    match existingIndex with
    | None => (linkedPackages ++ [packageInfo])%list
    | Some index => assign linkedPackages index packageInfo
    end in
  update STORAGE_KEY linkedPackages store.

(** [removeLinkedPackage] *)
Definition removeLinkedPackage (name : string) (store : Store)
  : Outcome unit * Store :=
  let linkedPackages := getLinkedPackages store in
  let filteredPackages :=
    filter (fun package_ => negb (packageName package_ =? name)) linkedPackages in
  update STORAGE_KEY filteredPackages store.

End Service.

(** The tests of the three methods on the name of an entry. *)
Definition named (name : string) : LinkedPackage -> bool :=
  fun package_ => packageName package_ =? name.

Definition others (name : string) : LinkedPackage -> bool :=
  fun package_ => negb (packageName package_ =? name).

(** The array [saveLinkedPackage] hands to [update]. *)
Definition saved (packageInfo : LinkedPackage) (linkedPackages : list LinkedPackage)
  : list LinkedPackage :=
  match findIndex (named (packageName packageInfo)) linkedPackages with
  | None => (linkedPackages ++ [packageInfo])%list
  | Some index => assign linkedPackages index packageInfo
  end.

(** The names stored, in order. *)
Definition names (linkedPackages : list LinkedPackage) : list string :=
  map packageName linkedPackages.

(** A memento in memory: the store is the value under [STORAGE_KEY], and
    every update resolves. *)
Definition inMemory : Memento (option (list LinkedPackage)) :=
  {| get := fun key store => if key =? STORAGE_KEY then store else None;
     update := fun key value store =>
       (Resolved tt, if key =? STORAGE_KEY then Some value else store) |}.

Definition entry (name path date : string) : LinkedPackage :=
  {| packageName := name; localPath := path; linkedAt := date |}.

End StorageService.

(* ================================================================== *)
(** ** The dependencies of a manifest ([get-dependency-at-position.ts]) *)

Module GetDependencyAtPosition.

(** [Dependency]; the version is whatever value the manifest holds. *)
Record Dependency : Type := {
  type : string;
  version : Json;
  name : string
}.

(** The sections, in the order the code visits them. *)
Definition dependencyTypes : list string :=
  [ "dependencies"; "devDependencies"; "peerDependencies"; "optionalDependencies" ].

(** [packageJson[key]] for a key that no prototype defines, as the section
    names are; [None] is [undefined]. Reading a property of [null] throws. *)
Definition getMember (packageJson : Json) (key : string) : Outcome (option Json) :=
  match packageJson with
  | JNull =>
      Rejected (TypeError ("Cannot read properties of null (reading '" ++ key ++ "')"))
  | JObj members => Resolved (getOwn members key)
  | _ => Resolved None
  end.

(** The decimal text of an array index. *)
Definition indexText (i : nat) : string := NilEmpty.string_of_uint (Nat.to_uint i).

Fixpoint characters (s : string) : list Json :=
  match s with
  | EmptyString => []
  | String c rest => JStr (String c EmptyString) :: characters rest
  end.

Definition indexed (items : list Json) : list (string * Json) :=
  combine (map indexText (seq 0 (length items))) items.

(** [Object.entries]: the members of an object, in the order they are
    listed; the items of an array and the characters of a string under their
    indices; nothing for a number or a boolean. *)
Definition Object_entries (value : Json) : list (string * Json) :=
  match value with
  | JObj members => members
  | JArr items => indexed items
  | JStr s => indexed (characters s)
  | JNull | JBool _ | JNum _ => []
  end.

(** The body of the loop over the sections: [dependencies] is the array
    filled so far. *)
Fixpoint collect (packageJson : Json) (types : list string)
  (dependencies : list Dependency) : Outcome (list Dependency) :=
  match types with
  | [] => Resolved dependencies
  | type :: rest =>
      match getMember packageJson type with
      | Rejected e => Rejected e
      | Resolved deps =>
          if truthy deps then
            let pushed :=
              map (fun entry : string * Json =>
                     {| version := snd entry; name := fst entry; type := type |})
                (match deps with Some value => Object_entries value | None => [] end) in
            collect packageJson rest (dependencies ++ pushed)
          else collect packageJson rest dependencies
      end
  end.

(** [parseDependencies] *)
Definition parseDependencies {World : Type} {io : Collaborators World}
  (packageJsonPath : string) : Async (list Dependency) :=
  try_catch
    (bind (call (fs_readFile packageJsonPath)) (fun content =>
     bind (settle (JSON_parse content)) (fun packageJson =>
     let dependencies := [] in
     settle (collect packageJson dependencyTypes dependencies))))
    (fun _ => resolve []).

(** The dependencies one section of a manifest lists. *)
Definition listedUnder (packageJson : Json) (section : string) : list Dependency :=
  match packageJson with
  | JObj members =>
      match getOwn members section with
      | Some deps =>
          if truthy (Some deps) then
            map (fun entry : string * Json =>
                   {| version := snd entry; name := fst entry; type := section |})
              (Object_entries deps)
          else []
      | None => []
      end
  | _ => []
  end.

(** A manifest with a name in two sections, the second one first. *)
Definition two_sections : Json :=
  JObj [ ("devDependencies", JObj [("vitest", JStr "^3.0.0"); ("left-pad", JStr "1.3.0")]);
         ("name", JStr "foo");
         ("dependencies", JObj [("left-pad", JStr "1.3.0")]) ].

End GetDependencyAtPosition.

(* ================================================================== *)
(** ** The variant of the orchestrator without fallback

    An earlier [npm-link.ts], which [commands/link-package.ts] is written
    against: [npmLink] takes the two paths and the name, checks the directory
    and the presence of [package.json], and runs the link command only. Its
    [detectPackageManager] is the one above. *)

Module Simple.

Section Variant.

Context {World : Type} {io : Collaborators World}.

(** [executeCommand]: the failure carries the standard error only. *)
Definition executeCommand (command cwd : string) : Async string :=
  fun m =>
    let (r, w) := cp_exec command cwd (world m) in
    let m' := {| world := w; executed := executed m ++ [(command, cwd)] |} in
    match exec_error r with
    | Some _ => (Rejected (Error ("Command execution failed: " ++ stderr r)), m')
    | None => (Resolved (trim (stdout r)), m')
    end.

(** [npmLink] *)
Definition npmLink (packagePath projectPath packageName : string) : Async LinkResult :=
  try_catch
    (bind (call (fs_stat packagePath)) (fun packagePathStats =>
     if negb (isDirectory packagePathStats) then
       resolve {| message := "Package directory does not exist: " ++ packagePath;
                  success := false; error := None |}
     else
     let packageJsonPath := path_join packagePath "package.json" in
     bind (call (fs_stat packageJsonPath)) (fun packageJsonStats =>
     if negb (isFile packageJsonStats) then
       resolve {| message := "No package.json found in: " ++ packagePath;
                  success := false; error := None |}
     else
     bind (detectPackageManager projectPath) (fun packageManager =>
     let linkCommand :=
       if packageManager =? "yarn" then "yarn link " ++ packagePath
       else if packageManager =? "pnpm" then "pnpm link " ++ packagePath
       else if packageManager =? "bun" then "bun link " ++ packagePath
       else "npm link " ++ packagePath in
     bind (executeCommand linkCommand projectPath) (fun output =>
     resolve {| message := "Successfully linked " ++ packageName ++ " from "
                             ++ packagePath ++ " to project at " ++ projectPath
                             ++ LF ++ output;
                success := true; error := None |})))))
    (fun error =>
       resolve {| message := "Failed to create link: " ++ describe error;
                  error := Some (asError error);
                  success := false |}).

End Variant.

End Simple.

(* ================================================================== *)
(** ** The logger ([extension/utilities/logger.ts])

    The methods [info], [warn], [error], [debug] and [init]; [log], which
    joins arguments of any type, is left out. *)

Module Logger.

Inductive Level : Type := Information | Warning | Failure.

(** What the logger has done to the editor: the output channels it
    created, by name, a channel being known by its rank; the lines it
    appended, each with its channel; the notifications it showed. *)
Record Editor : Type := {
  channels : list string;
  appended : list (nat * string);
  notified : list (Level * string)
}.

(** The editor and the module variable [outputChannel]. *)
Record State : Type := {
  editor : Editor;
  outputChannel : option nat
}.

Section Methods.

(** [getFormattedDate], read off the state of the world at the call. *)
Variable getFormattedDate : Editor -> string.

(** [vscode.window.createOutputChannel] *)
Definition createOutputChannel (name : string) (e : Editor) : nat * Editor :=
  (length (channels e),
   {| channels := channels e ++ [name]; appended := appended e;
      notified := notified e |}).

(** [channel.appendLine] *)
Definition appendLine (channel : nat) (line : string) (e : Editor) : Editor :=
  {| channels := channels e; appended := appended e ++ [(channel, line)];
     notified := notified e |}.

(** [showInformationMessage], [showWarningMessage], [showErrorMessage] *)
Definition showMessage (level : Level) (message : string) (e : Editor) : Editor :=
  {| channels := channels e; appended := appended e;
     notified := notified e ++ [(level, message)] |}.

(** [getOutputChannel]: [outputChannel ??= createOutputChannel(...)] *)
Definition getOutputChannel (s : State) : nat * State :=
  match outputChannel s with
  | Some channel => (channel, s)
  | None =>
      let (channel, e) := createOutputChannel "Package Linker" (editor s) in
      (channel, {| editor := e; outputChannel := Some channel |})
  end.

Definition write (tag message : string) (s : State) : State :=
  let (channel, s) := getOutputChannel s in
  {| editor := appendLine channel
                 (getFormattedDate (editor s) ++ ": " ++ tag ++ message) (editor s);
     outputChannel := outputChannel s |}.

Definition notify (level : Level) (message : string) (s : State) : State :=
  {| editor := showMessage level message (editor s);
     outputChannel := outputChannel s |}.

(** [logger.info] *)
Definition info (message : string) (notify_ : bool) (s : State) : State :=
  let s := write "[INFO] " message s in
  if notify_ then notify Information message s else s.

(** [logger.warn] *)
Definition warn (message : string) (notify_ : bool) (s : State) : State :=
  let s := write "[WARN] " message s in
  if notify_ then notify Warning message s else s.

(** [logger.error] *)
Definition error (message : string) (notify_ : bool) (s : State) : State :=
  let s := write "[ERROR] " message s in
  if notify_ then notify Failure message s else s.

(** [logger.debug] *)
Definition debug (message : string) (s : State) : State :=
  write "[DEBUG] " message s.

(** [logger.init] *)
Definition init (s : State) : State :=
  write EmptyString "Package Linker initialized" s.

(** A call of one of the methods. *)
Inductive Call : Type :=
| Info (message : string) (notify_ : bool)
| Warn (message : string) (notify_ : bool)
| Error_ (message : string) (notify_ : bool)
| Debug (message : string)
| Init.

Definition perform (s : State) (call : Call) : State :=
  match call with
  | Info message notify_ => info message notify_ s
  | Warn message notify_ => warn message notify_ s
  | Error_ message notify_ => error message notify_ s
  | Debug message => debug message s
  | Init => init s
  end.

(** The notification a call asks for, if any. *)
Definition requested (call : Call) : list (Level * string) :=
  match call with
  | Info message true => [(Information, message)]
  | Warn message true => [(Warning, message)]
  | Error_ message true => [(Failure, message)]
  | _ => []
  end.

End Methods.

(** The module as loaded: nothing done, no channel yet. *)
Definition loaded : State :=
  {| editor := {| channels := []; appended := []; notified := [] |};
     outputChannel := None |}.

End Logger.

(* ================================================================== *)
(** ** The link command of the editor ([extension/commands/link-package.ts])

    [handleLinkPackage] calls [npmLink] with the two paths and the name;
    [npmLink] is a parameter here, and the variant without fallback is the
    one of that shape. *)

Module LinkPackage.

(** [LinkPackageCommandArguments] *)
Record LinkPackageCommandArguments : Type := {
  version : string;
  name : string;
  type : string
}.

(** An item of the quick pick. *)
Record QuickPickItem : Type := {
  description : string;
  label : string;
  value : string
}.

(** What the command shows: [showErrorMessage], [showInformationMessage]. *)
Inductive Shown : Type :=
| ErrorMessage (text : string)
| InformationMessage (text : string).

(** The windows and the workspace of the editor, over the state [World]:
    [showQuickPick] answers the chosen item or [undefined];
    [showOpenDialog] answers [undefined] or the chosen locations, each by its
    [fsPath], [None] where it has none; [showErrorMessage] is how the promise
    of an error message settles, for the calls that wait for it: with the
    item chosen, [undefined] when the message is dismissed, or by rejecting;
    [workspaceFolders] is [undefined] or the folders, each by the [fsPath] of
    its location; [now] is [new Date().toISOString()]. *)
Class Workbench (World : Type) : Type := {
  showQuickPick :
    list QuickPickItem -> string -> World -> Outcome (option QuickPickItem) * World;
  showOpenDialog : World -> Outcome (option (list (option string))) * World;
  showErrorMessage : string -> World -> Outcome (option string) * World;
  workspaceFolders : World -> option (list (option string));
  now : World -> string
}.

(** The machine together with what has been shown, oldest first. *)
Record Session (World : Type) : Type := {
  machine : Machine World;
  shown : list Shown
}.

Section Command.

Context {World : Type}.
Context {globalState : StorageService.Memento World} {workbench : Workbench World}.

(** [npmLink], as imported. *)
Variable npmLink : string -> string -> string -> @Async World LinkResult.

Definition Task (A : Type) : Type :=
  Session World -> Outcome A * Session World.

Definition done {A : Type} (a : A) : Task A := fun s => (Resolved a, s).

Definition andThen {A B : Type} (c : Task A) (k : A -> Task B) : Task B :=
  fun s =>
    match c s with
    | (Resolved a, s') => k a s'
    | (Rejected e, s') => (Rejected e, s')
    end.

Definition recover {A : Type} (c : Task A) (handler : Thrown -> Task A) : Task A :=
  fun s =>
    match c s with
    | (Resolved a, s') => (Resolved a, s')
    | (Rejected e, s') => handler e s'
    end.

(** An [async] computation of the core, run in the session. *)
Definition run {A : Type} (c : @Async World A) : Task A :=
  fun s =>
    let (o, m) := c (machine s) in
    (o, {| machine := m; shown := shown s |}).

(** A call that may change the world, and a look at it. *)
Definition ask {A : Type} (f : World -> Outcome A * World) : Task A :=
  run (call f).

Definition look {A : Type} (f : World -> A) : Task A :=
  fun s => (Resolved (f (world (machine s))), s).

(** [void vscode.window.showErrorMessage(...)] and
    [void vscode.window.showInformationMessage(...)]: the message is shown and
    its promise is dropped, so that nothing waits for it and its rejection
    reaches nobody. *)
Definition show (message : Shown) : Task unit :=
  fun s => (Resolved tt, {| machine := machine s; shown := shown s ++ [message] |}).

(** [await vscode.window.showErrorMessage(text)]: the message is shown and
    the command waits for its promise, whose rejection it does not catch. *)
Definition showAndWait (text : string) : Task unit :=
  andThen (show (ErrorMessage text)) (fun _ =>
  andThen (ask (showErrorMessage text)) (fun _ => done tt)).

(** [progress.report({ increment })]: it moves the display of the progress
    and gives nothing back. *)
Definition report (increment : nat) : Task unit := done tt.

(** [vscode.window.withProgress(options, task)]: the editor calls [task]
    once, at once, with the progress it displays under the title, and answers
    with the promise [task] returns. *)
Definition withProgress {A : Type} (title : string)
  (task : (nat -> Task unit) -> Task A) : Task A :=
  task report.

(** [selectPackagePath]; [None] is [null]. *)
Definition selectPackagePath : Task (option string) :=
  andThen (ask showOpenDialog) (fun result =>
  match result with
  | None => done None
  | Some [] => done None
  | Some (first :: _) => done first
  end).

(** [handleLinkPackage] once the path is settled: from [if (!packagePath)]
    on. *)
Definition linkFrom (packageName : string) (packagePath : option string) : Task unit :=
  match packagePath with
  | None => done tt
  | Some packagePath =>
      if packagePath =? EmptyString then done tt
      else
      andThen (look workspaceFolders) (fun folders =>
      match folders with
      | None | Some [] => showAndWait "No workspace folder is open"
      | Some (first :: _) =>
          match first with
          | None => showAndWait "Could not determine workspace path"
          | Some projectPath =>
              if projectPath =? EmptyString then
                showAndWait "Could not determine workspace path"
              else
              withProgress ("Linking package " ++ packageName ++ "...") (fun progress =>
              andThen (progress 0) (fun _ =>
              recover
                (andThen (run (npmLink packagePath projectPath packageName))
                   (fun result =>
                 andThen (progress 100) (fun _ =>
                 if success result then
                   recover
                     (andThen (look now) (fun linkedAt =>
                      andThen (ask (StorageService.saveLinkedPackage
                                      {| StorageService.linkedAt := linkedAt;
                                         StorageService.localPath := packagePath;
                                         StorageService.packageName := packageName |}))
                        (fun _ => show (InformationMessage (message result)))))
                     (fun error =>
                        show (ErrorMessage ("Error saving package link: "
                                              ++ describe error)))
                 else show (ErrorMessage (message result)))))
                (fun error =>
                   show (ErrorMessage ("Error linking package: " ++ describe error)))))
          end
      end)
  end.

(** The two items offered when a path is saved for the package. *)
Definition offered (savedPackage : StorageService.LinkedPackage) : list QuickPickItem :=
  [ {| description := "Last linked: " ++ StorageService.linkedAt savedPackage;
       label := "Use saved path: " ++ StorageService.localPath savedPackage;
       value := StorageService.localPath savedPackage |};
    {| description := "Select a new directory for the package";
       label := "Choose new path";
       value := "new" |} ].

(** [handleLinkPackage] *)
Definition handleLinkPackage (arguments_ : LinkPackageCommandArguments) : Task unit :=
  let packageName := name arguments_ in
  andThen (look (StorageService.getLinkedPackage packageName)) (fun savedPackage =>
  match savedPackage with
  | Some savedPackage =>
      andThen (ask (showQuickPick (offered savedPackage)
                      "Select an option for linking the package"))
        (fun choice =>
      match choice with
      | None => done tt
      | Some choice =>
          if value choice =? "new" then
            andThen selectPackagePath (linkFrom packageName)
          else linkFrom packageName (Some (value choice))
      end)
  | None => andThen selectPackagePath (linkFrom packageName)
  end).

(** The session in the world [w], nothing else changed. *)
Definition moved (s : Session World) (w : World) : Session World :=
  {| machine := {| world := w; executed := executed (machine s) |};
     shown := shown s |}.

(** The ways [handleLinkPackage] comes to a path: with nothing saved for
    the package, by the dialog; with a saved path, by the item chosen when its
    value is not ["new"], and by the dialog when it is. *)
Inductive selects (arguments_ : LinkPackageCommandArguments) (s : Session World)
  : string -> Session World -> Prop :=
| by_dialog packagePath rest w :
    StorageService.getLinkedPackage (name arguments_) (world (machine s)) = None ->
    showOpenDialog (world (machine s)) = (Resolved (Some (Some packagePath :: rest)), w) ->
    selects arguments_ s packagePath (moved s w)
| by_saved_path savedPackage choice w :
    StorageService.getLinkedPackage (name arguments_) (world (machine s))
      = Some savedPackage ->
    showQuickPick (offered savedPackage) "Select an option for linking the package"
      (world (machine s)) = (Resolved (Some choice), w) ->
    value choice <> "new" ->
    selects arguments_ s (value choice) (moved s w)
| by_new_path savedPackage choice w packagePath rest w' :
    StorageService.getLinkedPackage (name arguments_) (world (machine s))
      = Some savedPackage ->
    showQuickPick (offered savedPackage) "Select an option for linking the package"
      (world (machine s)) = (Resolved (Some choice), w) ->
    value choice = "new" ->
    showOpenDialog w = (Resolved (Some (Some packagePath :: rest)), w') ->
    selects arguments_ s packagePath (moved s w').

End Command.

(** A memento whose updates are refused. *)
Definition refusing : StorageService.Memento (option (list StorageService.LinkedPackage)) :=
  {| StorageService.get := fun key store =>
       if key =? StorageService.STORAGE_KEY then store else None;
     StorageService.update := fun _ _ store => (Rejected (Str "quota exceeded"), store) |}.

(** The answers of the open dialog after which no path is selected. *)
Definition nothingSelected (result : option (list (option string))) : Prop :=
  match result with
  | None => True
  | Some [] => True
  | Some (None :: _) => True
  | Some (Some path :: _) => path = EmptyString
  end.

(** The answers of the workspace that give no project path. *)
Definition noProject (folders : option (list (option string))) : option string :=
  match folders with
  | None | Some [] => Some "No workspace folder is open"
  | Some (None :: _) => Some "Could not determine workspace path"
  | Some (Some projectPath :: _) =>
      if projectPath =? EmptyString then Some "Could not determine workspace path"
      else None
  end.

(** A desk for concrete runs: the world is the stored list; the quick pick
    and the dialog give fixed answers, an error message is dismissed, and
    [folders] are the folders of the workspace. *)
Definition desk (pick : option QuickPickItem) (dialog : option (list (option string)))
  (folders : option (list (option string)))
  : Workbench (option (list StorageService.LinkedPackage)) :=
  {| showQuickPick := fun _ _ w => (Resolved pick, w);
     showOpenDialog := fun w => (Resolved dialog, w);
     showErrorMessage := fun _ w => (Resolved None, w);
     workspaceFolders := fun _ => folders;
     now := fun _ => "2023-01-01T00:00:00.000Z" |}.

(** The same desk in a window that is closing: the promise of an error
    message rejects. *)
Definition closing (pick : option QuickPickItem) (dialog : option (list (option string)))
  (folders : option (list (option string)))
  : Workbench (option (list StorageService.LinkedPackage)) :=
  {| showQuickPick := fun _ _ w => (Resolved pick, w);
     showOpenDialog := fun w => (Resolved dialog, w);
     showErrorMessage := fun _ w => (Rejected (Error "Canceled"), w);
     workspaceFolders := fun _ => folders;
     now := fun _ => "2023-01-01T00:00:00.000Z" |}.

(** An [npmLink] that runs one command and answers [result]. *)
Definition answering {World : Type} (result : LinkResult)
  : string -> string -> string -> @Async World LinkResult :=
  fun packagePath projectPath _ m =>
    (Resolved result,
     {| world := world m;
        executed := executed m ++ [("npm link " ++ packagePath, projectPath)] |}).

Definition opening {World : Type} (w : World) : Session World :=
  {| machine := {| world := w; executed := [] |}; shown := [] |}.

(** The command on the dependency [foo], and the answers of the dialog and
    of the workspace used in the runs. *)
Definition foo_arguments : LinkPackageCommandArguments :=
  {| version := "1.0.0"; name := "foo"; type := "dependencies" |}.

Definition picked_pkg : option (list (option string)) := Some [Some "/pkg"].

Definition open_proj : option (list (option string)) := Some [Some "/proj"].

Definition it_linked : LinkResult :=
  {| success := true; message := "Successfully linked foo"; error := None |}.

Definition it_failed : LinkResult :=
  {| success := false; message := "Failed to create link: no"; error := None |}.

Definition foo_entry (path : string) : StorageService.LinkedPackage :=
  StorageService.entry "foo" path "2023-01-01T00:00:00.000Z".

End LinkPackage.

(* ================================================================== *)
(** ** Strings *)

Lemma startsWith_app (p r : string) : startsWith (p ++ r) p = true.
Proof.
  induction p as [|c p IH]; simpl.
  - reflexivity.
  - now rewrite Ascii.eqb_refl, IH.
Qed.

Lemma startsWith_inv (s p : string) :
  startsWith s p = true -> exists r, s = p ++ r.
Proof.
  revert s; induction p as [|a p IH]; intros s H.
  - now exists s.
  - destruct s as [|b s]; simpl in H; [discriminate|].
    apply andb_true_iff in H as [Hab Hrest].
    apply Ascii.eqb_eq in Hab; subst b.
    destruct (IH _ Hrest) as [r ->].
    now exists r.
Qed.

Lemma includes_startsWith (s t : string) :
  startsWith s t = true -> includes s t = true.
Proof. intros H. destruct s; simpl; rewrite H; reflexivity. Qed.

Lemma append_assoc (a b c : string) : (a ++ b) ++ c = a ++ b ++ c.
Proof. induction a as [|x a IH]; simpl; [reflexivity | now rewrite IH]. Qed.

Lemma includes_app (a t b : string) : includes (a ++ t ++ b) t = true.
Proof.
  induction a as [|c a IH]; simpl.
  - apply includes_startsWith, startsWith_app.
  - rewrite IH. apply orb_true_r.
Qed.

Lemma includes_inv (s t : string) :
  includes s t = true -> exists a b, s = a ++ t ++ b.
Proof.
  induction s as [|c s IH]; simpl; intros H.
  - rewrite orb_false_r in H.
    destruct (startsWith_inv _ _ H) as [r Hr].
    exists EmptyString, r. exact Hr.
  - apply orb_true_iff in H as [H|H].
    + destruct (startsWith_inv _ _ H) as [r Hr].
      exists EmptyString, r. exact Hr.
    + destruct (IH H) as (a & b & ->).
      exists (String c a), b. reflexivity.
Qed.

Lemma includes_trans (s t u : string) :
  includes s t = true -> includes t u = true -> includes s u = true.
Proof.
  intros Hst Htu.
  destruct (includes_inv _ _ Hst) as (a & b & ->).
  destruct (includes_inv _ _ Htu) as (a' & b' & ->).
  rewrite !append_assoc, <- (append_assoc a a').
  apply includes_app.
Qed.

Lemma length_append (a b : string) :
  String.length (a ++ b) = String.length a + String.length b.
Proof. induction a as [|c a IH]; simpl; [reflexivity | now rewrite IH]. Qed.

Lemma append_empty (a : string) : a ++ EmptyString = a.
Proof. induction a as [|c a IH]; simpl; [reflexivity | now rewrite IH]. Qed.

(* ------------------------------------------------------------------ *)
(** *** Lower case *)

Lemma lower_char_idem (c : ascii) : lower_char (lower_char c) = lower_char c.
Proof. destruct c as [[] [] [] [] [] [] [] []]; reflexivity. Qed.

Lemma lower_char_high (c : ascii) :
  is_ascii (lower_char c) = false -> lower_char c = c.
Proof. destruct c as [[] [] [] [] [] [] [] []]; intros H; try reflexivity; discriminate. Qed.

(** The three ways [toLowerCase] takes the first code point. *)
Lemma lower_step (c : ascii) (r : string) :
  (exists r2,
      c = "226"%char /\ r = String "132" (String "170" r2) /\
      toLowerCase (String c r) = String "k" (toLowerCase r2)) \/
  (exists r1,
      c = "196"%char /\ r = String "176" r1 /\
      toLowerCase (String c r)
      = String "i" (String "204" (String "135" (toLowerCase r1)))) \/
  (toLowerCase (String c r) = String (lower_char c) (toLowerCase r) /\
   (forall r2, c = "226"%char -> r <> String "132" (String "170" r2)) /\
   (forall r1, c = "196"%char -> r <> String "176" r1)).
Proof.
  assert (P : forall c r,
             toLowerCase (String c r) = String (lower_char c) (toLowerCase r) ->
             (forall r2, c = "226"%char -> r <> String "132" (String "170" r2)) ->
             (forall r1, c = "196"%char -> r <> String "176" r1) ->
             (exists r2,
                 c = "226"%char /\ r = String "132" (String "170" r2) /\
                 toLowerCase (String c r) = String "k" (toLowerCase r2)) \/
             (exists r1,
                 c = "196"%char /\ r = String "176" r1 /\
                 toLowerCase (String c r)
                 = String "i" (String "204" (String "135" (toLowerCase r1)))) \/
             (toLowerCase (String c r) = String (lower_char c) (toLowerCase r) /\
              (forall r2, c = "226"%char -> r <> String "132" (String "170" r2)) /\
              (forall r1, c = "196"%char -> r <> String "176" r1))).
  { intros; right; right; repeat split; assumption. }
  destruct (Ascii.eqb_spec c "226") as [->|N1].
  - destruct r as [|c1 [|c2 r2]];
      try (apply P; [reflexivity | intros; discriminate | intros; discriminate]).
    destruct (Ascii.eqb_spec c1 "132") as [->|M1].
    + destruct (Ascii.eqb_spec c2 "170") as [->|M2].
      * left. exists r2. repeat split.
      * apply P.
        -- cbn. destruct (Ascii.eqb_spec c2 "170"); [contradiction | reflexivity].
        -- intros r2' _ H. injection H as H _. contradiction.
        -- intros; discriminate.
    + apply P.
      * cbn. destruct (Ascii.eqb_spec c1 "132"); [contradiction | reflexivity].
      * intros r2' _ H. injection H as H _. contradiction.
      * intros; discriminate.
  - destruct (Ascii.eqb_spec c "196") as [->|N2].
    + destruct r as [|c1 r1];
        try (apply P; [reflexivity | intros; discriminate | intros; discriminate]).
      destruct (Ascii.eqb_spec c1 "176") as [->|M1].
      * right; left. exists r1. repeat split.
      * apply P.
        -- cbn. destruct (Ascii.eqb_spec c1 "176"); [contradiction | reflexivity].
        -- intros; discriminate.
        -- intros r1' _ H. injection H as H _. contradiction.
    + apply P.
      * cbn [toLowerCase].
        destruct (Ascii.eqb_spec c "226"); [contradiction|].
        destruct (Ascii.eqb_spec c "196"); [contradiction|]. reflexivity.
      * intros; contradiction.
      * intros; contradiction.
Qed.

(** A byte outside ASCII at the head of the lowered text was at the head of
    the text. *)
Lemma lower_head (b : ascii) (r x : string) :
  is_ascii b = false ->
  toLowerCase r = String b x ->
  exists r', r = String b r' /\ x = toLowerCase r'.
Proof.
  intros B H. destruct r as [|c r0]; [discriminate|].
  destruct (lower_step c r0) as [(r2 & _ & _ & E) | [(r1 & _ & _ & E) | (E & _ & _)]];
    rewrite E in H; injection H as H1 H2.
  - subst b. discriminate.
  - subst b. discriminate.
  - assert (K : lower_char c = c) by (apply lower_char_high; now rewrite H1).
    exists r0. split; [congruence | now symmetry].
Qed.

Lemma toLowerCase_idem_bounded (n : nat) (s : string) :
  String.length s <= n -> toLowerCase (toLowerCase s) = toLowerCase s.
Proof.
  revert s. induction n as [|n IH]; intros s L.
  - destruct s; [reflexivity | simpl in L; lia].
  - destruct s as [|c r]; [reflexivity|]. simpl in L.
    destruct (lower_step c r) as [(r2 & _ & R & E) | [(r1 & _ & R & E) | (E & N1 & N2)]];
      rewrite E.
    + subst r. simpl in L.
      change (String "k" (toLowerCase (toLowerCase r2)) = String "k" (toLowerCase r2)).
      rewrite IH by lia. reflexivity.
    + subst r. simpl in L.
      change (String "i" (String "204" (String "135" (toLowerCase (toLowerCase r1))))
              = String "i" (String "204" (String "135" (toLowerCase r1)))).
      rewrite IH by lia. reflexivity.
    + destruct (lower_step (lower_char c) (toLowerCase r))
        as [(x & C & R & _) | [(x & C & R & _) | (E' & _ & _)]].
      * exfalso.
        assert (Cc : c = "226"%char).
        { rewrite <- C. symmetry. apply lower_char_high. now rewrite C. }
        destruct (@lower_head "132"%char _ _ eq_refl R) as (r' & -> & R').
        symmetry in R'.
        destruct (@lower_head "170"%char _ _ eq_refl R') as (r'' & -> & _).
        exact (N1 r'' Cc eq_refl).
      * exfalso.
        assert (Cc : c = "196"%char).
        { rewrite <- C. symmetry. apply lower_char_high. now rewrite C. }
        destruct (@lower_head "176"%char _ _ eq_refl R) as (r' & -> & _).
        exact (N2 r' Cc eq_refl).
      * rewrite E', lower_char_idem, IH by lia. reflexivity.
Qed.

Lemma toLowerCase_idem (s : string) : toLowerCase (toLowerCase s) = toLowerCase s.
Proof. exact (@toLowerCase_idem_bounded _ s (le_n _)). Qed.

(** Lowering goes through an append whose second part starts with an ASCII
    character. *)
Lemma toLowerCase_append_bounded (n : nat) (a : string) (d : ascii) (b : string) :
  String.length a <= n ->
  is_ascii d = true ->
  toLowerCase (a ++ String d b) = toLowerCase a ++ toLowerCase (String d b).
Proof.
  intros L D. revert a L. induction n as [|n IH]; intros a L.
  - destruct a; [reflexivity | simpl in L; lia].
  - destruct a as [|c r]; [reflexivity|]. simpl in L.
    destruct (lower_step c r) as [(r2 & C & R & E) | [(r1 & C & R & E) | (E & N1 & N2)]];
      rewrite E.
    + subst c r. simpl in L.
      change (String "k" (toLowerCase (r2 ++ String d b))
              = String "k" (toLowerCase r2 ++ toLowerCase (String d b))).
      rewrite IH by lia. reflexivity.
    + subst c r. simpl in L.
      change (String "i" (String "204" (String "135" (toLowerCase (r1 ++ String d b))))
              = String "i" (String "204" (String "135"
                  (toLowerCase r1 ++ toLowerCase (String d b))))).
      rewrite IH by lia. reflexivity.
    + change (toLowerCase (String c (r ++ String d b))
              = String (lower_char c) (toLowerCase r ++ toLowerCase (String d b))).
      destruct (lower_step c (r ++ String d b))
        as [(x & C & R & _) | [(x & C & R & _) | (E' & _ & _)]].
      * exfalso. destruct r as [|c1 [|c2 r2]]; simpl in R.
        -- injection R as R _. subst d. discriminate.
        -- injection R as _ R _. subst d. discriminate.
        -- injection R as R1 R2 _. subst c1 c2. exact (N1 r2 C eq_refl).
      * exfalso. destruct r as [|c1 r1]; simpl in R.
        -- injection R as R _. subst d. discriminate.
        -- injection R as R1 _. subst c1. exact (N2 r1 C eq_refl).
      * rewrite E', IH by lia. reflexivity.
Qed.

Lemma toLowerCase_append (a : string) (d : ascii) (b : string) :
  is_ascii d = true ->
  toLowerCase (a ++ String d b) = toLowerCase a ++ toLowerCase (String d b).
Proof. intros D. exact (@toLowerCase_append_bounded _ a d b (le_n _) D). Qed.

(* ------------------------------------------------------------------ *)
(** *** White space *)

Lemma stripPrefix_inv (p s rest : string) :
  stripPrefix p s = Some rest -> s = p ++ rest.
Proof.
  revert s. induction p as [|a p IH]; intros s H; simpl in H.
  - now injection H as ->.
  - destruct s as [|b s]; [discriminate|].
    destruct (Ascii.eqb_spec a b) as [->|_]; [|discriminate].
    simpl. now rewrite <- (IH _ H).
Qed.

Lemma afterAny_inv (prefixes : list string) (s rest : string) :
  afterAny prefixes s = Some rest -> exists p, In p prefixes /\ s = p ++ rest.
Proof.
  induction prefixes as [|p l IH]; simpl; intros H; [discriminate|].
  destruct (stripPrefix p s) as [x|] eqn:P.
  - injection H as ->. exists p. split; [now left | now apply stripPrefix_inv].
  - destruct (IH H) as (q & Q & E). exists q. split; [now right | exact E].
Qed.

Lemma afterWhiteSpace_inv (s rest : string) :
  afterWhiteSpace s = Some rest -> exists w, In w whiteSpace /\ s = w ++ rest.
Proof. apply afterAny_inv. Qed.

Lemma afterWhiteSpace_In (w rest : string) :
  In w whiteSpace -> afterWhiteSpace (w ++ rest) = Some rest.
Proof.
  intros H. simpl in H.
  repeat (destruct H as [<-|H]; [reflexivity|]). contradiction.
Qed.

Lemma whiteSpace_length (w : string) :
  In w whiteSpace -> 1 <= String.length w.
Proof.
  intros H. simpl in H.
  repeat (destruct H as [<-|H]; [simpl; lia|]). contradiction.
Qed.

Lemma dropWhiteSpace_spec (n : nat) (s : string) :
  String.length s <= n ->
  exists before,
    s = before ++ dropWhiteSpace n s /\ blank before /\
    afterWhiteSpace (dropWhiteSpace n s) = None.
Proof.
  revert s. induction n as [|n IH]; intros s L.
  - destruct s; [|simpl in L; lia].
    exists EmptyString. repeat split. constructor.
  - simpl. destruct (afterWhiteSpace s) as [rest|] eqn:A.
    + destruct (@afterWhiteSpace_inv _ _ A) as (w & W & ->).
      pose proof (@whiteSpace_length _ W) as K.
      rewrite length_append in L.
      destruct (IH rest) as (before & E & B & D); [lia|].
      exists (w ++ before). split; [|split].
      * rewrite append_assoc. now rewrite <- E.
      * now constructor.
      * exact D.
    + exists EmptyString. split; [reflexivity | split; [constructor | exact A]].
Qed.

Lemma dropWhiteSpace_fuel (n k : nat) (s : string) :
  String.length s <= n -> String.length s <= k ->
  dropWhiteSpace n s = dropWhiteSpace k s.
Proof.
  revert k s. induction n as [|n IH]; intros k s Ln Lk.
  - destruct s; [|simpl in Ln; lia]. destruct k; reflexivity.
  - destruct k as [|k].
    + destruct s; [reflexivity | simpl in Lk; lia].
    + simpl. destruct (afterWhiteSpace s) as [rest|] eqn:A; [|reflexivity].
      destruct (@afterWhiteSpace_inv _ _ A) as (w & W & ->).
      pose proof (@whiteSpace_length _ W) as K.
      rewrite length_append in Ln, Lk.
      apply IH; lia.
Qed.

Lemma trimStart_spec (s : string) :
  exists before,
    s = before ++ trimStart s /\ blank before /\ afterWhiteSpace (trimStart s) = None.
Proof. apply dropWhiteSpace_spec. apply le_n. Qed.

Lemma trimStart_blank (s : string) : blank s -> trimStart s = EmptyString.
Proof.
  induction 1 as [|w s W B IH]; [reflexivity|].
  pose proof (@whiteSpace_length _ W) as K.
  unfold trimStart. rewrite length_append.
  destruct (String.length w) as [|l]; [lia|]. simpl.
  rewrite (@afterWhiteSpace_In _ _ W).
  rewrite (@dropWhiteSpace_fuel _ (String.length s)) by lia.
  exact IH.
Qed.

Lemma isBlank_spec (s : string) : isBlank s = true <-> blank s.
Proof.
  unfold isBlank. split.
  - intros H. destruct (trimStart_spec s) as (before & E & B & _).
    destruct (trimStart s); [|discriminate].
    rewrite append_empty in E. now subst.
  - intros B. now rewrite (@trimStart_blank _ B).
Qed.

Lemma trimEnd_spec (s : string) :
  exists after,
    s = trimEnd s ++ after /\ blank after /\
    forall w rest, In w whiteSpace -> trimEnd s <> rest ++ w.
Proof.
  induction s as [|c r IH].
  - exists EmptyString. split; [reflexivity | split; [constructor|]].
    intros w rest W E. pose proof (@whiteSpace_length _ W) as K.
    apply (f_equal String.length) in E. rewrite length_append in E. simpl in E. lia.
  - cbn [trimEnd]. destruct (isBlank (String c r)) eqn:B.
    + exists (String c r). split; [reflexivity | split; [now apply isBlank_spec|]].
      intros w rest W E. pose proof (@whiteSpace_length _ W) as K.
      apply (f_equal String.length) in E. rewrite length_append in E. simpl in E. lia.
    + destruct IH as (after & E & A & N).
      exists after. split; [simpl; now rewrite <- E | split; [exact A|]].
      intros w rest W F. destruct rest as [|c' rest]; simpl in F.
      * assert (K : blank (String c r)).
        { rewrite E. change (blank ((String c (trimEnd r)) ++ after)).
          rewrite F. now constructor. }
        apply isBlank_spec in K. congruence.
      * injection F as _ F. exact (N w rest W F).
Qed.

Lemma trim_spec (s : string) : trimmed s (trim s).
Proof.
  unfold trim.
  destruct (trimStart_spec s) as (before & E1 & B1 & N1).
  destruct (trimEnd_spec (trimStart s)) as (after & E2 & B2 & N2).
  split.
  - exists before, after. split; [|split; assumption].
    now rewrite <- E2.
  - intros w rest W. split; [|now apply N2].
    intros F. rewrite F, append_assoc in E2. rewrite E2 in N1.
    rewrite (@afterWhiteSpace_In _ _ W) in N1. discriminate.
Qed.

(* ================================================================== *)
(** ** Dependency-type normalization *)

Lemma normalize_cases (d : option string) :
  let lowerType := toLowerCase match d with Some s => s | None => "prod" end in
  ((lowerType = "optional" \/ lowerType = "optionaldependencies") /\
     normalizeDependencyType d = "optional") \/
  ((lowerType = "peer" \/ lowerType = "peerdependencies") /\
     normalizeDependencyType d = "peer") \/
  ((lowerType = "dev" \/ lowerType = "devdependencies") /\
     normalizeDependencyType d = "dev") \/
  (~ In lowerType spellings /\ normalizeDependencyType d = "prod").
Proof.
  unfold normalizeDependencyType.
  set (l := toLowerCase _). cbv zeta.
  destruct (String.eqb_spec l "optionaldependencies") as [E1|N1];
    [left; split; [right; exact E1 | reflexivity]|].
  destruct (String.eqb_spec l "optional") as [E2|N2];
    [left; split; [left; exact E2 | reflexivity]|].
  destruct (String.eqb_spec l "peerdependencies") as [E3|N3];
    [right; left; split; [right; exact E3 | reflexivity]|].
  destruct (String.eqb_spec l "peer") as [E4|N4];
    [right; left; split; [left; exact E4 | reflexivity]|].
  destruct (String.eqb_spec l "devdependencies") as [E5|N5];
    [right; right; left; split; [right; exact E5 | reflexivity]|].
  destruct (String.eqb_spec l "dev") as [E6|N6];
    [right; right; left; split; [left; exact E6 | reflexivity]|].
  right; right; right. split; [|reflexivity].
  simpl. intros H.
  repeat (destruct H as [H|H]; [symmetry in H; contradiction|]).
  exact H.
Qed.

Lemma normalize_of_lower (d : option string) (l : string) :
  toLowerCase match d with Some s => s | None => "prod" end = l ->
  normalizeDependencyType d = normalizeDependencyType (Some l).
Proof.
  intros <-. unfold normalizeDependencyType.
  now rewrite toLowerCase_idem.
Qed.

Lemma normalize_in_canonical (d : option string) :
  In (normalizeDependencyType d) canonical.
Proof.
  destruct (normalize_cases d) as [[_ ->]|[[_ ->]|[[_ ->]|[_ ->]]]];
    simpl; tauto.
Qed.

Lemma normalize_canonical (c : string) :
  In c canonical -> normalizeDependencyType (Some c) = c.
Proof.
  simpl. intros Hc.
  repeat (destruct Hc as [<-|Hc]; [reflexivity|]). contradiction.
Qed.

Lemma normalize_idem (d : option string) :
  normalizeDependencyType (Some (normalizeDependencyType d))
  = normalizeDependencyType d.
Proof. apply normalize_canonical, normalize_in_canonical. Qed.

(** C7, as stated, fails: ["DEV"] is none of the six listed spellings and
    yet is not sent to [prod]. *)
Lemma normalize_other_input_not_prod :
  ~ (forall s : string,
        ~ In s spellings -> normalizeDependencyType (Some s) = "prod").
Proof.
  intros H. specialize (H "DEV").
  assert (N : ~ In "DEV" spellings).
  { simpl. intros K. repeat (destruct K as [K|K]; [discriminate|]). exact K. }
  specialize (H N). vm_compute in H. discriminate.
Qed.

(** C7, amended: the six spellings are recognised on the lowercased input;
    an input whose lowercase form is none of them, and the absent input, go
    to [prod]; canonical values are fixed points; and the range is exactly
    the four canonical variants. *)
Theorem normalizeDependencyType_spec :
  (forall d : option string,
      let lowerType := toLowerCase match d with Some s => s | None => "prod" end in
      ((lowerType = "optional" \/ lowerType = "optionaldependencies") ->
         normalizeDependencyType d = "optional") /\
      ((lowerType = "peer" \/ lowerType = "peerdependencies") ->
         normalizeDependencyType d = "peer") /\
      ((lowerType = "dev" \/ lowerType = "devdependencies") ->
         normalizeDependencyType d = "dev") /\
      (~ In lowerType spellings -> normalizeDependencyType d = "prod")) /\
  normalizeDependencyType None = "prod" /\
  (forall c : string, In c canonical -> normalizeDependencyType (Some c) = c) /\
  (forall d : option string,
      normalizeDependencyType (Some (normalizeDependencyType d))
      = normalizeDependencyType d) /\
  (forall d : option string, In (normalizeDependencyType d) canonical) /\
  (forall c : string, In c canonical -> exists d, normalizeDependencyType d = c).
Proof.
  pose proof normalize_canonical as Fix.
  split; [|split; [reflexivity | split; [exact Fix | split; [|split]]]].
  - intros d lowerType.
    repeat split.
    + rewrite (normalize_of_lower d eq_refl). fold lowerType.
      intros [->| ->]; reflexivity.
    + rewrite (normalize_of_lower d eq_refl). fold lowerType.
      intros [->| ->]; reflexivity.
    + rewrite (normalize_of_lower d eq_refl). fold lowerType.
      intros [->| ->]; reflexivity.
    + intros N.
      destruct (normalize_cases d) as [[K _]|[[K _]|[[K _]|[_ E]]]];
        [ | | | exact E]; exfalso; apply N; fold lowerType in K;
        destruct K as [K|K]; rewrite K; simpl; tauto.
  - intros d. apply Fix, normalize_in_canonical.
  - exact normalize_in_canonical.
  - intros c Hc. exists (Some c). now apply Fix.
Qed.

(** C9: normalization does not depend on letter case. *)
Theorem normalizeDependencyType_case_insensitive (s : string) :
  normalizeDependencyType (Some s)
  = normalizeDependencyType (Some (toLowerCase s)).
Proof. apply (normalize_of_lower (Some s)). reflexivity. Qed.

(* ================================================================== *)
(** ** The workspace test *)

Lemma token_mentions_workspace :
  includes "err_pnpm_workspace_pkg_not_found" "workspace" = true.
Proof. reflexivity. Qed.

Lemma workspace_single_check (message : string) :
  isWorkspaceError message = mentionsWorkspace message.
Proof.
  unfold isWorkspaceError, mentionsWorkspace.
  destruct (includes (toLowerCase message) "workspace") eqn:W; [reflexivity|].
  destruct (includes (toLowerCase message) "err_pnpm_workspace_pkg_not_found") eqn:T;
    [|reflexivity].
  rewrite (includes_trans _ _ _ T token_mentions_workspace) in W. discriminate.
Qed.

(** C10: the workspace test amounts to the single check that the
    lowercased message contains ["workspace"]. *)
Theorem isWorkspaceError_single_check (message : string) :
  isWorkspaceError message = mentionsWorkspace message.
Proof. apply workspace_single_check. Qed.

Lemma isWorkspaceError_classifies (message : string) :
  isWorkspaceError message = true <->
  containsIgnoringCase message "workspace" = true \/
  containsIgnoringCase message "ERR_PNPM_WORKSPACE_PKG_NOT_FOUND" = true.
Proof.
  unfold isWorkspaceError, containsIgnoringCase.
  change (toLowerCase "workspace") with "workspace".
  change (toLowerCase "ERR_PNPM_WORKSPACE_PKG_NOT_FOUND")
    with "err_pnpm_workspace_pkg_not_found".
  apply orb_true_iff.
Qed.

(* ================================================================== *)
(** ** The command tables *)

(** The add table of the specification, row by row. *)
Lemma getAddCommand_table (packagePath : string) :
  let add manager type := getAddCommand manager packagePath type in
  add "npm" "prod" = Resolved ("npm install --save " ++ packagePath) /\
  add "npm" "dev" = Resolved ("npm install --save-dev " ++ packagePath) /\
  add "npm" "peer" = Resolved ("npm install --save-peer " ++ packagePath) /\
  add "npm" "optional" = Resolved ("npm install --save-optional " ++ packagePath) /\
  add "yarn" "prod" = Resolved ("yarn add " ++ packagePath) /\
  add "yarn" "dev" = Resolved ("yarn add --dev " ++ packagePath) /\
  add "yarn" "peer" = Resolved ("yarn add --peer " ++ packagePath) /\
  add "yarn" "optional" = Resolved ("yarn add --optional " ++ packagePath) /\
  add "pnpm" "prod" = Resolved ("pnpm add --save " ++ packagePath) /\
  add "pnpm" "dev" = Resolved ("pnpm add --save-dev " ++ packagePath) /\
  add "pnpm" "peer" = Resolved ("pnpm add --save-peer " ++ packagePath) /\
  add "pnpm" "optional" = Resolved ("pnpm add --save-optional " ++ packagePath) /\
  add "bun" "prod" = Resolved ("bun install " ++ packagePath) /\
  add "bun" "dev" = Resolved ("bun install --dev " ++ packagePath) /\
  add "bun" "peer" = Resolved ("bun install --peer " ++ packagePath) /\
  add "bun" "optional" = Resolved ("bun install " ++ packagePath).
Proof. cbv zeta. repeat split. Qed.

(** The add command depends on the dependency type through its
    normalization only. *)
Lemma getAddCommand_normalized (manager packagePath type : string) :
  getAddCommand manager packagePath type
  = getAddCommand manager packagePath (normalizeDependencyType (Some type)).
Proof.
  unfold getAddCommand. now rewrite normalize_idem.
Qed.

(** A manager that is neither a key of the table nor a member inherited
    from [Object.prototype] gets the npm row. *)
Lemma getAddCommand_fallback (manager packagePath type : string) :
  ~ In manager managers ->
  inherited manager = false ->
  getAddCommand manager packagePath type = getAddCommand "npm" packagePath type.
Proof.
  intros N I. unfold getAddCommand, has, hasOwn.
  assert (O : getOwn packageManagerCommands manager = None).
  { unfold packageManagerCommands; cbn [getOwn].
    destruct (String.eqb_spec "npm" manager) as [<-|_]; [exfalso; apply N; simpl; tauto|].
    destruct (String.eqb_spec "pnpm" manager) as [<-|_]; [exfalso; apply N; simpl; tauto|].
    destruct (String.eqb_spec "bun" manager) as [<-|_]; [exfalso; apply N; simpl; tauto|].
    destruct (String.eqb_spec "yarn" manager) as [<-|_]; [exfalso; apply N; simpl; tauto|].
    reflexivity. }
  rewrite O, I. reflexivity.
Qed.

(** The add command of a known or merely unknown manager is always
    produced. *)
Lemma getAddCommand_resolves (manager packagePath type : string) :
  inherited manager = false ->
  exists command, getAddCommand manager packagePath type = Resolved command.
Proof.
  intros I.
  assert (K : forall m, In m managers ->
            exists command, getAddCommand m packagePath type = Resolved command).
  { intros m Hm. rewrite getAddCommand_normalized.
    pose proof (normalize_in_canonical (Some type)) as Hc.
    simpl in Hm, Hc.
    repeat (destruct Hm as [<-|Hm]; [|]); try contradiction;
      repeat (destruct Hc as [<-|Hc]; [eexists; reflexivity|]); contradiction. }
  destruct (in_dec string_dec manager managers) as [Hm|Hm].
  - now apply K.
  - rewrite (getAddCommand_fallback _ _ Hm I). apply K. simpl; tauto.
Qed.

(** The link table: the four known managers get their own command, every
    other string the npm one. *)
Lemma createLinkCommand_table (manager packagePath : string) :
  (In manager managers ->
     createLinkCommand manager packagePath = manager ++ " link " ++ packagePath) /\
  (~ In manager managers ->
     createLinkCommand manager packagePath = "npm link " ++ packagePath).
Proof.
  split.
  - simpl. intros H.
    repeat (destruct H as [<-|H]; [reflexivity|]). contradiction.
  - intros N. unfold createLinkCommand.
    destruct (String.eqb_spec manager "yarn") as [->|_]; [exfalso; apply N; simpl; tauto|].
    destruct (String.eqb_spec manager "pnpm") as [->|_]; [exfalso; apply N; simpl; tauto|].
    destruct (String.eqb_spec manager "bun") as [->|_]; [exfalso; apply N; simpl; tauto|].
    reflexivity.
Qed.



(** The condition on the manager cannot be dropped: [in] finds
    ["constructor"] in the table through [Object.prototype], so it is not
    replaced by npm, and the add command is not produced, while the link
    command of the same string is the npm one. *)
Remark getAddCommand_inherited_key_throws (packagePath type : string) :
  ~ In "constructor" managers /\
  getAddCommand "constructor" packagePath type = Rejected not_a_function /\
  createLinkCommand "constructor" packagePath = "npm link " ++ packagePath.
Proof.
  split; [|split; reflexivity].
  simpl. intros H. repeat (destruct H as [H|H]; [discriminate|]). exact H.
Qed.

(* ================================================================== *)
(** ** The orchestrator *)

Section Properties.

Context {World : Type} {io : Collaborators World}.

(** One step of a run: settle the next collaborator call or test. *)
Ltac run_step :=
  match goal with
  | |- context [fs_stat ?p ?w] => destruct (fs_stat p w) as [[?|?] ?] eqn:?
  | |- context [fs_readFile ?p ?w] => destruct (fs_readFile p w) as [[?|?] ?] eqn:?
  | |- context [detect ?p ?w] => destruct (detect p w) as [[?|?] ?] eqn:?
  | |- context [cp_exec ?c ?d ?w] => destruct (cp_exec c d w) as [? ?] eqn:?
  | |- context [JSON_parse ?c] => destruct (JSON_parse c) as [?|?] eqn:?
  | |- context [getName ?j] => destruct (getName j) as [?|?] eqn:?
  | |- context [interpolate ?v] => destruct (interpolate v) as [?|?] eqn:?
  | |- context [getAddCommand ?a ?b ?c] => destruct (getAddCommand a b c) as [?|?] eqn:?
  | |- context [if ?b then _ else _] => destruct b eqn:?
  | |- context [match ?x with Some _ => _ | None => _ end] => destruct x eqn:?
  end.

Ltac run := repeat (cbv beta iota zeta; cbn [world executed]; try run_step).

(** [validatePackage] always resolves and runs no command. *)
Lemma validatePackage_total (packagePath packageName : string) (m : Machine World) :
  exists r w,
    validatePackage packagePath packageName m
    = (Resolved r, {| world := w; executed := executed m |}).
Proof.
  cbv [validatePackage try_catch bind call settle resolve].
  run; eauto.
Qed.

(** [detectPackageManager] always resolves and runs no command. *)
Lemma detectPackageManager_total (projectPath : string) (m : Machine World) :
  exists manager w,
    detectPackageManager projectPath m
    = (Resolved manager, {| world := w; executed := executed m |}).
Proof.
  cbv [detectPackageManager try_catch bind call settle resolve].
  run; eauto.
Qed.

(** What one command execution does. *)
Lemma executeCommand_run (command cwd : string) (m : Machine World) r w :
  cp_exec command cwd (world m) = (r, w) ->
  executeCommand command cwd m
  = (match exec_error r with
     | Some _ => Rejected (Error (commandFailure r))
     | None => Resolved (trim (stdout r))
     end,
     after m w [(command, cwd)]).
Proof.
  intros E. unfold executeCommand. rewrite E.
  destruct (exec_error r); reflexivity.
Qed.

(** [executeCommand] rejects with an [Error] only. *)
Lemma executeCommand_rejects_Error (command cwd : string) (m m' : Machine World) e :
  executeCommand command cwd m = (Rejected e, m') -> exists text, e = Error text.
Proof.
  destruct (cp_exec command cwd (world m)) as [r w] eqn:E.
  rewrite (executeCommand_run _ _ _ E).
  destruct (exec_error r); intros H; inversion H; eauto.
Qed.

(** [executeLinkWithFallback] rejects with an [Error] only. *)
Lemma executeLinkWithFallback_rejects_Error
  (packageManager dependencyType packagePath projectPath packageName : string)
  (m m' : Machine World) e :
  executeLinkWithFallback packageManager dependencyType packagePath projectPath
    packageName m = (Rejected e, m') ->
  exists text, e = Error text.
Proof.
  unfold executeLinkWithFallback, try_catch, bind, settle, resolve, reject.
  destruct (executeCommand _ projectPath m) as [[output|linkError] m1] eqn:L;
    [discriminate|].
  destruct (executeCommand_rejects_Error _ _ _ L) as [text ->].
  destruct (isWorkspaceError text); [|intros H; inversion H; eauto].
  destruct (getAddCommand packageManager packagePath dependencyType) as [add|x] eqn:G.
  - destruct (executeCommand add projectPath m1) as [[output|addError] m2] eqn:A;
      [discriminate|].
    intros H; inversion H; subst. exact (executeCommand_rejects_Error _ _ _ A).
  - intros H; inversion H; subst.
    unfold getAddCommand in G.
    repeat (match type of G with
            | context [match ?x with _ => _ end] => destruct x
            end; try discriminate);
      inversion G; unfold not_a_function, TypeError; eauto.
Qed.

(** C1: [npmLink] always returns a [LinkResult]; whatever the [try] block
    throws is an [Error] and becomes the failing result that carries its
    message and the error itself. *)
Theorem npmLink_never_throws (options : LinkOptions) (m : Machine World) :
  exists result m',
    npmLink options m = (Resolved result, m') /\
    forall e m1,
      npmLink_try options m = (Rejected e, m1) ->
      exists text,
        e = Error text /\ m' = m1 /\
        result = {| success := false;
                    message := "Failed to create link: " ++ text;
                    error := Some e |}.
Proof.
  unfold npmLink, try_catch.
  destruct (npmLink_try options m) as [[result|e] m1] eqn:T.
  - exists result, m1. split; [reflexivity|]. intros e m2 H. discriminate.
  - assert (K : exists text, e = Error text).
    { revert T. unfold npmLink_try, bind, resolve.
      destruct (validatePackage_total (packagePath options) (packageName options) m)
        as (r & w & ->).
      destruct r as [failure|]; [discriminate|].
      destruct (detectPackageManager_total (projectPath options)
                  {| world := w; executed := executed m |}) as (pm & w' & ->).
      apply executeLinkWithFallback_rejects_Error. }
    destruct K as [text ->].
    eexists _, m1. split; [reflexivity|].
    intros e m2 H. inversion H; subst. exists text. auto.
Qed.

Lemma after_after (m : Machine World) (w w' : World) (a b : list (string * string)) :
  after (after m w a) w' b = after m w' (a ++ b).
Proof. unfold after; cbn [world executed]. now rewrite app_assoc. Qed.

Lemma after_nil (m : Machine World) (w : World) :
  after m w [] = {| world := w; executed := executed m |}.
Proof. unfold after. now rewrite app_nil_r. Qed.

(** The only value [getAddCommand] throws. *)
Lemma getAddCommand_rejects (manager packagePath type : string) x :
  getAddCommand manager packagePath type = Rejected x -> x = not_a_function.
Proof.
  unfold getAddCommand.
  repeat (match goal with
          | |- context [match ?x with Some _ => _ | None => _ end] => destruct x
          end; try discriminate);
    intros H; inversion H; reflexivity.
Qed.

(** [executeLinkWithFallback], run against the answers of [cp.exec]. *)
Lemma executeLinkWithFallback_run (options : LinkOptions) (manager : string)
  (m : Machine World) r w :
  let link := createLinkCommand manager (packagePath options) in
  cp_exec link (projectPath options) (world m) = (r, w) ->
  executeLinkWithFallback manager (requestedType options) (packagePath options)
    (projectPath options) (packageName options) m
  = match exec_error r with
    | None => (Resolved (linked options (trim (stdout r))), after m w [(link, projectPath options)])
    | Some _ =>
        if isWorkspaceError (commandFailure r) then
          match getAddCommand manager (packagePath options) (requestedType options) with
          | Rejected x => (Rejected x, after m w [(link, projectPath options)])
          | Resolved add =>
              let (r2, w2) := cp_exec add (projectPath options) w in
              (match exec_error r2 with
               | None => Resolved (added options (trim (stdout r2)))
               | Some _ => Rejected (Error (commandFailure r2))
               end,
               after m w2 [(link, projectPath options); (add, projectPath options)])
          end
        else (Rejected (Error (commandFailure r)), after m w [(link, projectPath options)])
    end.
Proof.
  cbv zeta. intros E.
  unfold executeLinkWithFallback, try_catch, bind, settle, resolve, reject.
  rewrite (executeCommand_run _ _ _ E).
  destruct (exec_error r); [|reflexivity].
  destruct (isWorkspaceError (commandFailure r)); [|reflexivity].
  destruct (getAddCommand manager (packagePath options) (requestedType options))
    as [add|x]; [|reflexivity].
  destruct (cp_exec add (projectPath options) w) as [r2 w2] eqn:E2.
  assert (E2' : cp_exec add (projectPath options)
                  (world (after m w [(createLinkCommand manager (packagePath options),
                                      projectPath options)])) = (r2, w2)) by exact E2.
  rewrite (executeCommand_run _ _ _ E2'), after_after.
  destruct (exec_error r2); reflexivity.
Qed.

(** [npmLink] once validation has passed and a manager is chosen, run
    against the answers of [cp.exec]. *)
Lemma npmLink_run (options : LinkOptions) (manager : string)
  (m m0 m1 : Machine World) r w :
  let link := createLinkCommand manager (packagePath options) in
  validatePackage (packagePath options) (packageName options) m = (Resolved None, m0) ->
  detectPackageManager (projectPath options) m0 = (Resolved manager, m1) ->
  cp_exec link (projectPath options) (world m1) = (r, w) ->
  npmLink options m
  = match exec_error r with
    | None => (Resolved (linked options (trim (stdout r))), after m w [(link, projectPath options)])
    | Some _ =>
        if isWorkspaceError (commandFailure r) then
          match getAddCommand manager (packagePath options) (requestedType options) with
          | Rejected x =>
              (Resolved (failed x
                 "packageManagerCommands[manager][normalizedType] is not a function"),
               after m w [(link, projectPath options)])
          | Resolved add =>
              let (r2, w2) := cp_exec add (projectPath options) w in
              (Resolved match exec_error r2 with
                        | None => added options (trim (stdout r2))
                        | Some _ => failed (Error (commandFailure r2)) (commandFailure r2)
                        end,
               after m w2 [(link, projectPath options); (add, projectPath options)])
          end
        else (Resolved (failed (Error (commandFailure r)) (commandFailure r)),
              after m w [(link, projectPath options)])
    end.
Proof.
  cbv zeta. intros V D E.
  assert (X0 : executed m0 = executed m).
  { destruct (validatePackage_total (packagePath options) (packageName options) m)
      as (r0 & w0 & K). rewrite K in V. inversion V; reflexivity. }
  assert (X1 : executed m1 = executed m).
  { destruct (detectPackageManager_total (projectPath options) m0) as (pm & w1 & K).
    rewrite K in D. inversion D. exact X0. }
  assert (A : forall w' l, after m1 w' l = after m w' l).
  { intros w' l. unfold after. now rewrite X1. }
  unfold npmLink, try_catch, npmLink_try, bind, resolve.
  rewrite V, D.
  fold (requestedType options).
  rewrite (executeLinkWithFallback_run options manager m1 E), !A.
  destruct (exec_error r); [|reflexivity].
  destruct (isWorkspaceError (commandFailure r)); [|reflexivity].
  destruct (getAddCommand manager (packagePath options) (requestedType options))
    as [add|x] eqn:G.
  - destruct (cp_exec add (projectPath options) w) as [r2 w2].
    rewrite A. destruct (exec_error r2); reflexivity.
  - rewrite (getAddCommand_rejects _ _ _ G). reflexivity.
Qed.

(** The text of a failed execution mentions a workspace exactly when the
    two captured streams do. *)
Lemma classification_reads_streams (r : ExecResult) :
  isWorkspaceError (commandFailure r) = mentionsWorkspace (stdout r ++ LF ++ stderr r).
Proof.
  rewrite workspace_single_check.
  unfold mentionsWorkspace, commandFailure.
  generalize (stdout r ++ LF ++ stderr r). intros s.
  reflexivity.
Qed.

(** The words put before the two streams hold neither token. *)
Lemma failure_prefix_is_silent (r : ExecResult) :
  containsIgnoringCase (commandFailure r) "workspace"
  = containsIgnoringCase (stdout r ++ LF ++ stderr r) "workspace" /\
  containsIgnoringCase (commandFailure r) "ERR_PNPM_WORKSPACE_PKG_NOT_FOUND"
  = containsIgnoringCase (stdout r ++ LF ++ stderr r) "ERR_PNPM_WORKSPACE_PKG_NOT_FOUND".
Proof.
  unfold containsIgnoringCase, commandFailure.
  change (toLowerCase "workspace") with "workspace".
  change (toLowerCase "ERR_PNPM_WORKSPACE_PKG_NOT_FOUND")
    with "err_pnpm_workspace_pkg_not_found".
  generalize (stdout r ++ LF ++ stderr r). intros s.
  change (toLowerCase ("Command execution failed: " ++ s))
    with ("command execution failed: " ++ toLowerCase s).
  generalize (toLowerCase s). intros l.
  split; reflexivity.
Qed.

(** C3, amended: a failed link command is taken for a workspace failure
    exactly when its two captured streams, the standard output, a line feed
    and the standard error, contain ["workspace"] or
    ["ERR_PNPM_WORKSPACE_PKG_NOT_FOUND"], letter case ignored; the message of
    the error [cp.exec] reports is not read. Any other failure is thrown on
    at once, after that single command, and is the final failure of
    [npmLink]; a workspace failure is followed by the add command. *)
Theorem link_failure_reads_streams (options : LinkOptions) (manager : string)
  (m : Machine World) r w :
  let link := createLinkCommand manager (packagePath options) in
  let streams := stdout r ++ LF ++ stderr r in
  let text := commandFailure r in
  let fallback :=
    executeLinkWithFallback manager (requestedType options) (packagePath options)
      (projectPath options) (packageName options) in
  cp_exec link (projectPath options) (world m) = (r, w) ->
  exec_error r <> None ->
  inherited manager = false ->
  (isWorkspaceError text = true <->
     containsIgnoringCase streams "workspace" = true \/
     containsIgnoringCase streams "ERR_PNPM_WORKSPACE_PKG_NOT_FOUND" = true) /\
  (isWorkspaceError text = false ->
     fallback m = (Rejected (Error text), after m w [(link, projectPath options)]) /\
     forall m' m0 : Machine World,
       validatePackage (packagePath options) (packageName options) m'
         = (Resolved None, m0) ->
       detectPackageManager (projectPath options) m0 = (Resolved manager, m) ->
       npmLink options m'
       = (Resolved (failed (Error text) text),
          after m' w [(link, projectPath options)])) /\
  (isWorkspaceError text = true ->
     exists add r2 w2 outcome,
       getAddCommand manager (packagePath options) (requestedType options)
         = Resolved add /\
       cp_exec add (projectPath options) w = (r2, w2) /\
       fallback m
       = (outcome, after m w2 [(link, projectPath options); (add, projectPath options)])).
Proof.
  cbv zeta. intros E F I.
  split.
  { destruct (failure_prefix_is_silent r) as [<- <-].
    apply isWorkspaceError_classifies. }
  pose proof (executeLinkWithFallback_run options manager m E) as R.
  cbv zeta in R.
  destruct (exec_error r) as [x|] eqn:X; [clear F|contradiction].
  split.
  - intros C. rewrite C in R. split; [exact R|].
    intros m' m0 V D.
    pose proof (npmLink_run options m' V D E) as N.
    cbv zeta in N. now rewrite X, C in N.
  - intros C.
    destruct (getAddCommand_resolves manager (packagePath options)
                (requestedType options) I) as [add G].
    destruct (cp_exec add (projectPath options) w) as [r2 w2] eqn:E2.
    rewrite C, G, E2 in R.
    exists add, r2, w2. eexists. split; [exact G | split; [exact E2 | exact R]].
Qed.

(** C4: the protocol of the orchestrator for a package that passes
    validation, the detected manager being none of the members inherited from
    [Object.prototype]. The link command is run once. When it succeeds, or
    fails otherwise than on a workspace, it is the only command, and the
    failure is the result. When it fails on a workspace the add command is
    run once after it, and its success or failure is the result: two
    commands, and nothing after them. *)
Theorem link_then_fallback_protocol (options : LinkOptions) (manager : string)
  (m m0 m1 : Machine World) r w :
  let link := createLinkCommand manager (packagePath options) in
  validatePackage (packagePath options) (packageName options) m = (Resolved None, m0) ->
  detectPackageManager (projectPath options) m0 = (Resolved manager, m1) ->
  cp_exec link (projectPath options) (world m1) = (r, w) ->
  inherited manager = false ->
  exists result m',
    npmLink options m = (Resolved result, m') /\
    match exec_error r with
    | None => success result = true /\ m' = after m w [(link, projectPath options)]
    | Some _ =>
        if isWorkspaceError (commandFailure r) then
          exists add r2 w2,
            getAddCommand manager (packagePath options) (requestedType options)
              = Resolved add /\
            cp_exec add (projectPath options) w = (r2, w2) /\
            m' = after m w2 [(link, projectPath options); (add, projectPath options)] /\
            success result = match exec_error r2 with None => true | Some _ => false end
        else success result = false /\ m' = after m w [(link, projectPath options)]
    end.
Proof.
  cbv zeta. intros V D E I.
  pose proof (npmLink_run options m V D E) as N. cbv zeta in N.
  rewrite N. clear N.
  destruct (exec_error r); [|eauto].
  destruct (isWorkspaceError (commandFailure r)); [|eauto].
  destruct (getAddCommand_resolves manager (packagePath options)
              (requestedType options) I) as [add ->].
  destruct (cp_exec add (projectPath options) w) as [r2 w2] eqn:E2.
  eexists _, _. split; [reflexivity|].
  exists add, r2, w2.
  split; [reflexivity | split; [exact E2 | split; [reflexivity|]]].
  destruct (exec_error r2); reflexivity.
Qed.

Ltac advance := cbv beta iota zeta; cbn [world executed negb]; cbv beta iota zeta.

Ltac enter_validatePackage :=
  cbv [validatePackage try_catch bind call settle resolve]; advance.

(** A manifest that is read and parsed brings [validatePackage] to its
    checks of the name. *)
Lemma validatePackage_manifest (packagePath packageName : string)
  (m : Machine World) (packageJson : Json) (w : World) :
  manifestOf packagePath m packageJson w ->
  validatePackage packagePath packageName m
  = (match getName packageJson with
     | Rejected e => Resolved (Some (failed (asError e) (describe e)))
     | Resolved v =>
         if negb (truthy v) then
           Resolved (Some (rejection ("No package name found in package.json: "
                                        ++ path_join packagePath "package.json")))
         else if strictNotEqual v packageName then
           match interpolate v with
           | Rejected e => Resolved (Some (failed (asError e) (describe e)))
           | Resolved shown =>
               Resolved (Some (rejection
                 ("Package name in package.json (" ++ shown
                    ++ ") does not match provided package name ("
                    ++ packageName ++ ")")))
           end
         else Resolved None
     end,
     {| world := w; executed := executed m |}).
Proof.
  intros (ds & w1 & fs & w2 & content & S1 & D1 & S2 & F2 & R & P).
  enter_validatePackage.
  rewrite S1; advance. rewrite D1; advance. rewrite S2; advance.
  rewrite F2; advance. rewrite R; advance. rewrite P; advance.
  destruct (getName packageJson) as [v|e]; [|reflexivity]. advance.
  destruct (truthy v); [|reflexivity]. advance.
  destruct (strictNotEqual v packageName); [|reflexivity].
  destruct (interpolate v); reflexivity.
Qed.

(** A manifest whose name is the expected, non-empty one passes. *)
Lemma validatePackage_passes (packagePath packageName : string)
  (m : Machine World) (packageJson : Json) (w : World) :
  manifestOf packagePath m packageJson w ->
  getName packageJson = Resolved (Some (JStr packageName)) ->
  packageName <> EmptyString ->
  validatePackage packagePath packageName m
  = (Resolved None, {| world := w; executed := executed m |}).
Proof.
  intros M G N. rewrite (validatePackage_manifest packageName M), G.
  cbn [truthy strictNotEqual].
  apply String.eqb_neq in N. rewrite N, String.eqb_refl. reflexivity.
Qed.

(** C5, amended: the five scenarios end in a result with [success = false]
    and no command run. A path that exists and is not a directory gives
    ["does not exist"], a [package.json] that exists and is not a regular
    file ["No package.json found"], a manifest with no name
    ["No package name found"], another name ["does not match"]; a path or a
    [package.json] that [fs.stat] cannot find gives
    ["Failed to create link: "] followed by the message of the error, with the
    error attached. When all checks pass the result is [null] and [npmLink]
    goes on to run the link command. *)
Theorem validatePackage_scenarios (options : LinkOptions) (m : Machine World) :
  let still w := {| world := w; executed := executed m |} in
  let packageJsonPath := path_join (packagePath options) "package.json" in
  let validated := validatePackage (packagePath options) (packageName options) m in
  (forall e w,
      fs_stat (packagePath options) (world m) = (Rejected e, w) ->
      validated = (Resolved (Some (failed (asError e) (describe e))), still w)) /\
  (forall stats w,
      fs_stat (packagePath options) (world m) = (Resolved stats, w) ->
      isDirectory stats = false ->
      exists text,
        validated = (Resolved (Some (rejection text)), still w) /\
        includes text "does not exist" = true) /\
  (forall stats w1 e w,
      fs_stat (packagePath options) (world m) = (Resolved stats, w1) ->
      isDirectory stats = true ->
      fs_stat packageJsonPath w1 = (Rejected e, w) ->
      validated = (Resolved (Some (failed (asError e) (describe e))), still w)) /\
  (forall stats w1 fileStats w,
      fs_stat (packagePath options) (world m) = (Resolved stats, w1) ->
      isDirectory stats = true ->
      fs_stat packageJsonPath w1 = (Resolved fileStats, w) ->
      isFile fileStats = false ->
      exists text,
        validated = (Resolved (Some (rejection text)), still w) /\
        includes text "No package.json found" = true) /\
  (forall members w,
      manifestOf (packagePath options) m (JObj members) w ->
      getOwn members "name" = None ->
      exists text,
        validated = (Resolved (Some (rejection text)), still w) /\
        includes text "No package name found" = true) /\
  (forall members found w,
      manifestOf (packagePath options) m (JObj members) w ->
      getOwn members "name" = Some (JStr found) ->
      found <> EmptyString ->
      found <> packageName options ->
      exists text,
        validated = (Resolved (Some (rejection text)), still w) /\
        includes text "does not match" = true) /\
  (forall members w,
      manifestOf (packagePath options) m (JObj members) w ->
      getOwn members "name" = Some (JStr (packageName options)) ->
      packageName options <> EmptyString ->
      validated = (Resolved None, still w)) /\
  (forall failure m0,
      validated = (Resolved (Some failure), m0) ->
      npmLink options m = (Resolved failure, m0) /\ executed m0 = executed m) /\
  (forall m0,
      validated = (Resolved None, m0) ->
      exists manager result w rest,
        npmLink options m
        = (Resolved result,
           after m w ((createLinkCommand manager (packagePath options),
                       projectPath options) :: rest))).
Proof.
  cbv zeta. repeat apply conj.
  - intros e w S1.
    enter_validatePackage. rewrite S1. reflexivity.
  - intros stats w S1 D1.
    eexists. split.
    + enter_validatePackage. rewrite S1; advance. rewrite D1. reflexivity.
    + exact (includes_app "Package directory " "does not exist"
               (": " ++ packagePath options)).
  - intros stats w1 e w S1 D1 S2.
    enter_validatePackage.
    rewrite S1; advance. rewrite D1; advance. rewrite S2. reflexivity.
  - intros stats w1 fileStats w S1 D1 S2 F2.
    eexists. split.
    + enter_validatePackage.
      rewrite S1; advance. rewrite D1; advance. rewrite S2; advance.
      rewrite F2. reflexivity.
    + exact (includes_app EmptyString "No package.json found" (" in: " ++ packagePath options)).
  - intros members w M G.
    rewrite (validatePackage_manifest (packageName options) M).
    cbn [getName]. rewrite G.
    eexists. split; [reflexivity|].
    exact (includes_app EmptyString "No package name found"
             (" in package.json: " ++ path_join (packagePath options) "package.json")).
  - intros members found w M G N1 N2.
    rewrite (validatePackage_manifest (packageName options) M).
    cbn [getName]. rewrite G.
    cbn [truthy strictNotEqual interpolate toText].
    apply String.eqb_neq in N1, N2. rewrite N1, N2. cbn [negb].
    eexists. split; [reflexivity|].
    pose proof (includes_app (("Package name in package.json (" ++ found) ++ ") ")
                  "does not match"
                  (" provided package name (" ++ packageName options ++ ")")) as K.
    rewrite !append_assoc in K. exact K.
  - intros members w M G N.
    apply (validatePackage_passes M); [cbn [getName]; now rewrite G | exact N].
  - intros failure m0 V.
    split.
    + unfold npmLink, try_catch, npmLink_try, bind, resolve. now rewrite V.
    + destruct (validatePackage_total (packagePath options) (packageName options) m)
        as (r0 & w0 & K).
      rewrite K in V. inversion V; reflexivity.
  - intros m0 V.
    destruct (detectPackageManager_total (projectPath options) m0)
      as (manager & w1 & D).
    destruct (cp_exec (createLinkCommand manager (packagePath options))
                (projectPath options) w1) as [r w] eqn:E.
    pose proof (npmLink_run options m V D E) as N. cbv zeta in N.
    exists manager.
    rewrite N. clear N.
    destruct (exec_error r); [|eexists _, _, _; reflexivity].
    destruct (isWorkspaceError (commandFailure r)); [|eexists _, _, _; reflexivity].
    destruct (getAddCommand manager (packagePath options) (requestedType options))
      as [add|x]; [|eexists _, _, _; reflexivity].
    destruct (cp_exec add (projectPath options) w) as [r2 w2].
    eexists _, _, _; reflexivity.
Qed.

(** [detectPackageManager], run against the answer of the detector. *)
Lemma detectPackageManager_run (projectPath : string) (m : Machine World) d w :
  detect projectPath (world m) = (d, w) ->
  detectPackageManager projectPath m
  = (Resolved (chosenManager d), {| world := w; executed := executed m |}).
Proof.
  intros E. cbv [detectPackageManager try_catch bind call settle resolve].
  rewrite E. destruct d as [[result|]|e]; reflexivity.
Qed.

Lemma degraded_chooses_npm (d : Outcome (option DetectResult)) :
  degraded d -> chosenManager d = "npm" \/ chosenManager d = EmptyString.
Proof.
  destruct d as [[result|]|e]; cbn [degraded chosenManager]; auto.
  intros [-> | ->]; auto.
Qed.

Lemma linked_run (options : LinkOptions) (manager : string)
  (m m0 m1 : Machine World) r w :
  let link := createLinkCommand manager (packagePath options) in
  validatePackage (packagePath options) (packageName options) m = (Resolved None, m0) ->
  detectPackageManager (projectPath options) m0 = (Resolved manager, m1) ->
  cp_exec link (projectPath options) (world m1) = (r, w) ->
  exec_error r = None ->
  npmLink options m
  = (Resolved (linked options (trim (stdout r))),
     after m w [(link, projectPath options)]).
Proof.
  cbv zeta. intros V D E X.
  pose proof (npmLink_run options m V D E) as N. cbv zeta in N.
  now rewrite X in N.
Qed.

Lemma added_run (options : LinkOptions) (manager : string)
  (m m0 m1 : Machine World) r w add r2 w2 :
  let link := createLinkCommand manager (packagePath options) in
  validatePackage (packagePath options) (packageName options) m = (Resolved None, m0) ->
  detectPackageManager (projectPath options) m0 = (Resolved manager, m1) ->
  cp_exec link (projectPath options) (world m1) = (r, w) ->
  exec_error r <> None ->
  isWorkspaceError (commandFailure r) = true ->
  getAddCommand manager (packagePath options) (requestedType options) = Resolved add ->
  cp_exec add (projectPath options) w = (r2, w2) ->
  exec_error r2 = None ->
  npmLink options m
  = (Resolved (added options (trim (stdout r2))),
     after m w2 [(link, projectPath options); (add, projectPath options)]).
Proof.
  cbv zeta. intros V D E X C G E2 X2.
  pose proof (npmLink_run options m V D E) as N. cbv zeta in N.
  destruct (exec_error r); [|contradiction].
  now rewrite C, G, E2, X2 in N.
Qed.

(** C6, amended: after a successful link the message ends with the
    standard output of the command with the white space at its two ends
    removed, and likewise after a successful fallback; in the end-to-end
    example that output is ["ok"] as it stands. What [trim] returns is the
    output with white space only taken off its two ends, and it neither
    starts nor ends with a white space code point, those outside ASCII
    included. *)
Theorem link_result_messages :
  (forall output : string, trimmed output (trim output)) /\
  (forall (options : LinkOptions) (manager : string) (m m0 m1 : Machine World) r w,
      let link := createLinkCommand manager (packagePath options) in
      validatePackage (packagePath options) (packageName options) m
        = (Resolved None, m0) ->
      detectPackageManager (projectPath options) m0 = (Resolved manager, m1) ->
      cp_exec link (projectPath options) (world m1) = (r, w) ->
      exec_error r = None ->
      npmLink options m
      = (Resolved
           {| success := true;
              message := "Successfully linked " ++ packageName options ++ " from "
                           ++ packagePath options ++ " to project at "
                           ++ projectPath options ++ LF ++ trim (stdout r);
              error := None |},
         after m w [(link, projectPath options)])) /\
  (forall (options : LinkOptions) (manager : string) (m m0 m1 : Machine World)
          r w add r2 w2,
      let link := createLinkCommand manager (packagePath options) in
      validatePackage (packagePath options) (packageName options) m
        = (Resolved None, m0) ->
      detectPackageManager (projectPath options) m0 = (Resolved manager, m1) ->
      cp_exec link (projectPath options) (world m1) = (r, w) ->
      exec_error r <> None ->
      isWorkspaceError (commandFailure r) = true ->
      getAddCommand manager (packagePath options) (requestedType options)
        = Resolved add ->
      cp_exec add (projectPath options) w = (r2, w2) ->
      exec_error r2 = None ->
      npmLink options m
      = (Resolved
           {| success := true;
              message := "Successfully added " ++ packageName options ++ " from "
                           ++ packagePath options ++ " to project at "
                           ++ projectPath options ++ " (fallback from link)"
                           ++ LF ++ trim (stdout r2);
              error := None |},
         after m w2 [(link, projectPath options); (add, projectPath options)])) /\
  (forall (m : Machine World) w0 w1 w2 errors,
      manifestOf "/pkg" m (JObj [("name", JStr "foo")]) w0 ->
      detect "/proj" w0 = (Resolved (Some {| name := Some "pnpm" |}), w1) ->
      cp_exec "pnpm link /pkg" "/proj" w1
        = ({| exec_error := None; stdout := "ok"; stderr := errors |}, w2) ->
      npmLink {| dependencyType := None; packageName := "foo";
                 packagePath := "/pkg"; projectPath := "/proj" |} m
      = (Resolved
           {| success := true;
              message := "Successfully linked foo from /pkg to project at /proj"
                           ++ LF ++ "ok";
              error := None |},
         after m w2 [("pnpm link /pkg", "/proj")])).
Proof.
  split; [exact trim_spec|].
  split; [|split].
  - intros options manager m m0 m1 r w link V D E X.
    exact (linked_run options m V D E X).
  - intros options manager m m0 m1 r w add r2 w2 link V D E X C G E2 X2.
    exact (added_run options m V D E X C G E2 X2).
  - intros m w0 w1 w2 errors M D E.
    assert (V : validatePackage "/pkg" "foo" m
                = (Resolved None, {| world := w0; executed := executed m |})).
    { apply (validatePackage_passes M); [reflexivity | discriminate]. }
    pose proof (detectPackageManager_run "/proj"
                  {| world := w0; executed := executed m |} D) as D'.
    exact (linked_run foo_request m V D' E eq_refl).
Qed.

(** C8: detection that rejects, or answers [null], or a result with no
    name or an empty one, is not a failure of the operation: the core goes
    on with a manager whose commands are the npm ones, and for a valid
    package whose link command succeeds exactly one command is run, the npm
    link command. *)
Theorem detection_degrades_to_npm (options : LinkOptions)
  (m m0 : Machine World) d w1 r w2 :
  let link := "npm link " ++ packagePath options in
  validatePackage (packagePath options) (packageName options) m = (Resolved None, m0) ->
  detect (projectPath options) (world m0) = (d, w1) ->
  degraded d ->
  cp_exec link (projectPath options) w1 = (r, w2) ->
  exec_error r = None ->
  (exists manager,
      detectPackageManager (projectPath options) m0
      = (Resolved manager, {| world := w1; executed := executed m0 |}) /\
      (forall path, createLinkCommand manager path = "npm link " ++ path) /\
      (forall path type, getAddCommand manager path type = getAddCommand "npm" path type)) /\
  npmLink options m
  = (Resolved (linked options (trim (stdout r))),
     after m w2 [(link, projectPath options)]).
Proof.
  cbv zeta. intros V D G E X.
  pose proof (detectPackageManager_run (projectPath options) m0 D) as D'.
  assert (K : (forall path, createLinkCommand (chosenManager d) path = "npm link " ++ path)
              /\ (forall path type, getAddCommand (chosenManager d) path type
                                   = getAddCommand "npm" path type)).
  { destruct (degraded_chooses_npm d G) as [-> | ->]; split; reflexivity. }
  split.
  - exists (chosenManager d). split; [exact D'|exact K].
  - destruct K as [K _].
    assert (E' : cp_exec (createLinkCommand (chosenManager d) (packagePath options))
                   (projectPath options)
                   (world {| world := w1; executed := executed m0 |}) = (r, w2)).
    { rewrite K. exact E. }
    pose proof (linked_run options m V D' E' X) as N.
    cbv zeta in N. rewrite K in N. exact N.
Qed.

End Properties.

(* ================================================================== *)
(** ** Concrete runs *)

(** The condition on the manager cannot be dropped from the protocol. The
    package passes validation and the link command fails on a workspace, but
    the manager is ["constructor"]: [getAddCommand] throws, the add command is
    never run, and the run ends after one command with a failure. *)
Remark fallback_skipped_for_inherited_manager :
  validatePackage (io := inherited_manager) "/pkg" "foo" start
    = (Resolved None, start) /\
  detectPackageManager (io := inherited_manager) "/proj" start
    = (Resolved "constructor", start) /\
  isWorkspaceError (commandFailure (fails "ERR_PNPM_WORKSPACE_PKG_NOT_FOUND")) = true /\
  npmLink (io := inherited_manager) foo_request start
    = (Resolved
         (failed not_a_function
            "packageManagerCommands[manager][normalizedType] is not a function"),
       {| world := 1; executed := [("npm link /pkg", "/proj")] |}).
Proof. repeat split. Qed.

(** C5, as stated, fails: for a path that does not exist, and for a
    directory without [package.json], the message is the one of the error
    [fs.stat] rejects with and holds none of the four substrings. *)
Lemma missing_path_message :
  tree_stat "/nope" = Rejected (ENOENT "stat" "/nope") /\
  tree_stat "/empty" = Resolved directory /\
  tree_stat "/empty/package.json" = Rejected (ENOENT "stat" "/empty/package.json") /\
  exists r1 r2,
    validatePackage (io := pnpm_links) "/nope" "foo" start = (Resolved (Some r1), start) /\
    validatePackage (io := pnpm_links) "/empty" "foo" start = (Resolved (Some r2), start) /\
    message r1 = "Failed to create link: ENOENT: no such file or directory, stat '/nope'" /\
    message r2 = "Failed to create link: ENOENT: no such file or directory, stat '/empty/package.json'" /\
    forall r, r = r1 \/ r = r2 ->
      success r = false /\
      includes (message r) "does not exist" = false /\
      includes (message r) "No package.json found" = false /\
      includes (message r) "No package name found" = false /\
      includes (message r) "does not match" = false.
Proof.
  repeat split.
  eexists _, _. split; [reflexivity|]. split; [reflexivity|].
  split; [reflexivity|]. split; [reflexivity|].
  intros r [-> | ->]; repeat split.
Qed.

(** C6, as stated, fails: a link command that prints ["ok"] and a line
    feed succeeds, and the message ends with ["ok"], not with the output as
    printed. *)
Lemma printed_output_is_trimmed :
  exists r m',
    npmLink (io := pnpm_links_with_newline) foo_request start = (Resolved r, m') /\
    executed m' = [("pnpm link /pkg", "/proj")] /\
    success r = true /\
    message r = "Successfully linked foo from /pkg to project at /proj" ++ LF ++ "ok" /\
    message r <> "Successfully linked foo from /pkg to project at /proj" ++ LF
                   ++ ("ok" ++ LF).
Proof.
  eexists _, _. split; [reflexivity|]. repeat split. discriminate.
Qed.

(** C3, as stated, fails: the text tested holds the standard output and
    not the message of the error. A link command that names the workspace
    failure on its standard output only, its standard error and its error
    holding nothing of the kind, is followed by the add command; and one whose
    error alone mentions a workspace, through the path of the package, is
    not. *)
Lemma classification_ignores_error_text :
  (mentionsWorkspace (stderr fails_on_stdout) = false /\
   exec_error fails_on_stdout = Some ("Command failed: pnpm link /pkg" ++ LF) /\
   mentionsWorkspace ("Command failed: pnpm link /pkg" ++ LF) = false /\
   npmLink (io := pnpm_prints_workspace) foo_request start
   = (Resolved (added foo_request "added"),
      {| world := 2;
         executed := [("pnpm link /pkg", "/proj"); ("pnpm add --save /pkg", "/proj")] |})) /\
  (mentionsWorkspace (stderr fails_in_workspace) = false /\
   exec_error fails_in_workspace
   = Some ("Command failed: pnpm link /workspace/pkg" ++ LF ++ "permission denied") /\
   mentionsWorkspace
     ("Command failed: pnpm link /workspace/pkg" ++ LF ++ "permission denied") = true /\
   npmLink (io := package_in_workspace) (request "/workspace/pkg" "foo") start
   = (Resolved (failed (Error (commandFailure fails_in_workspace))
                  (commandFailure fails_in_workspace)),
      {| world := 1; executed := [("pnpm link /workspace/pkg", "/proj")] |})).
Proof. repeat split. Qed.

(** Runs of C3: a failure that names the workspace token on its standard
    error is followed by the add command, and so is one that writes
    [WORKSPACE] with the Kelvin sign, whose lower case is [k];
    ["Some other error"] is thrown on after the one command. *)
Lemma link_failure_reads_streams_witness :
  (exists outcome,
      executeLinkWithFallback (io := pnpm_falls_back) "pnpm" "prod" "/pkg" "/proj" "foo"
        start
      = (outcome,
         {| world := 2;
            executed := [("pnpm link /pkg", "/proj"); ("pnpm add --save /pkg", "/proj")] |})) /\
  (exists outcome,
      executeLinkWithFallback (io := pnpm_fails_with_kelvin_sign)
        "pnpm" "prod" "/pkg" "/proj" "foo" start
      = (outcome,
         {| world := 2;
            executed := [("pnpm link /pkg", "/proj"); ("pnpm add --save /pkg", "/proj")] |})) /\
  executeLinkWithFallback (io := pnpm_fails) "pnpm" "prod" "/pkg" "/proj" "foo" start
  = (Rejected (Error (commandFailure (fails "Some other error"))),
     {| world := 1; executed := [("pnpm link /pkg", "/proj")] |}).
Proof.
  split; [|split].
  - assert (F : exec_error (fails "ERR_PNPM_WORKSPACE_PKG_NOT_FOUND") <> None)
      by discriminate.
    destruct (@link_failure_reads_streams nat pnpm_falls_back foo_request "pnpm" start
                (fails "ERR_PNPM_WORKSPACE_PKG_NOT_FOUND") 1 eq_refl F eq_refl)
      as (_ & _ & H).
    destruct (H eq_refl) as (add & r2 & w2 & outcome & G & E2 & R).
    exists outcome.
    injection G as <-. injection E2 as <- <-. exact R.
  - assert (F : exec_error fails_with_kelvin_sign <> None) by discriminate.
    destruct (@link_failure_reads_streams nat pnpm_fails_with_kelvin_sign foo_request
                "pnpm" start fails_with_kelvin_sign 1 eq_refl F eq_refl)
      as (_ & _ & H).
    destruct (H eq_refl) as (add & r2 & w2 & outcome & G & E2 & R).
    exists outcome.
    injection G as <-. injection E2 as <- <-. exact R.
  - assert (F : exec_error (fails "Some other error") <> None) by discriminate.
    destruct (@link_failure_reads_streams nat pnpm_fails foo_request "pnpm" start
                (fails "Some other error") 1 eq_refl F eq_refl) as (_ & H & _).
    exact (proj1 (H eq_refl)).
Defined.

(** Runs of C4: a link that fails on a workspace and an add that succeeds,
    two commands; an add that fails as well, two commands and a failure; a
    link that fails otherwise, one command and a failure. *)
Lemma link_then_fallback_protocol_witness :
  (exists result m',
      npmLink (io := pnpm_falls_back) foo_request start = (Resolved result, m') /\
      executed m' = [("pnpm link /pkg", "/proj"); ("pnpm add --save /pkg", "/proj")] /\
      success result = true) /\
  (exists result m',
      npmLink (io := pnpm_fallback_fails) foo_request start = (Resolved result, m') /\
      executed m' = [("pnpm link /pkg", "/proj"); ("pnpm add --save /pkg", "/proj")] /\
      success result = false) /\
  (exists result m',
      npmLink (io := pnpm_fails) foo_request start = (Resolved result, m') /\
      executed m' = [("pnpm link /pkg", "/proj")] /\
      success result = false).
Proof.
  split; [|split].
  - destruct (@link_then_fallback_protocol nat pnpm_falls_back foo_request "pnpm"
                start start start (fails "ERR_PNPM_WORKSPACE_PKG_NOT_FOUND") 1
                eq_refl eq_refl eq_refl eq_refl)
      as (result & m' & N & add & r2 & w2 & G & E2 & M & S).
    exists result, m'. injection G as <-. injection E2 as <- <-.
    split; [exact N | split; [now rewrite M | exact S]].
  - destruct (@link_then_fallback_protocol nat pnpm_fallback_fails foo_request "pnpm"
                start start start (fails "ERR_PNPM_WORKSPACE_PKG_NOT_FOUND") 1
                eq_refl eq_refl eq_refl eq_refl)
      as (result & m' & N & add & r2 & w2 & G & E2 & M & S).
    exists result, m'. injection G as <-. injection E2 as <- <-.
    split; [exact N | split; [now rewrite M | exact S]].
  - destruct (@link_then_fallback_protocol nat pnpm_fails foo_request "pnpm"
                start start start (fails "Some other error") 1
                eq_refl eq_refl eq_refl eq_refl)
      as (result & m' & N & S & M).
    exists result, m'. split; [exact N | split; [now rewrite M | exact S]].
Defined.


(** Runs of C5: a regular file in place of the directory, and the package
    [foo] under its own and under another name. *)
Lemma validatePackage_scenarios_witness :
  (exists text,
      validatePackage (io := pnpm_links) "/file" "foo" start
      = (Resolved (Some (rejection text)), start) /\
      includes text "does not exist" = true) /\
  (exists text,
      validatePackage (io := pnpm_links) "/pkg" "bar" start
      = (Resolved (Some (rejection text)), start) /\
      includes text "does not match" = true) /\
  validatePackage (io := pnpm_links) "/pkg" "foo" start = (Resolved None, start).
Proof.
  split; [|split].
  - destruct (@validatePackage_scenarios nat pnpm_links (request "/file" "foo") start)
      as (_ & H & _).
    exact (H regularFile 0 eq_refl eq_refl).
  - destruct (@validatePackage_scenarios nat pnpm_links (request "/pkg" "bar") start)
      as (_ & _ & _ & _ & _ & H & _).
    refine (H [("name", JStr "foo")] "foo" 0 _ eq_refl _ _).
    + exists directory, 0, regularFile, 0, manifest_foo. repeat split.
    + discriminate.
    + discriminate.
  - destruct (@validatePackage_scenarios nat pnpm_links (request "/pkg" "foo") start)
      as (_ & _ & _ & _ & _ & _ & H & _).
    refine (H [("name", JStr "foo")] 0 _ eq_refl _).
    + exists directory, 0, regularFile, 0, manifest_foo. repeat split.
    + discriminate.
Defined.

(** Runs of C6: the end-to-end example, a fallback, and an output that
    ends with a no-break space. *)
Lemma link_result_messages_witness :
  npmLink (io := pnpm_links_with_no_break_space) foo_request start
  = (Resolved {| success := true;
                 message := "Successfully linked foo from /pkg to project at /proj"
                              ++ LF ++ "ok";
                 error := None |},
     {| world := 1; executed := [("pnpm link /pkg", "/proj")] |}) /\
  npmLink (io := pnpm_links) foo_request start
  = (Resolved {| success := true;
                 message := "Successfully linked foo from /pkg to project at /proj"
                              ++ LF ++ "ok";
                 error := None |},
     {| world := 1; executed := [("pnpm link /pkg", "/proj")] |}) /\
  npmLink (io := pnpm_falls_back) foo_request start
  = (Resolved {| success := true;
                 message := "Successfully added foo from /pkg to project at /proj"
                              ++ " (fallback from link)" ++ LF ++ "added";
                 error := None |},
     {| world := 2;
        executed := [("pnpm link /pkg", "/proj"); ("pnpm add --save /pkg", "/proj")] |}).
Proof.
  split; [|split].
  - destruct (@link_result_messages nat pnpm_links_with_no_break_space)
      as (_ & H & _).
    exact (H foo_request "pnpm" start start start
             (succeeds ("ok" ++ bytes [194; 160])) 1 eq_refl eq_refl eq_refl eq_refl).
  - destruct (@link_result_messages nat pnpm_links) as (_ & _ & _ & H).
    refine (H start 0 0 1 EmptyString _ eq_refl eq_refl).
    exists directory, 0, regularFile, 0, manifest_foo. repeat split.
  - destruct (@link_result_messages nat pnpm_falls_back) as (_ & _ & H & _).
    refine (H foo_request "pnpm" start start start
              (fails "ERR_PNPM_WORKSPACE_PKG_NOT_FOUND") 1
              "pnpm add --save /pkg" (succeeds "added") 2
              eq_refl eq_refl eq_refl _ eq_refl eq_refl eq_refl eq_refl).
    discriminate.
Defined.

(** A run of C8: detection rejects with a string, and the one command run
    is the npm link command. *)
Lemma detection_degrades_to_npm_witness :
  npmLink (io := detection_rejects) foo_request start
  = (Resolved (linked foo_request "linked"),
     {| world := 1; executed := [("npm link /pkg", "/proj")] |}).
Proof.
  exact (proj2 (@detection_degrades_to_npm nat detection_rejects foo_request start
                  start (Rejected (Str "String error")) 0 (succeeds "linked") 1
                  eq_refl eq_refl I eq_refl eq_refl)).
Defined.

(* ================================================================== *)
(** ** Further properties of the orchestrator *)

Section Orchestration.

Context {World : Type} {io : Collaborators World}.

Ltac forward := cbv beta iota zeta; cbn [world executed negb]; cbv beta iota zeta.

(** How a run of [validatePackage] can end: with the failing result made
    from a caught value, with one of the four rejections, or with [null]
    after every check. No command is run. *)
Lemma validatePackage_cases (packagePath packageName : string)
  (m m' : Machine World) (verdict : option LinkResult) :
  validatePackage packagePath packageName m = (Resolved verdict, m') ->
  executed m' = executed m /\
  ((exists e, verdict = Some (failed (asError e) (describe e))) \/
   (exists text, verdict = Some (rejection text)) \/
   (verdict = None /\ packageName <> EmptyString /\
    exists packageJson,
      manifestOf packagePath m packageJson (world m') /\
      getName packageJson = Resolved (Some (JStr packageName)))).
Proof.
  cbv [validatePackage try_catch bind call settle resolve]. forward.
  destruct (fs_stat packagePath (world m)) as [[s1|e] w1] eqn:S1; forward;
    [|intros H; inversion H; subst; split; [reflexivity | left; eexists; reflexivity]].
  destruct (isDirectory s1) eqn:D1; forward;
    [|intros H; inversion H; subst; split; [reflexivity | right; left; eexists; reflexivity]].
  destruct (fs_stat (path_join packagePath "package.json") w1) as [[s2|e] w2] eqn:S2;
    forward;
    [|intros H; inversion H; subst; split; [reflexivity | left; eexists; reflexivity]].
  destruct (isFile s2) eqn:F2; forward;
    [|intros H; inversion H; subst; split; [reflexivity | right; left; eexists; reflexivity]].
  destruct (fs_readFile (path_join packagePath "package.json") w2)
    as [[content|e] w3] eqn:R; forward;
    [|intros H; inversion H; subst; split; [reflexivity | left; eexists; reflexivity]].
  destruct (JSON_parse content) as [packageJson|e] eqn:P; forward;
    [|intros H; inversion H; subst; split; [reflexivity | left; eexists; reflexivity]].
  destruct (getName packageJson) as [v|e] eqn:G; forward;
    [|intros H; inversion H; subst; split; [reflexivity | left; eexists; reflexivity]].
  destruct (truthy v) eqn:T; forward;
    [|intros H; inversion H; subst; split; [reflexivity | right; left; eexists; reflexivity]].
  destruct (strictNotEqual v packageName) eqn:N; forward.
  - destruct (interpolate v) as [shown|e]; forward;
      intros H; inversion H; subst; (split; [reflexivity|]);
      [right; left; eexists; reflexivity | left; eexists; reflexivity].
  - intros H; inversion H; subst. split; [reflexivity|].
    right; right.
    destruct v as [[| | |found| |]|]; try discriminate.
    cbn [strictNotEqual truthy] in N, T.
    apply negb_false_iff, String.eqb_eq in N. subst found.
    apply negb_true_iff, String.eqb_neq in T.
    split; [reflexivity | split; [exact T|]].
    exists packageJson. split; [|exact G].
    exists s1, w1, s2, w2, content. cbn [world]. repeat split; assumption.
Qed.

(** X1: whatever the collaborators do, [npmLink] runs at most two
    commands, each in the project directory; the first one, if any, is a
    link command, and a run without any command is a failure. *)
Theorem npmLink_runs_at_most_two_commands (options : LinkOptions) (m : Machine World) :
  exists result w commands,
    npmLink options m = (Resolved result, after m w commands) /\
    length commands <= 2 /\
    (forall command cwd, In (command, cwd) commands -> cwd = projectPath options) /\
    match commands with
    | [] => success result = false
    | (first, _) :: _ =>
        exists manager, first = createLinkCommand manager (packagePath options)
    end.
Proof.
  destruct (validatePackage (packagePath options) (packageName options) m)
    as [[verdict|e] m0] eqn:V.
  2:{ destruct (validatePackage_total (packagePath options) (packageName options) m)
        as (r & w & K). rewrite K in V. discriminate. }
  destruct (validatePackage_cases _ _ _ V) as [X0 Shape].
  destruct verdict as [failure|].
  - exists failure, (world m0), []. split; [|split; [simpl; lia | split]].
    + unfold npmLink, try_catch, npmLink_try, bind, resolve. rewrite V.
      rewrite after_nil, <- X0. now destruct m0.
    + intros command cwd [].
    + destruct Shape as [[e K]|[[text K]|[K _]]]; inversion K; reflexivity.
  - destruct (detectPackageManager_total (projectPath options) m0)
      as (manager & w1 & D).
    destruct (cp_exec (createLinkCommand manager (packagePath options))
                (projectPath options) w1) as [r w] eqn:E.
    pose proof (npmLink_run options m V D E) as N. cbv zeta in N.
    rewrite N. clear N.
    assert (One : forall command cwd,
               In (command, cwd)
                  [(createLinkCommand manager (packagePath options), projectPath options)]
               -> cwd = projectPath options).
    { intros command cwd [H|[]]. now inversion H. }
    destruct (exec_error r).
    2:{ eexists _, _, _. split; [reflexivity|].
        split; [simpl; lia | split; [exact One | eauto]]. }
    destruct (isWorkspaceError (commandFailure r)).
    2:{ eexists _, _, _. split; [reflexivity|].
        split; [simpl; lia | split; [exact One | eauto]]. }
    destruct (getAddCommand manager (packagePath options) (requestedType options))
      as [add|x].
    2:{ eexists _, _, _. split; [reflexivity|].
        split; [simpl; lia | split; [exact One | eauto]]. }
    destruct (cp_exec add (projectPath options) w) as [r2 w2].
    eexists _, _, _. split; [reflexivity|].
    split; [simpl; lia | split; [|eauto]].
    intros command cwd [H|[H|[]]]; now inversion H.
Qed.

Lemma asError_describe (e : Thrown) : asError e = Error (describe e).
Proof. destruct e; reflexivity. Qed.

(** The results [npmLink] can return. *)
Lemma npmLink_result_shape (options : LinkOptions) (m : Machine World) :
  exists result m',
    npmLink options m = (Resolved result, m') /\
    ((exists text, result = rejection text) \/
     (exists output, result = linked options output) \/
     (exists output, result = added options output) \/
     (exists text, result = failed (Error text) text)).
Proof.
  destruct (validatePackage_total (packagePath options) (packageName options) m)
    as (verdict & w0 & V).
  destruct (validatePackage_cases _ _ _ V) as [_ Shape].
  destruct verdict as [failure|].
  - exists failure, {| world := w0; executed := executed m |}. split.
    + unfold npmLink, try_catch, npmLink_try, bind, resolve. now rewrite V.
    + destruct Shape as [[e K]|[[text K]|[K _]]]; inversion K.
      * right; right; right. exists (describe e). now rewrite asError_describe.
      * left. now exists text.
  - destruct (detectPackageManager_total (projectPath options)
                {| world := w0; executed := executed m |}) as (manager & w1 & D).
    destruct (cp_exec (createLinkCommand manager (packagePath options))
                (projectPath options) w1) as [r w] eqn:E.
    pose proof (npmLink_run options m V D E) as N. cbv zeta in N.
    rewrite N. clear N.
    destruct (exec_error r);
      [|eexists _, _; split; [reflexivity | right; left; eexists; reflexivity]].
    destruct (isWorkspaceError (commandFailure r));
      [|eexists _, _; split;
        [reflexivity | right; right; right; eexists; reflexivity]].
    destruct (getAddCommand manager (packagePath options) (requestedType options))
      as [add|x] eqn:G.
    + destruct (cp_exec add (projectPath options) w) as [r2 w2].
      eexists _, _; split; [reflexivity|].
      destruct (exec_error r2);
        [right; right; right | right; right; left]; eexists; reflexivity.
    + rewrite (getAddCommand_rejects _ _ _ G).
      eexists _, _; split; [reflexivity|].
      right; right; right; eexists; reflexivity.
Qed.

(** X2: the result of [npmLink] is well formed. A success carries no
    error and its message begins with ["Successfully "]; an attached error is
    always an [Error], found only on a failure whose message is
    ["Failed to create link: "] followed by the message of that error. *)
Theorem npmLink_result_well_formed (options : LinkOptions) (m : Machine World) :
  exists result m',
    npmLink options m = (Resolved result, m') /\
    (success result = true ->
       error result = None /\ startsWith (message result) "Successfully " = true) /\
    (forall cause, error result = Some cause ->
       success result = false /\
       exists text,
         cause = Error text /\ message result = "Failed to create link: " ++ text).
Proof.
  destruct (npmLink_result_shape options m) as (result & m' & N & Shape).
  exists result, m'. split; [exact N|].
  destruct Shape as [[text ->]|[[output ->]|[[output ->]|[text ->]]]];
    cbn [success error message rejection linked added failed]; split;
    try (intros H; discriminate H);
    try (intros cause H; discriminate H).
  - intros _. split; reflexivity.
  - intros _. split; reflexivity.
  - intros cause H. inversion H. split; [reflexivity|]. now exists text.
Qed.

(** X3: a failure of the fallback is final, also when it is again a
    workspace failure: the result is the failure of the add command, after
    the two commands. *)
Theorem fallback_failure_is_final (options : LinkOptions) (manager : string)
  (m m0 m1 : Machine World) r w add r2 w2 :
  let link := createLinkCommand manager (packagePath options) in
  validatePackage (packagePath options) (packageName options) m = (Resolved None, m0) ->
  detectPackageManager (projectPath options) m0 = (Resolved manager, m1) ->
  cp_exec link (projectPath options) (world m1) = (r, w) ->
  exec_error r <> None ->
  isWorkspaceError (commandFailure r) = true ->
  getAddCommand manager (packagePath options) (requestedType options) = Resolved add ->
  cp_exec add (projectPath options) w = (r2, w2) ->
  exec_error r2 <> None ->
  npmLink options m
  = (Resolved (failed (Error (commandFailure r2)) (commandFailure r2)),
     after m w2 [(link, projectPath options); (add, projectPath options)]).
Proof.
  cbv zeta. intros V D E X C G E2 X2.
  pose proof (npmLink_run options m V D E) as N. cbv zeta in N.
  destruct (exec_error r); [|contradiction].
  rewrite C, G, E2 in N.
  destruct (exec_error r2); [exact N | contradiction].
Qed.

(** X6: [validatePackage] answers [null] only after every check: the path
    is a directory, its [package.json] a regular file that parses, and the
    name in it is a string equal to the expected name, which is not empty. *)
Theorem validatePackage_sound (packagePath packageName : string)
  (m m' : Machine World) :
  validatePackage packagePath packageName m = (Resolved None, m') ->
  packageName <> EmptyString /\
  executed m' = executed m /\
  exists packageJson,
    manifestOf packagePath m packageJson (world m') /\
    getName packageJson = Resolved (Some (JStr packageName)).
Proof.
  intros V.
  destruct (validatePackage_cases _ _ _ V) as [X [[e K]|[[text K]|[_ [N M]]]]];
    try discriminate.
  auto.
Qed.

(** X7: a manifest that cannot be read or parsed, or that is [null], is
    a validation failure that carries the cause: the message is
    ["Failed to create link: "] followed by the message of the error, or by
    the text of the value when it is no [Error], which is then wrapped in a
    new [Error]. *)
Theorem validatePackage_manifest_errors (packagePath packageName : string)
  (m : Machine World) stats w1 fileStats w2 :
  let packageJsonPath := path_join packagePath "package.json" in
  let validated := validatePackage packagePath packageName m in
  let caught e w :=
    (Resolved (Some {| success := false;
                       message := "Failed to create link: " ++ describe e;
                       error := Some (Error (describe e)) |}),
     {| world := w; executed := executed m |}) in
  fs_stat packagePath (world m) = (Resolved stats, w1) ->
  isDirectory stats = true ->
  fs_stat packageJsonPath w1 = (Resolved fileStats, w2) ->
  isFile fileStats = true ->
  (forall e w, fs_readFile packageJsonPath w2 = (Rejected e, w) ->
               validated = caught e w) /\
  (forall content e w,
      fs_readFile packageJsonPath w2 = (Resolved content, w) ->
      JSON_parse content = Rejected e ->
      validated = caught e w) /\
  (forall content w,
      fs_readFile packageJsonPath w2 = (Resolved content, w) ->
      JSON_parse content = Resolved JNull ->
      validated
      = caught (TypeError "Cannot read properties of null (reading 'name')") w).
Proof.
  cbv zeta. intros S1 D1 S2 F2.
  assert (Enter : forall o w,
            fs_readFile (path_join packagePath "package.json") w2 = (o, w) ->
            validatePackage packagePath packageName m
            = try_catch
                (bind (settle o) (fun packageJsonContent =>
                 bind (settle (JSON_parse packageJsonContent)) (fun packageJson =>
                 bind (settle (getName packageJson)) (fun packageJson_name =>
                 if negb (truthy packageJson_name) then
                   resolve (Some (rejection ("No package name found in package.json: "
                                               ++ path_join packagePath "package.json")))
                 else if strictNotEqual packageJson_name packageName then
                   bind (settle (interpolate packageJson_name)) (fun shown =>
                   resolve (Some (rejection
                     ("Package name in package.json (" ++ shown
                        ++ ") does not match provided package name ("
                        ++ packageName ++ ")"))))
                 else resolve None))))
                (fun error =>
                   resolve (Some (failed (asError error) (describe error))))
                {| world := w; executed := executed m |}).
  { intros o w R.
    cbv [validatePackage try_catch bind call settle resolve]. forward.
    rewrite S1; forward. rewrite D1; forward. rewrite S2; forward.
    rewrite F2; forward. rewrite R. destruct o; reflexivity. }
  repeat split.
  - intros e w R. rewrite (Enter _ _ R).
    cbv [try_catch bind settle resolve failed]. now rewrite asError_describe.
  - intros content e w R P. rewrite (Enter _ _ R).
    cbv [try_catch bind settle resolve failed]. rewrite P.
    now rewrite asError_describe.
  - intros content w R P. rewrite (Enter _ _ R).
    cbv [try_catch bind settle resolve failed]. rewrite P. reflexivity.
Qed.

End Orchestration.

(** X8: the words ["Command execution failed: "] put before the captured
    streams never make a failure a workspace failure: the test on the text of
    the failure is the test on the two streams, so an empty capture is never
    one, and a mention on the standard output alone is one. *)
Theorem failure_prefix_never_classifies (r : ExecResult) :
  isWorkspaceError (commandFailure r)
  = isWorkspaceError (stdout r ++ LF ++ stderr r) /\
  (stdout r = EmptyString -> stderr r = EmptyString ->
   isWorkspaceError (commandFailure r) = false) /\
  (includes (toLowerCase (stdout r)) "workspace" = true ->
   isWorkspaceError (commandFailure r) = true).
Proof.
  assert (K : isWorkspaceError (commandFailure r)
              = isWorkspaceError (stdout r ++ LF ++ stderr r)).
  { rewrite !workspace_single_check.
    unfold mentionsWorkspace, commandFailure.
    generalize (stdout r ++ LF ++ stderr r). intros s. reflexivity. }
  split; [exact K | split].
  - intros H1 H2. unfold commandFailure. rewrite H1, H2. reflexivity.
  - intros H. rewrite K, workspace_single_check. unfold mentionsWorkspace.
    destruct (includes_inv _ _ H) as (a & b & E).
    change (stdout r ++ LF ++ stderr r)
      with (stdout r ++ String (ascii_of_nat 10) (stderr r)).
    rewrite (@toLowerCase_append (stdout r) (ascii_of_nat 10) (stderr r) eq_refl), E,
      !append_assoc.
    apply includes_app.
Qed.

(** X4: the fallback never repeats the command that failed: the add
    command of a manager differs from its link command. *)
Theorem add_command_is_not_link_command (manager packagePath type add : string) :
  getAddCommand manager packagePath type = Resolved add ->
  add <> createLinkCommand manager packagePath.
Proof.
  rewrite getAddCommand_normalized.
  pose proof (normalize_in_canonical (Some type)) as Hc.
  destruct (in_dec string_dec manager managers) as [Hm|Hm].
  - simpl in Hm, Hc.
    repeat (destruct Hm as [<-|Hm]; [|]); try contradiction;
      repeat (destruct Hc as [<-|Hc]; [|]); try contradiction;
      intros G; inversion G; cbn; discriminate.
  - destruct (inherited manager) eqn:I.
    + unfold getAddCommand, has. rewrite I, orb_true_r. cbn [negb].
      assert (O : getOwn packageManagerCommands manager = None).
      { unfold packageManagerCommands; cbn [getOwn].
        destruct (String.eqb_spec "npm" manager) as [<-|_]; [exfalso; apply Hm; simpl; tauto|].
        destruct (String.eqb_spec "pnpm" manager) as [<-|_]; [exfalso; apply Hm; simpl; tauto|].
        destruct (String.eqb_spec "bun" manager) as [<-|_]; [exfalso; apply Hm; simpl; tauto|].
        destruct (String.eqb_spec "yarn" manager) as [<-|_]; [exfalso; apply Hm; simpl; tauto|].
        reflexivity. }
      rewrite O. discriminate.
    + rewrite (getAddCommand_fallback _ _ Hm I).
      rewrite (proj2 (createLinkCommand_table manager packagePath) Hm).
      simpl in Hc.
      repeat (destruct Hc as [<-|Hc]; [|]); try contradiction;
        intros G; inversion G; cbn; discriminate.
Qed.

(** X5: for one manager and one path, two canonical dependency types
    give the same add command only when they are the same type, or are
    [prod] and [optional] for bun. *)
Theorem add_commands_distinct (manager packagePath t1 t2 command : string) :
  In t1 canonical ->
  In t2 canonical ->
  getAddCommand manager packagePath t1 = Resolved command ->
  getAddCommand manager packagePath t2 = Resolved command ->
  t1 = t2 \/
  (manager = "bun" /\
   ((t1 = "prod" /\ t2 = "optional") \/ (t1 = "optional" /\ t2 = "prod"))).
Proof.
  intros H1 H2.
  assert (Known : forall known, In known managers ->
            getAddCommand known packagePath t1 = Resolved command ->
            getAddCommand known packagePath t2 = Resolved command ->
            t1 = t2 \/
            (known = "bun" /\
             ((t1 = "prod" /\ t2 = "optional") \/ (t1 = "optional" /\ t2 = "prod")))).
  { intros known Hk. simpl in Hk, H1, H2.
    repeat (destruct Hk as [<-|Hk]; [|]); try contradiction;
      repeat (destruct H1 as [<-|H1]; [|]); try contradiction;
      repeat (destruct H2 as [<-|H2]; [|]); try contradiction;
      intros G1 G2; try (left; reflexivity);
      try (right; split; [reflexivity|]; tauto);
      exfalso; vm_compute in G1, G2; rewrite <- G1 in G2;
      inversion G2 as [G]; apply (f_equal String.length) in G;
      cbn [String.length] in G; lia. }
  destruct (in_dec string_dec manager managers) as [Hm|Hm].
  - intros G1 G2. exact (Known manager Hm G1 G2).
  - destruct (inherited manager) eqn:I.
    + intros G1. exfalso. revert G1.
      unfold getAddCommand, has. rewrite I, orb_true_r. cbn [negb].
      assert (O : getOwn packageManagerCommands manager = None).
      { unfold packageManagerCommands; cbn [getOwn].
        destruct (String.eqb_spec "npm" manager) as [<-|_]; [exfalso; apply Hm; simpl; tauto|].
        destruct (String.eqb_spec "pnpm" manager) as [<-|_]; [exfalso; apply Hm; simpl; tauto|].
        destruct (String.eqb_spec "bun" manager) as [<-|_]; [exfalso; apply Hm; simpl; tauto|].
        destruct (String.eqb_spec "yarn" manager) as [<-|_]; [exfalso; apply Hm; simpl; tauto|].
        reflexivity. }
      rewrite O. discriminate.
    + rewrite !(getAddCommand_fallback _ _ Hm I). intros G1 G2.
      destruct (Known "npm" (or_introl eq_refl) G1 G2) as [E|[E _]];
        [left; exact E | discriminate].
Qed.

(* ------------------------------------------------------------------ *)
(** Runs of the properties above. *)

Lemma fallback_failure_is_final_witness :
  npmLink (io := pnpm_fallback_fails) foo_request start
  = (Resolved (failed (Error (commandFailure (fails "workspace root not writable")))
                 (commandFailure (fails "workspace root not writable"))),
     {| world := 2;
        executed := [("pnpm link /pkg", "/proj"); ("pnpm add --save /pkg", "/proj")] |}).
Proof.
  assert (F1 : exec_error (fails "ERR_PNPM_WORKSPACE_PKG_NOT_FOUND") <> None)
    by discriminate.
  assert (F2 : exec_error (fails "workspace root not writable") <> None)
    by discriminate.
  exact (@fallback_failure_is_final nat pnpm_fallback_fails foo_request "pnpm"
           start start start (fails "ERR_PNPM_WORKSPACE_PKG_NOT_FOUND") 1
           "pnpm add --save /pkg" (fails "workspace root not writable") 2
           eq_refl eq_refl eq_refl F1 eq_refl eq_refl eq_refl F2).
Defined.

Lemma add_command_is_not_link_command_witness :
  "pnpm add --save-dev /pkg" <> createLinkCommand "pnpm" "/pkg".
Proof.
  exact (@add_command_is_not_link_command "pnpm" "/pkg" "devDependencies"
           "pnpm add --save-dev /pkg" eq_refl).
Defined.

Lemma add_commands_distinct_witness :
  "prod" = "optional" \/
  ("bun" = "bun" /\
   (("prod" = "prod" /\ "optional" = "optional") \/
    ("prod" = "optional" /\ "optional" = "prod"))).
Proof.
  refine (@add_commands_distinct "bun" "/pkg" "prod" "optional" "bun install /pkg"
            _ _ eq_refl eq_refl); simpl; tauto.
Defined.

Lemma validatePackage_sound_witness :
  "foo" <> EmptyString /\
  executed start = executed start /\
  exists packageJson,
    manifestOf (io := pnpm_links) "/pkg" start packageJson 0 /\
    getName packageJson = Resolved (Some (JStr "foo")).
Proof.
  exact (@validatePackage_sound nat pnpm_links "/pkg" "foo" start start eq_refl).
Defined.

Lemma validatePackage_manifest_errors_witness :
  validatePackage (io := uniform (Resolved "{") (Rejected (Str "Unexpected end")))
    "/pkg" "foo" start
  = (Resolved (Some {| success := false;
                       message := "Failed to create link: Unexpected end";
                       error := Some (Error "Unexpected end") |}),
     start) /\
  validatePackage (io := uniform (Resolved "null") (Resolved JNull)) "/pkg" "foo" start
  = (Resolved (Some {| success := false;
                       message := "Failed to create link: "
                                    ++ "Cannot read properties of null (reading 'name')";
                       error := Some (TypeError
                                  "Cannot read properties of null (reading 'name')") |}),
     start).
Proof.
  split.
  - destruct (@validatePackage_manifest_errors nat
                (uniform (Resolved "{") (Rejected (Str "Unexpected end")))
                "/pkg" "foo" start {| isDirectory := true; isFile := true |} 0
                {| isDirectory := true; isFile := true |} 0
                eq_refl eq_refl eq_refl eq_refl) as (_ & H & _).
    exact (H "{" (Str "Unexpected end") 0 eq_refl eq_refl).
  - destruct (@validatePackage_manifest_errors nat
                (uniform (Resolved "null") (Resolved JNull))
                "/pkg" "foo" start {| isDirectory := true; isFile := true |} 0
                {| isDirectory := true; isFile := true |} 0
                eq_refl eq_refl eq_refl eq_refl) as (_ & _ & H).
    exact (H "null" 0 eq_refl eq_refl).
Defined.

(* ================================================================== *)
(** ** The storage of linked packages *)

Section Storage.

Import StorageService.

Context {Store : Type} {globalState : Memento Store}.

Lemma saved_cons (x y : LinkedPackage) (rest : list LinkedPackage) :
  saved x (y :: rest)
  = if packageName y =? packageName x then x :: rest else y :: saved x rest.
Proof.
  unfold saved. cbn [findIndex]. unfold named at 1.
  destruct (packageName y =? packageName x); [reflexivity|].
  destruct (findIndex (named (packageName x)) rest); reflexivity.
Qed.

Lemma saved_nil (x : LinkedPackage) : saved x [] = [x].
Proof. reflexivity. Qed.

Lemma find_saved (x : LinkedPackage) (n : string) (l : list LinkedPackage) :
  find (named n) (saved x l)
  = if n =? packageName x then Some x else find (named n) l.
Proof.
  induction l as [|y rest IH].
  - rewrite saved_nil. cbn [find]. unfold named.
    rewrite (String.eqb_sym (packageName x) n).
    destruct (n =? packageName x); reflexivity.
  - rewrite saved_cons.
    destruct (String.eqb_spec (packageName y) (packageName x)) as [E|N].
    + cbn [find]. unfold named. rewrite E, (String.eqb_sym (packageName x) n).
      destruct (n =? packageName x); reflexivity.
    + cbn [find]. rewrite IH. unfold named at 1 3.
      destruct (String.eqb_spec (packageName y) n) as [E'|N']; [|reflexivity].
      destruct (String.eqb_spec n (packageName x)) as [E''|_]; [|reflexivity].
      exfalso. apply N. congruence.
Qed.

Lemma names_saved (x : LinkedPackage) (l : list LinkedPackage) (n : string) :
  In n (names (saved x l)) <-> n = packageName x \/ In n (names l).
Proof.
  induction l as [|y rest IH].
  - rewrite saved_nil. cbn. intuition auto.
  - rewrite saved_cons.
    destruct (String.eqb_spec (packageName y) (packageName x)) as [E|N].
    + cbn. rewrite E. intuition auto.
    + cbn [names map In] in *. rewrite IH. intuition auto.
Qed.

Lemma NoDup_saved (x : LinkedPackage) (l : list LinkedPackage) :
  NoDup (names l) -> NoDup (names (saved x l)).
Proof.
  induction l as [|y rest IH]; intros U.
  - rewrite saved_nil. cbn. constructor; [intros [] | constructor].
  - rewrite saved_cons. inversion U as [|? ? Hy Hrest]; subst.
    destruct (String.eqb_spec (packageName y) (packageName x)) as [E|N].
    + cbn [names map]. rewrite <- E. constructor; assumption.
    + cbn [names map]. constructor; [|now apply IH].
      intros K. apply names_saved in K as [K|K]; [now apply N | now apply Hy].
Qed.

Lemma length_saved (x : LinkedPackage) (l : list LinkedPackage) :
  length (saved x l)
  = match find (named (packageName x)) l with
    | Some _ => length l
    | None => S (length l)
    end.
Proof.
  induction l as [|y rest IH].
  - reflexivity.
  - rewrite saved_cons. cbn [find]. unfold named at 1.
    destruct (packageName y =? packageName x); [reflexivity|].
    cbn [length]. rewrite IH.
    destruct (find (named (packageName x)) rest); reflexivity.
Qed.

Lemma find_filter (n n' : string) (l : list LinkedPackage) :
  find (named n') (filter (others n) l)
  = if n' =? n then None else find (named n') l.
Proof.
  induction l as [|y rest IH].
  - cbn. destruct (n' =? n); reflexivity.
  - cbn [filter find]. unfold others at 1. unfold named at 2.
    destruct (String.eqb_spec (packageName y) n) as [E|N]; cbn [negb].
    + rewrite IH.
      destruct (String.eqb_spec n' n) as [E'|N']; [reflexivity|].
      destruct (String.eqb_spec (packageName y) n') as [E''|_]; [|reflexivity].
      exfalso. apply N'. congruence.
    + cbn [find]. rewrite IH. unfold named at 1.
      destruct (String.eqb_spec (packageName y) n') as [E'|_]; [|reflexivity].
      destruct (String.eqb_spec n' n) as [E''|_]; [|reflexivity].
      exfalso. apply N. congruence.
Qed.

Lemma NoDup_filter (n : string) (l : list LinkedPackage) :
  NoDup (names l) -> NoDup (names (filter (others n) l)).
Proof.
  induction l as [|y rest IH]; intros U; [exact U|].
  inversion U as [|? ? Hy Hrest]; subst.
  cbn [filter]. destruct (others n y); [|now apply IH].
  cbn [names map]. constructor; [|now apply IH].
  intros K. apply Hy. unfold names in *.
  apply in_map_iff in K as (z & Ez & Hz). apply filter_In in Hz as [Hz _].
  apply in_map_iff. now exists z.
Qed.

Lemma filter_absent (n : string) (l : list LinkedPackage) :
  find (named n) l = None -> filter (others n) l = l.
Proof.
  induction l as [|y rest IH]; [reflexivity|].
  cbn [find filter]. unfold named at 1. unfold others at 1.
  destruct (packageName y =? n); [discriminate|].
  intros H. cbn [negb]. now rewrite IH.
Qed.

Lemma saved_absent (x : LinkedPackage) (l : list LinkedPackage) :
  find (named (packageName x)) l = None -> saved x l = (l ++ [x])%list.
Proof.
  induction l as [|y rest IH]; [reflexivity|].
  rewrite saved_cons. cbn [find]. unfold named at 1.
  destruct (packageName y =? packageName x); [discriminate|].
  intros H. now rewrite IH.
Qed.

Lemma saved_twice (a b : LinkedPackage) (l : list LinkedPackage) :
  packageName a = packageName b -> saved b (saved a l) = saved b l.
Proof.
  intros E. induction l as [|y rest IH].
  - rewrite !saved_nil, saved_cons, E, String.eqb_refl. reflexivity.
  - rewrite !saved_cons, E.
    destruct (packageName y =? packageName b) eqn:Y.
    + rewrite saved_cons, E, String.eqb_refl. reflexivity.
    + rewrite saved_cons, Y. now rewrite IH.
Qed.

(** What is stored after a save or a removal that resolved. *)
Lemma stored_after_save (packageInfo : LinkedPackage) (store store' : Store) :
  keeps globalState ->
  saveLinkedPackage packageInfo store = (Resolved tt, store') ->
  getLinkedPackages store' = saved packageInfo (getLinkedPackages store).
Proof.
  intros K H. unfold saveLinkedPackage in H. cbv zeta in H.
  unfold getLinkedPackages at 1. now rewrite (K _ _ _ H).
Qed.

Lemma stored_after_remove (n : string) (store store' : Store) :
  keeps globalState ->
  removeLinkedPackage n store = (Resolved tt, store') ->
  getLinkedPackages store' = filter (others n) (getLinkedPackages store).
Proof.
  intros K H. unfold removeLinkedPackage in H. cbv zeta in H.
  unfold getLinkedPackages at 1. now rewrite (K _ _ _ H).
Qed.

(** X9: after a save, looking up the saved name gives the saved entry,
    whatever was stored under it, and every other name gives what it gave
    before. *)
Theorem lookup_after_save (packageInfo : LinkedPackage) (store store' : Store) :
  keeps globalState ->
  saveLinkedPackage packageInfo store = (Resolved tt, store') ->
  forall name,
    getLinkedPackage name store'
    = if name =? packageName packageInfo then Some packageInfo
      else getLinkedPackage name store.
Proof.
  intros K H name. unfold getLinkedPackage. cbv zeta.
  rewrite (stored_after_save _ _ K H). apply find_saved.
Qed.

(** X10: after a removal, the removed name is not found, also when it was
    stored several times, and every other name gives what it gave before. *)
Theorem lookup_after_remove (removed : string) (store store' : Store) :
  keeps globalState ->
  removeLinkedPackage removed store = (Resolved tt, store') ->
  forall name,
    getLinkedPackage name store'
    = if name =? removed then None else getLinkedPackage name store.
Proof.
  intros K H name. unfold getLinkedPackage. cbv zeta.
  rewrite (stored_after_remove _ _ K H). apply find_filter.
Qed.

(** X11: one entry per package. A store whose names are all different
    stays so under a save; the save adds one entry when the name is new and
    none when it is known, the entry then taking the place of the old one. *)
Theorem save_keeps_names_unique (packageInfo : LinkedPackage) (store store' : Store) :
  keeps globalState ->
  saveLinkedPackage packageInfo store = (Resolved tt, store') ->
  NoDup (names (getLinkedPackages store)) ->
  NoDup (names (getLinkedPackages store')) /\
  (forall name, In name (names (getLinkedPackages store')) <->
                name = packageName packageInfo \/
                In name (names (getLinkedPackages store))) /\
  length (getLinkedPackages store')
  = match getLinkedPackage (packageName packageInfo) store with
    | Some _ => length (getLinkedPackages store)
    | None => S (length (getLinkedPackages store))
    end.
Proof.
  intros K H U. rewrite (stored_after_save _ _ K H).
  split; [now apply NoDup_saved | split].
  - intros name. apply names_saved.
  - apply length_saved.
Qed.

(** X12: a removal keeps the names all different, leaves no entry of the
    removed name, and keeps exactly the entries of the other names. *)
Theorem remove_keeps_names_unique (removed : string) (store store' : Store) :
  keeps globalState ->
  removeLinkedPackage removed store = (Resolved tt, store') ->
  NoDup (names (getLinkedPackages store)) ->
  NoDup (names (getLinkedPackages store')) /\
  ~ In removed (names (getLinkedPackages store')) /\
  forall package_,
    In package_ (getLinkedPackages store') <->
    In package_ (getLinkedPackages store) /\ packageName package_ <> removed.
Proof.
  intros K H U. rewrite (stored_after_remove _ _ K H).
  split; [now apply NoDup_filter | split].
  - unfold names. intros I. apply in_map_iff in I as (z & Ez & Hz).
    apply filter_In in Hz as [_ Hz]. unfold others in Hz.
    rewrite Ez, String.eqb_refl in Hz. discriminate.
  - intros package_. rewrite filter_In. unfold others.
    rewrite negb_true_iff, String.eqb_neq. reflexivity.
Qed.

(** X13: saving a package that was not stored and removing it again
    leaves the stored list as it was. *)
Theorem save_then_remove (packageInfo : LinkedPackage) (store store1 store2 : Store) :
  keeps globalState ->
  getLinkedPackage (packageName packageInfo) store = None ->
  saveLinkedPackage packageInfo store = (Resolved tt, store1) ->
  removeLinkedPackage (packageName packageInfo) store1 = (Resolved tt, store2) ->
  getLinkedPackages store2 = getLinkedPackages store.
Proof.
  intros K A S R.
  rewrite (stored_after_remove _ _ K R), (stored_after_save _ _ K S).
  unfold getLinkedPackage in A. cbv zeta in A.
  rewrite (saved_absent _ _ A), filter_app, (filter_absent _ _ A).
  cbn [filter]. unfold others at 1. rewrite String.eqb_refl. cbn [negb].
  apply app_nil_r.
Qed.

(** X14: the last write wins. Saving an entry over an entry of the same
    name that was just saved gives the list that saving it alone gives. *)
Theorem last_save_wins (first second : LinkedPackage) (store store1 store2 alone : Store) :
  keeps globalState ->
  packageName first = packageName second ->
  saveLinkedPackage first store = (Resolved tt, store1) ->
  saveLinkedPackage second store1 = (Resolved tt, store2) ->
  saveLinkedPackage second store = (Resolved tt, alone) ->
  getLinkedPackages store2 = getLinkedPackages alone.
Proof.
  intros K E S1 S2 S.
  rewrite (stored_after_save _ _ K S2), (stored_after_save _ _ K S1),
    (stored_after_save _ _ K S).
  now apply saved_twice.
Qed.

End Storage.

(* ------------------------------------------------------------------ *)
(** Runs of the storage properties, on the memento in memory. *)

Lemma inMemory_keeps : StorageService.keeps StorageService.inMemory.
Proof. intros value store store' H. inversion H. reflexivity. Qed.

Lemma lookup_after_save_witness :
  StorageService.getLinkedPackage (globalState := StorageService.inMemory) "foo"
    (Some [StorageService.entry "foo" "/new" "today"])
  = Some (StorageService.entry "foo" "/new" "today").
Proof.
  exact (@lookup_after_save _ StorageService.inMemory
           (StorageService.entry "foo" "/new" "today")
           (Some [StorageService.entry "foo" "/old" "yesterday"])
           (Some [StorageService.entry "foo" "/new" "today"])
           inMemory_keeps eq_refl "foo").
Defined.

Lemma lookup_after_remove_witness :
  StorageService.getLinkedPackage (globalState := StorageService.inMemory) "bar"
    (Some [StorageService.entry "bar" "/bar" "today"])
  = StorageService.getLinkedPackage (globalState := StorageService.inMemory) "bar"
      (Some [StorageService.entry "foo" "/foo" "today";
             StorageService.entry "bar" "/bar" "today"]).
Proof.
  exact (@lookup_after_remove _ StorageService.inMemory "foo"
           (Some [StorageService.entry "foo" "/foo" "today";
                  StorageService.entry "bar" "/bar" "today"])
           (Some [StorageService.entry "bar" "/bar" "today"])
           inMemory_keeps eq_refl "bar").
Defined.

Lemma save_keeps_names_unique_witness :
  let old := StorageService.entry "foo" "/old" "yesterday" in
  let new := StorageService.entry "foo" "/new" "today" in
  let bar := StorageService.entry "bar" "/bar" "today" in
  let stored := StorageService.getLinkedPackages (globalState := StorageService.inMemory) in
  (NoDup (StorageService.names (stored (Some [new; bar]))) /\
   length (stored (Some [new; bar])) = length (stored (Some [old; bar]))) /\
  (NoDup (StorageService.names (stored (Some [bar; new]))) /\
   length (stored (Some [bar; new])) = S (length (stored (Some [bar])))).
Proof.
  cbv zeta. split.
  - destruct (@save_keeps_names_unique _ StorageService.inMemory
                (StorageService.entry "foo" "/new" "today")
                (Some [StorageService.entry "foo" "/old" "yesterday";
                       StorageService.entry "bar" "/bar" "today"])
                (Some [StorageService.entry "foo" "/new" "today";
                       StorageService.entry "bar" "/bar" "today"])
                inMemory_keeps eq_refl) as (N & _ & L).
    + constructor; [|constructor; [intros [] | constructor]].
      intros [H|[]]. discriminate.
    + split; [exact N | exact L].
  - destruct (@save_keeps_names_unique _ StorageService.inMemory
                (StorageService.entry "foo" "/new" "today")
                (Some [StorageService.entry "bar" "/bar" "today"])
                (Some [StorageService.entry "bar" "/bar" "today";
                       StorageService.entry "foo" "/new" "today"])
                inMemory_keeps eq_refl) as (N & _ & L).
    + constructor; [intros [] | constructor].
    + split; [exact N | exact L].
Defined.

Lemma remove_keeps_names_unique_witness :
  ~ In "foo"
      (StorageService.names
         (StorageService.getLinkedPackages (globalState := StorageService.inMemory)
            (Some []))).
Proof.
  refine (proj1 (proj2 (@remove_keeps_names_unique _ StorageService.inMemory "foo"
                          (Some [StorageService.entry "foo" "/foo" "today"])
                          (Some []) inMemory_keeps eq_refl _))).
  constructor; [intros [] | constructor].
Defined.

Lemma save_then_remove_witness :
  StorageService.getLinkedPackages (globalState := StorageService.inMemory)
    (Some [StorageService.entry "bar" "/bar" "today"])
  = StorageService.getLinkedPackages (globalState := StorageService.inMemory)
      (Some [StorageService.entry "bar" "/bar" "today"]).
Proof.
  exact (@save_then_remove _ StorageService.inMemory
           (StorageService.entry "foo" "/foo" "today")
           (Some [StorageService.entry "bar" "/bar" "today"])
           (Some [StorageService.entry "bar" "/bar" "today";
                  StorageService.entry "foo" "/foo" "today"])
           (Some [StorageService.entry "bar" "/bar" "today"])
           inMemory_keeps eq_refl eq_refl eq_refl).
Defined.

Lemma last_save_wins_witness :
  StorageService.getLinkedPackages (globalState := StorageService.inMemory)
    (Some [StorageService.entry "foo" "/second" "today"])
  = StorageService.getLinkedPackages (globalState := StorageService.inMemory)
      (Some [StorageService.entry "foo" "/second" "today"]).
Proof.
  exact (@last_save_wins _ StorageService.inMemory
           (StorageService.entry "foo" "/first" "yesterday")
           (StorageService.entry "foo" "/second" "today")
           None
           (Some [StorageService.entry "foo" "/first" "yesterday"])
           (Some [StorageService.entry "foo" "/second" "today"])
           (Some [StorageService.entry "foo" "/second" "today"])
           inMemory_keeps eq_refl eq_refl eq_refl eq_refl).
Defined.

(* ================================================================== *)
(** ** The dependencies of a manifest *)

Section Dependencies.

Import GetDependencyAtPosition.

Context {World : Type} {io : Collaborators World}.

Lemma collect_object (members : list (string * Json)) (types : list string)
  (dependencies : list Dependency) :
  collect (JObj members) types dependencies
  = Resolved (dependencies ++ flat_map (listedUnder (JObj members)) types)%list.
Proof.
  revert dependencies. induction types as [|section rest IH]; intros dependencies.
  - cbn. now rewrite app_nil_r.
  - cbn [collect getMember flat_map listedUnder].
    destruct (getOwn members section) as [value|].
    + destruct (truthy (Some value)); rewrite IH; [now rewrite app_assoc | reflexivity].
    + cbn [truthy]. rewrite IH. reflexivity.
Qed.

Lemma collect_other (packageJson : Json) (types : list string)
  (dependencies : list Dependency) :
  (forall members, packageJson <> JObj members) ->
  packageJson <> JNull ->
  collect packageJson types dependencies = Resolved dependencies.
Proof.
  intros NO NN. induction types as [|section rest IH]; [reflexivity|].
  cbn [collect].
  destruct packageJson; try (exfalso; apply NN; reflexivity);
    try (exfalso; eapply NO; reflexivity); cbn [getMember truthy]; exact IH.
Qed.

Lemma listed_not_object (packageJson : Json) (section : string) :
  (forall members, packageJson <> JObj members) ->
  listedUnder packageJson section = [].
Proof.
  intros NO. destruct packageJson; try reflexivity.
  exfalso. eapply NO. reflexivity.
Qed.

(** X15: [parseDependencies] never rejects and changes nothing but what
    reading the file changes. It lists the entries of the four sections,
    always in the order dependencies, devDependencies, peerDependencies,
    optionalDependencies, whatever their order in the manifest; a file that
    cannot be read or parsed, and a manifest that is no object, give the empty
    list. *)
Theorem parseDependencies_lists (packageJsonPath : string) (m : Machine World) :
  parseDependencies packageJsonPath m
  = (Resolved
       match fst (fs_readFile packageJsonPath (world m)) with
       | Rejected _ => []
       | Resolved content =>
           match JSON_parse content with
           | Rejected _ => []
           | Resolved packageJson =>
               listedUnder packageJson "dependencies"
               ++ listedUnder packageJson "devDependencies"
               ++ listedUnder packageJson "peerDependencies"
               ++ listedUnder packageJson "optionalDependencies"
           end
       end,
     {| world := snd (fs_readFile packageJsonPath (world m));
        executed := executed m |})%list.
Proof.
  cbv [parseDependencies try_catch bind call settle resolve].
  destruct (fs_readFile packageJsonPath (world m)) as [[content|e] w];
    cbn [fst snd]; [|reflexivity].
  destruct (JSON_parse content) as [packageJson|e]; [|reflexivity].
  destruct packageJson as [| | | | |members].
  6:{ rewrite collect_object. unfold dependencyTypes. cbn [flat_map app].
      now rewrite app_nil_r. }
  all: reflexivity.
Qed.

Lemma In_listedUnder (members : list (string * Json)) (section : string)
  (d : Dependency) :
  In d (listedUnder (JObj members) section) <->
  type d = section /\
  exists value,
    getOwn members section = Some value /\
    truthy (Some value) = true /\
    In (name d, version d) (Object_entries value).
Proof.
  cbn [listedUnder].
  destruct (getOwn members section) as [value|].
  2:{ split; [intros [] | intros (_ & value & K & _); discriminate]. }
  destruct (truthy (Some value)) eqn:T.
  2:{ split; [intros [] | intros (_ & v & K & T' & _)].
      inversion K; subst. rewrite T in T'. discriminate. }
  rewrite in_map_iff. split.
  - intros ([n v] & <- & H). cbn. split; [reflexivity|].
    exists value. auto.
  - intros (<- & v & K & _ & H). inversion K; subst.
    exists (name d, version d). split; [|exact H].
    destruct d; reflexivity.
Qed.

(** X16: for a manifest that is an object, a dependency is listed exactly
    when its type is one of the four section names, the manifest has a truthy
    value under that name, and the name and version are an entry of that
    value. *)
Theorem parseDependencies_membership (packageJsonPath content : string)
  (members : list (string * Json)) (m m' : Machine World) (w : World)
  (dependencies : list Dependency) :
  fs_readFile packageJsonPath (world m) = (Resolved content, w) ->
  JSON_parse content = Resolved (JObj members) ->
  parseDependencies packageJsonPath m = (Resolved dependencies, m') ->
  forall d,
    In d dependencies <->
    In (type d) dependencyTypes /\
    exists value,
      getOwn members (type d) = Some value /\
      truthy (Some value) = true /\
      In (name d, version d) (Object_entries value).
Proof.
  intros R P H d.
  assert (E : dependencies = flat_map (listedUnder (JObj members)) dependencyTypes).
  { cbv [parseDependencies try_catch bind call settle resolve] in H.
    rewrite R, P, collect_object in H. rewrite app_nil_l in H. congruence. }
  rewrite E, in_flat_map. clear E H. split.
  - intros (section & Hs & Hd). apply In_listedUnder in Hd as (E & K).
    rewrite E. auto.
  - intros (Hs & K). exists (type d). split; [exact Hs|].
    apply In_listedUnder. auto.
Qed.

End Dependencies.

Lemma parseDependencies_membership_witness :
  let vitest :=
    {| GetDependencyAtPosition.type := "devDependencies";
       GetDependencyAtPosition.version := JStr "^3.0.0";
       GetDependencyAtPosition.name := "vitest" |} in
  let leftPad section :=
    {| GetDependencyAtPosition.type := section;
       GetDependencyAtPosition.version := JStr "1.3.0";
       GetDependencyAtPosition.name := "left-pad" |} in
  GetDependencyAtPosition.parseDependencies
    (io := uniform (Resolved "manifest")
             (Resolved GetDependencyAtPosition.two_sections))
    "/pkg/package.json" start
  = (Resolved [leftPad "dependencies"; vitest; leftPad "devDependencies"], start) /\
  (In vitest [leftPad "dependencies"; vitest; leftPad "devDependencies"] <->
   In "devDependencies" GetDependencyAtPosition.dependencyTypes /\
   exists value,
     getOwn [ ("devDependencies",
               JObj [("vitest", JStr "^3.0.0"); ("left-pad", JStr "1.3.0")]);
              ("name", JStr "foo");
              ("dependencies", JObj [("left-pad", JStr "1.3.0")]) ]
       "devDependencies" = Some value /\
     truthy (Some value) = true /\
     In ("vitest", JStr "^3.0.0") (GetDependencyAtPosition.Object_entries value)).
Proof.
  cbv zeta. split; [reflexivity|].
  exact (@parseDependencies_membership nat
           (uniform (Resolved "manifest")
              (Resolved GetDependencyAtPosition.two_sections))
           "/pkg/package.json" "manifest" _ start start 0 _
           eq_refl eq_refl eq_refl
           {| GetDependencyAtPosition.type := "devDependencies";
              GetDependencyAtPosition.version := JStr "^3.0.0";
              GetDependencyAtPosition.name := "vitest" |}).
Defined.

(* ================================================================== *)
(** ** The variant without fallback *)

Section SimpleVariant.

Context {World : Type} {io : Collaborators World}.

Ltac onward := cbv beta iota zeta; cbn [world executed negb]; cbv beta iota zeta.

(** The variant once the two checks have passed, run against the answers
    of the detector and of [cp.exec]. *)
Lemma simple_run (packagePath projectPath packageName : string)
  (m : Machine World) stats w1 fileStats w2 d w3 r w4 :
  let link := createLinkCommand (chosenManager d) packagePath in
  fs_stat packagePath (world m) = (Resolved stats, w1) ->
  isDirectory stats = true ->
  fs_stat (path_join packagePath "package.json") w1 = (Resolved fileStats, w2) ->
  isFile fileStats = true ->
  detect projectPath w2 = (d, w3) ->
  cp_exec link projectPath w3 = (r, w4) ->
  Simple.npmLink packagePath projectPath packageName m
  = (Resolved
       match exec_error r with
       | None =>
           {| success := true;
              message := "Successfully linked " ++ packageName ++ " from "
                           ++ packagePath ++ " to project at " ++ projectPath
                           ++ LF ++ trim (stdout r);
              error := None |}
       | Some _ =>
           failed (Error ("Command execution failed: " ++ stderr r))
             ("Command execution failed: " ++ stderr r)
       end,
     after m w4 [(link, projectPath)]).
Proof.
  cbv zeta. intros S1 D1 S2 F2 D E.
  cbv [Simple.npmLink try_catch bind call settle resolve]. onward.
  rewrite S1; onward. rewrite D1; onward. rewrite S2; onward. rewrite F2; onward.
  rewrite (detectPackageManager_run projectPath
             {| world := w2; executed := executed m |} D).
  onward. unfold Simple.executeCommand. onward.
  fold (createLinkCommand (chosenManager d) packagePath).
  rewrite E. destruct (exec_error r); reflexivity.
Qed.

(** X17: the variant never rejects, whatever its collaborators throw, and
    runs at most one command, a link command, in the project directory; a
    success carries no error, and an attached error is an [Error] whose
    message ends the message of the result. *)
Theorem simple_npmLink_total (packagePath projectPath packageName : string)
  (m : Machine World) :
  exists result w commands,
    Simple.npmLink packagePath projectPath packageName m
    = (Resolved result, after m w commands) /\
    (commands = [] /\ success result = false \/
     exists manager, commands = [(createLinkCommand manager packagePath, projectPath)]) /\
    (success result = true -> error result = None) /\
    (forall cause, error result = Some cause ->
       success result = false /\
       exists text,
         cause = Error text /\ message result = "Failed to create link: " ++ text).
Proof.
  assert (Caught : forall e,
            (success (failed (asError e) (describe e)) = true ->
             error (failed (asError e) (describe e)) = None) /\
            (forall cause, error (failed (asError e) (describe e)) = Some cause ->
               success (failed (asError e) (describe e)) = false /\
               exists text,
                 cause = Error text /\
                 message (failed (asError e) (describe e))
                 = "Failed to create link: " ++ text)).
  { intros e. cbn [success error message failed]. split; [discriminate|].
    intros cause H. inversion H. split; [reflexivity|].
    exists (describe e). now rewrite asError_describe. }
  destruct (fs_stat packagePath (world m)) as [[stats|e] w1] eqn:S1.
  2:{ exists (failed (asError e) (describe e)), w1, []. split.
      - cbv [Simple.npmLink try_catch bind call settle resolve]. onward.
        rewrite S1. now rewrite after_nil.
      - split; [left; split; reflexivity | apply Caught]. }
  destruct (isDirectory stats) eqn:D1.
  2:{ eexists _, w1, []. split.
      - cbv [Simple.npmLink try_catch bind call settle resolve]. onward.
        rewrite S1; onward. rewrite D1; onward. now rewrite after_nil.
      - cbn [success error]. split; [left; split; reflexivity|].
        split; [discriminate | intros cause H; discriminate H]. }
  destruct (fs_stat (path_join packagePath "package.json") w1)
    as [[fileStats|e] w2] eqn:S2.
  2:{ exists (failed (asError e) (describe e)), w2, []. split.
      - cbv [Simple.npmLink try_catch bind call settle resolve]. onward.
        rewrite S1; onward. rewrite D1; onward. rewrite S2.
        now rewrite after_nil.
      - split; [left; split; reflexivity | apply Caught]. }
  destruct (isFile fileStats) eqn:F2.
  2:{ eexists _, w2, []. split.
      - cbv [Simple.npmLink try_catch bind call settle resolve]. onward.
        rewrite S1; onward. rewrite D1; onward. rewrite S2; onward.
        rewrite F2; onward. now rewrite after_nil.
      - cbn [success error]. split; [left; split; reflexivity|].
        split; [discriminate | intros cause H; discriminate H]. }
  destruct (detect projectPath w2) as [d w3] eqn:D.
  destruct (cp_exec (createLinkCommand (chosenManager d) packagePath) projectPath w3)
    as [r w4] eqn:E.
  rewrite (simple_run packagePath projectPath packageName m S1 D1 S2 F2 D E).
  eexists _, w4, _. split; [reflexivity|].
  split; [right; eexists; reflexivity|].
  destruct (exec_error r); cbn [success error message failed].
  - split; [discriminate|]. intros cause H. inversion H.
    split; [reflexivity|]. eexists. split; reflexivity.
  - split; [reflexivity | intros cause H; discriminate H].
Qed.

(** X18: the variant never falls back. Once the two checks have passed it
    runs the one link command, the same as [createLinkCommand] gives; a
    failure of that command, workspace or not, is the final failure, and its
    text holds the standard error only. *)
Theorem simple_npmLink_never_falls_back (packagePath projectPath packageName : string)
  (m : Machine World) stats w1 fileStats w2 d w3 r w4 :
  let link := createLinkCommand (chosenManager d) packagePath in
  fs_stat packagePath (world m) = (Resolved stats, w1) ->
  isDirectory stats = true ->
  fs_stat (path_join packagePath "package.json") w1 = (Resolved fileStats, w2) ->
  isFile fileStats = true ->
  detect projectPath w2 = (d, w3) ->
  cp_exec link projectPath w3 = (r, w4) ->
  exec_error r <> None ->
  Simple.npmLink packagePath projectPath packageName m
  = (Resolved
       {| success := false;
          message := "Failed to create link: Command execution failed: " ++ stderr r;
          error := Some (Error ("Command execution failed: " ++ stderr r)) |},
     after m w4 [(link, projectPath)]).
Proof.
  cbv zeta. intros S1 D1 S2 F2 D E X.
  rewrite (simple_run packagePath projectPath packageName m S1 D1 S2 F2 D E).
  destruct (exec_error r); [reflexivity | contradiction].
Qed.

(** X19: the two variants agree on a successful link. For a package that
    passes the validation of the full orchestrator, in a world that reading
    the manifest leaves as it is, a link command that succeeds gives the same
    result and the same single command in both. *)
Theorem variants_agree_on_success (options : LinkOptions)
  (m : Machine World) stats w1 fileStats w2 content packageJson d w3 r w4 :
  let packageJsonPath := path_join (packagePath options) "package.json" in
  let link := createLinkCommand (chosenManager d) (packagePath options) in
  fs_stat (packagePath options) (world m) = (Resolved stats, w1) ->
  isDirectory stats = true ->
  fs_stat packageJsonPath w1 = (Resolved fileStats, w2) ->
  isFile fileStats = true ->
  fs_readFile packageJsonPath w2 = (Resolved content, w2) ->
  JSON_parse content = Resolved packageJson ->
  getName packageJson = Resolved (Some (JStr (packageName options))) ->
  packageName options <> EmptyString ->
  detect (projectPath options) w2 = (d, w3) ->
  cp_exec link (projectPath options) w3 = (r, w4) ->
  exec_error r = None ->
  Simple.npmLink (packagePath options) (projectPath options) (packageName options) m
  = npmLink options m.
Proof.
  cbv zeta. intros S1 D1 S2 F2 R P G N D E X.
  rewrite (simple_run (packagePath options) (projectPath options)
             (packageName options) m S1 D1 S2 F2 D E), X.
  assert (M : manifestOf (packagePath options) m packageJson w2).
  { exists stats, w1, fileStats, w2, content. repeat split; assumption. }
  pose proof (validatePackage_passes M G N) as V.
  pose proof (detectPackageManager_run (projectPath options)
                {| world := w2; executed := executed m |} D) as D'.
  pose proof (npmLink_run options m V D' E) as K. cbv zeta in K.
  rewrite X in K. rewrite K. reflexivity.
Qed.

End SimpleVariant.

Lemma simple_npmLink_never_falls_back_witness :
  Simple.npmLink (io := pnpm_falls_back) "/pkg" "/proj" "foo" start
  = (Resolved
       {| success := false;
          message := "Failed to create link: Command execution failed: "
                       ++ "ERR_PNPM_WORKSPACE_PKG_NOT_FOUND";
          error := Some (Error ("Command execution failed: "
                                  ++ "ERR_PNPM_WORKSPACE_PKG_NOT_FOUND")) |},
     {| world := 1; executed := [("pnpm link /pkg", "/proj")] |}).
Proof.
  assert (F : exec_error (fails "ERR_PNPM_WORKSPACE_PKG_NOT_FOUND") <> None)
    by discriminate.
  exact (@simple_npmLink_never_falls_back nat pnpm_falls_back "/pkg" "/proj" "foo"
           start directory 0 regularFile 0 (detected "pnpm") 0
           (fails "ERR_PNPM_WORKSPACE_PKG_NOT_FOUND") 1
           eq_refl eq_refl eq_refl eq_refl eq_refl eq_refl F).
Defined.

Lemma variants_agree_on_success_witness :
  Simple.npmLink (io := pnpm_links) "/pkg" "/proj" "foo" start
  = npmLink (io := pnpm_links) foo_request start.
Proof.
  refine (@variants_agree_on_success nat pnpm_links foo_request start
            directory 0 regularFile 0 manifest_foo (JObj [("name", JStr "foo")])
            (detected "pnpm") 0 (succeeds "ok") 1
            eq_refl eq_refl eq_refl eq_refl eq_refl eq_refl eq_refl _
            eq_refl eq_refl eq_refl).
  discriminate.
Defined.

(* ================================================================== *)
(** ** The logger *)

Section LoggerFacts.

Import Logger.

Variable getFormattedDate : Editor -> string.

Lemma write_channel (tag message : string) (s : State) :
  let s' := write getFormattedDate tag message s in
  exists channel line,
    outputChannel s' = Some channel /\
    appended (editor s') = (appended (editor s) ++ [(channel, line)])%list /\
    notified (editor s') = notified (editor s) /\
    match outputChannel s with
    | Some known => channel = known /\ channels (editor s') = channels (editor s)
    | None =>
        channel = length (channels (editor s)) /\
        channels (editor s') = (channels (editor s) ++ ["Package Linker"])%list
    end.
Proof.
  cbv zeta. unfold write, getOutputChannel.
  destruct (outputChannel s) as [known|] eqn:O.
  - cbn. rewrite O. eexists _, _. repeat split.
  - cbn. eexists _, _. repeat split.
Qed.

Lemma perform_step (s : State) (call : Call) :
  let s' := perform getFormattedDate s call in
  exists channel line,
    outputChannel s' = Some channel /\
    appended (editor s') = (appended (editor s) ++ [(channel, line)])%list /\
    notified (editor s') = (notified (editor s) ++ requested call)%list /\
    match outputChannel s with
    | Some known => channel = known /\ channels (editor s') = channels (editor s)
    | None =>
        channel = length (channels (editor s)) /\
        channels (editor s') = (channels (editor s) ++ ["Package Linker"])%list
    end.
Proof.
  cbv zeta.
  destruct call as [message [|]|message [|]|message [|]|message|];
    cbn [perform requested];
    unfold Logger.info, Logger.warn, Logger.error, Logger.debug, Logger.init;
    cbv zeta;
    lazymatch goal with
    | |- context [write _ ?tag ?text ?before] =>
        pose proof (write_channel tag text before) as W; cbv zeta in W;
        destruct W as (channel & line & O & A & N & C)
    end;
    exists channel, line; cbn [notify editor outputChannel showMessage
                                appended notified channels];
    rewrite ?app_nil_r; (split; [exact O | split; [exact A | split]]);
    [now rewrite N | exact C | now rewrite N | exact C | now rewrite N | exact C
    | now rewrite N | exact C | now rewrite N | exact C | now rewrite N | exact C
    | now rewrite N | exact C | now rewrite N | exact C].
Qed.

(** X20: the output channel is a singleton. Over any sequence of calls of
    the logger, starting with no channel, exactly one channel is created, at
    the first call, and every call appends exactly one line, to that
    channel. *)
Theorem logger_uses_one_channel (calls : list Call) :
  let s := fold_left (perform getFormattedDate) calls loaded in
  channels (editor s)
  = match calls with [] => [] | _ :: _ => ["Package Linker"] end /\
  outputChannel s = match calls with [] => None | _ :: _ => Some 0 end /\
  length (appended (editor s)) = length calls /\
  forall channel line, In (channel, line) (appended (editor s)) -> channel = 0.
Proof.
  cbv zeta.
  assert (Step : forall rest s,
            outputChannel s = Some 0 ->
            channels (editor s) = ["Package Linker"] ->
            (forall channel line, In (channel, line) (appended (editor s)) -> channel = 0) ->
            let s' := fold_left (perform getFormattedDate) rest s in
            channels (editor s') = ["Package Linker"] /\
            outputChannel s' = Some 0 /\
            length (appended (editor s')) = length (appended (editor s)) + length rest /\
            forall channel line, In (channel, line) (appended (editor s')) -> channel = 0).
  { induction rest as [|call rest IH]; intros s O C A; cbv zeta.
    - cbn. repeat split; try assumption. lia.
    - cbn [fold_left].
      pose proof (perform_step s call) as P. cbv zeta in P.
      destruct P as (channel & line & O' & A' & _ & K). rewrite O in K. destruct K as [-> C'].
      destruct (IH (perform getFormattedDate s call)) as (R1 & R2 & R3 & R4).
      + exact O'.
      + now rewrite C'.
      + intros c l. rewrite A', in_app_iff. intros [H|[H|[]]]; [eauto|].
        now inversion H.
      + repeat split; try assumption.
        rewrite R3, A', length_app. cbn [length]. lia. }
  destruct calls as [|call rest].
  - cbn. repeat split. intros channel line [].
  - cbn [fold_left].
    pose proof (perform_step loaded call) as P. cbv zeta in P.
    destruct P as (channel & line & O' & A' & _ & K).
    cbn [loaded outputChannel editor channels appended] in K, A'.
    destruct K as [-> C']. cbn [length] in O'.
    destruct (Step rest (perform getFormattedDate loaded call)) as (R1 & R2 & R3 & R4).
    + exact O'.
    + exact C'.
    + intros c l. rewrite A'. intros [H|[]]. now inversion H.
    + repeat split; try assumption.
      rewrite R3, A'. reflexivity.
Qed.

(** X21: the logger notifies on request only. Over any sequence of calls
    the notifications shown are, in order, those of the calls of [info],
    [warn] and [error] made with the notify flag, each at the level of its
    method with the message as given; [debug] and [init] show nothing. *)
Theorem logger_notifies_on_request (calls : list Call) (s : State) :
  notified (editor (fold_left (perform getFormattedDate) calls s))
  = (notified (editor s) ++ flat_map requested calls)%list.
Proof.
  revert s. induction calls as [|call rest IH]; intros s.
  - cbn. now rewrite app_nil_r.
  - cbn [fold_left flat_map]. rewrite IH.
    pose proof (perform_step s call) as P. cbv zeta in P.
    destruct P as (channel & line & _ & _ & N & _). rewrite N. now rewrite app_assoc.
Qed.

End LoggerFacts.

(* ================================================================== *)
(** ** The link command of the editor *)

Section CommandFacts.

Import LinkPackage.

Context {World : Type}.
Context {globalState : StorageService.Memento World} {workbench : Workbench World}.

Variable npmLink : string -> string -> string -> @Async World LinkResult.

Ltac session := cbv beta iota zeta; cbn [machine shown world executed moved].

Lemma selectPackagePath_run (s : Session World) result w :
  showOpenDialog (world (machine s)) = (Resolved result, w) ->
  selectPackagePath s
  = (Resolved match result with Some (first :: _) => first | _ => None end,
     moved s w).
Proof.
  intros E. cbv [selectPackagePath andThen ask run call done]. session.
  rewrite E. destruct result as [[|first rest]|]; reflexivity.
Qed.

(** From the selection on, the command is [linkFrom]. *)
Lemma handle_after_selection (arguments_ : LinkPackageCommandArguments)
  (s s1 : Session World) (packagePath : string) :
  selects arguments_ s packagePath s1 ->
  handleLinkPackage npmLink arguments_ s = linkFrom npmLink (name arguments_) (Some packagePath) s1.
Proof.
  intros [path rest w G D | saved choice w G Q N
          | saved choice w path rest w' G Q N D];
    cbv [handleLinkPackage andThen look]; session; rewrite G; session.
  - fold (andThen selectPackagePath (linkFrom npmLink (name arguments_))).
    unfold andThen. now rewrite (selectPackagePath_run s D).
  - cbv [ask run call]. session. rewrite Q. session.
    apply String.eqb_neq in N. rewrite N. reflexivity.
  - cbv [ask run call]. session. rewrite Q. session.
    rewrite N, String.eqb_refl.
    unfold andThen.
    pose proof (selectPackagePath_run (moved s w) D) as K.
    unfold moved in *. cbn [machine world executed shown] in K. now rewrite K.
Qed.

(** [linkFrom] with a path, in a workspace with a project path, run against
    the answers of [npmLink] and of the store. *)
Lemma linkFrom_run (packageName packagePath projectPath : string)
  (rest : list (option string)) (s1 : Session World) o m2 :
  let entry :=
    {| StorageService.packageName := packageName;
       StorageService.localPath := packagePath;
       StorageService.linkedAt := now (world m2) |} in
  let ending m message := (Resolved tt, {| machine := m; shown := shown s1 ++ [message] |}) in
  packagePath <> EmptyString ->
  workspaceFolders (world (machine s1)) = Some (Some projectPath :: rest) ->
  projectPath <> EmptyString ->
  npmLink packagePath projectPath packageName (machine s1) = (o, m2) ->
  linkFrom npmLink packageName (Some packagePath) s1
  = match o with
    | Rejected e =>
        ending m2 (ErrorMessage ("Error linking package: " ++ describe e))
    | Resolved result =>
        if success result then
          match StorageService.saveLinkedPackage entry (world m2) with
          | (Resolved _, w3) =>
              ending {| world := w3; executed := executed m2 |}
                (InformationMessage (message result))
          | (Rejected e, w3) =>
              ending {| world := w3; executed := executed m2 |}
                (ErrorMessage ("Error saving package link: " ++ describe e))
          end
        else ending m2 (ErrorMessage (message result))
    end.
Proof.
  cbv zeta. intros N F P L.
  apply String.eqb_neq in N, P.
  cbv [linkFrom withProgress report andThen recover look ask run call done show]. session.
  rewrite N, F, P, L.
  destruct o as [result|e]; [|reflexivity].
  destruct (success result); [|reflexivity].
  session.
  destruct (StorageService.saveLinkedPackage _ (world m2)) as [[[]|e] w3];
    reflexivity.
Qed.

(** [linkFrom] without a project path: the one message, and the outcome of
    waiting for it. *)
Lemma linkFrom_no_project (packageName packagePath text : string)
  (s1 : Session World) answer w :
  packagePath <> EmptyString ->
  noProject (workspaceFolders (world (machine s1))) = Some text ->
  showErrorMessage text (world (machine s1)) = (answer, w) ->
  (text = "No workspace folder is open" \/
   text = "Could not determine workspace path") /\
  linkFrom npmLink packageName (Some packagePath) s1
  = (match answer with Resolved _ => Resolved tt | Rejected e => Rejected e end,
     {| machine := {| world := w; executed := executed (machine s1) |};
        shown := shown s1 ++ [ErrorMessage text] |}).
Proof.
  intros N P A.
  apply String.eqb_neq in N.
  cbv [linkFrom showAndWait andThen look show ask run call done]. session. rewrite N.
  destruct (workspaceFolders (world (machine s1))) as [[|[projectPath|] rest]|];
    cbn [noProject] in P.
  - inversion P; subst text. session. rewrite A.
    split; [auto | destruct answer; reflexivity].
  - destruct (projectPath =? EmptyString); [|discriminate].
    inversion P; subst text. session. rewrite A.
    split; [auto | destruct answer; reflexivity].
  - inversion P; subst text. session. rewrite A.
    split; [auto | destruct answer; reflexivity].
  - inversion P; subst text. session. rewrite A.
    split; [auto | destruct answer; reflexivity].
Qed.

(** [linkFrom] shows at most one message; when it rejects, that message is
    one of the two that tell of a missing project path. *)
Lemma linkFrom_shows (packageName : string) (packagePath : option string)
  (s1 : Session World) :
  exists o m messages,
    linkFrom npmLink packageName packagePath s1
    = (o, {| machine := m; shown := shown s1 ++ messages |}) /\
    length messages <= 1 /\
    (o = Resolved tt \/
     messages = [ErrorMessage "No workspace folder is open"] \/
     messages = [ErrorMessage "Could not determine workspace path"]).
Proof.
  assert (Quiet : forall s : Session World,
            s = {| machine := machine s; shown := shown s ++ [] |}).
  { intros [m l]. cbn. now rewrite app_nil_r. }
  destruct packagePath as [packagePath|].
  2:{ exists (Resolved tt), (machine s1), [].
      split; [cbn; now rewrite <- Quiet | cbn; split; [lia | auto]]. }
  destruct (String.eqb_spec packagePath EmptyString) as [E|N].
  { exists (Resolved tt), (machine s1), []. split; [|cbn; split; [lia | auto]].
    cbn [linkFrom]. rewrite E. cbn. now rewrite <- Quiet. }
  destruct (noProject (workspaceFolders (world (machine s1)))) as [text|] eqn:P.
  { destruct (showErrorMessage text (world (machine s1))) as [answer w] eqn:A.
    destruct (linkFrom_no_project packageName s1 N P A) as [T R].
    eexists _, _, [_]. split; [exact R|]. split; [cbn; lia|].
    destruct T as [-> | ->]; auto. }
  destruct (workspaceFolders (world (machine s1))) as [[|[projectPath|] rest]|] eqn:F;
    cbn [noProject] in P; try discriminate.
  destruct (String.eqb_spec projectPath EmptyString) as [E|Q]; [discriminate|].
  destruct (npmLink packagePath projectPath packageName (machine s1)) as [o m2] eqn:L.
  rewrite (linkFrom_run s1 N F Q L).
  destruct o as [result|e]; [|eexists _, _, [_]; split; [reflexivity | cbn; auto]].
  destruct (success result); [|eexists _, _, [_]; split; [reflexivity | cbn; auto]].
  destruct (StorageService.saveLinkedPackage _ (world m2)) as [[[]|e] w3];
    eexists _, _, [_]; split; try reflexivity; cbn; auto.
Qed.

(** X22: cancelling does nothing. When the quick pick is dismissed, or
    when nothing is saved for the package and the dialog gives no path,
    the command ends with no message shown, and without calling [npmLink]
    or the store. *)
Theorem cancelling_does_nothing (arguments_ : LinkPackageCommandArguments)
  (s : Session World) :
  (forall savedPackage w,
      StorageService.getLinkedPackage (name arguments_) (world (machine s))
        = Some savedPackage ->
      showQuickPick (offered savedPackage) "Select an option for linking the package"
        (world (machine s)) = (Resolved None, w) ->
      handleLinkPackage npmLink arguments_ s = (Resolved tt, moved s w)) /\
  (forall result w,
      StorageService.getLinkedPackage (name arguments_) (world (machine s)) = None ->
      showOpenDialog (world (machine s)) = (Resolved result, w) ->
      nothingSelected result ->
      handleLinkPackage npmLink arguments_ s = (Resolved tt, moved s w)).
Proof.
  split.
  - intros saved w G Q.
    cbv [handleLinkPackage andThen look ask run call done]. session.
    rewrite G. session. rewrite Q. reflexivity.
  - intros result w G D C.
    cbv [handleLinkPackage andThen look]. session. rewrite G. session.
    rewrite (selectPackagePath_run s D).
    destruct result as [[|[path|] rest]|]; try reflexivity.
    cbn [nothingSelected] in C. rewrite C. reflexivity.
Qed.

(** X23: without a project path nothing is linked. Once a path is
    selected, a workspace with no folder, or whose first folder has no path,
    has the command show the one error message that says so and wait for it:
    the command ends as that message settles, resolving when it is answered
    or dismissed and rejecting when it rejects, and [npmLink] is not
    called. *)
Theorem no_project_no_link (arguments_ : LinkPackageCommandArguments)
  (s s1 : Session World) (packagePath text : string) answer w :
  selects arguments_ s packagePath s1 ->
  packagePath <> EmptyString ->
  noProject (workspaceFolders (world (machine s1))) = Some text ->
  showErrorMessage text (world (machine s1)) = (answer, w) ->
  (text = "No workspace folder is open" \/
   text = "Could not determine workspace path") /\
  handleLinkPackage npmLink arguments_ s
  = (match answer with Resolved _ => Resolved tt | Rejected e => Rejected e end,
     {| machine := {| world := w; executed := executed (machine s1) |};
        shown := shown s1 ++ [ErrorMessage text] |}).
Proof.
  intros S N P A. rewrite (handle_after_selection S).
  exact (linkFrom_no_project (name arguments_) s1 N P A).
Qed.

(** X24: a link that succeeds is remembered. The command saves the
    package under its name with the path that was linked and the date of the
    save, shows the message of the result, and the next lookup of the name
    finds that entry. *)
Theorem successful_link_is_remembered (arguments_ : LinkPackageCommandArguments)
  (s s1 : Session World) (packagePath projectPath : string)
  (rest : list (option string)) result m2 w3 :
  let entry :=
    {| StorageService.packageName := name arguments_;
       StorageService.localPath := packagePath;
       StorageService.linkedAt := now (world m2) |} in
  StorageService.keeps globalState ->
  selects arguments_ s packagePath s1 ->
  packagePath <> EmptyString ->
  workspaceFolders (world (machine s1)) = Some (Some projectPath :: rest) ->
  projectPath <> EmptyString ->
  npmLink packagePath projectPath (name arguments_) (machine s1) = (Resolved result, m2) ->
  success result = true ->
  StorageService.saveLinkedPackage entry (world m2) = (Resolved tt, w3) ->
  handleLinkPackage npmLink arguments_ s
  = (Resolved tt,
     {| machine := {| world := w3; executed := executed m2 |};
        shown := shown s1 ++ [InformationMessage (message result)] |}) /\
  StorageService.getLinkedPackage (name arguments_) w3 = Some entry.
Proof.
  cbv zeta. intros K S N F P L T U. split.
  - rewrite (handle_after_selection S), (linkFrom_run s1 N F P L).
    now rewrite T, U.
  - unfold StorageService.getLinkedPackage. cbv zeta.
    unfold StorageService.getLinkedPackages at 1.
    unfold StorageService.saveLinkedPackage in U. cbv zeta in U.
    rewrite (K _ _ _ U).
    change (find (StorageService.named (name arguments_))
              (StorageService.saved
                 {| StorageService.packageName := name arguments_;
                    StorageService.localPath := packagePath;
                    StorageService.linkedAt := now (world m2) |}
                 (StorageService.getLinkedPackages (world m2)))
            = Some {| StorageService.packageName := name arguments_;
                      StorageService.localPath := packagePath;
                      StorageService.linkedAt := now (world m2) |}).
    rewrite find_saved. cbn [StorageService.packageName].
    now rewrite String.eqb_refl.
Qed.

(** X25: a link that fails is not remembered. When [npmLink] answers a
    failure, or rejects, the command shows one error message, the message of
    the result or ["Error linking package: "] with the text of what was
    thrown, and leaves the machine as [npmLink] left it: the store is not
    called. *)
Theorem failed_link_is_not_remembered (arguments_ : LinkPackageCommandArguments)
  (s s1 : Session World) (packagePath projectPath : string)
  (rest : list (option string)) o m2 :
  selects arguments_ s packagePath s1 ->
  packagePath <> EmptyString ->
  workspaceFolders (world (machine s1)) = Some (Some projectPath :: rest) ->
  projectPath <> EmptyString ->
  npmLink packagePath projectPath (name arguments_) (machine s1) = (o, m2) ->
  (forall result, o = Resolved result -> success result = false) ->
  handleLinkPackage npmLink arguments_ s
  = (Resolved tt,
     {| machine := m2;
        shown := shown s1 ++
                 [ErrorMessage match o with
                               | Resolved result => message result
                               | Rejected e => "Error linking package: " ++ describe e
                               end] |}).
Proof.
  intros S N F P L Fails.
  rewrite (handle_after_selection S), (linkFrom_run s1 N F P L).
  destruct o as [result|e]; [|reflexivity].
  now rewrite (Fails result eq_refl).
Qed.

(** X26: a save that is refused does not undo the link. After a
    successful link whose save rejects, the command still resolves, and
    shows ["Error saving package link: "] with the text of what was thrown
    in place of the message of the result. *)
Theorem refused_save_is_reported (arguments_ : LinkPackageCommandArguments)
  (s s1 : Session World) (packagePath projectPath : string)
  (rest : list (option string)) result m2 e w3 :
  selects arguments_ s packagePath s1 ->
  packagePath <> EmptyString ->
  workspaceFolders (world (machine s1)) = Some (Some projectPath :: rest) ->
  projectPath <> EmptyString ->
  npmLink packagePath projectPath (name arguments_) (machine s1) = (Resolved result, m2) ->
  success result = true ->
  StorageService.saveLinkedPackage
    {| StorageService.packageName := name arguments_;
       StorageService.localPath := packagePath;
       StorageService.linkedAt := now (world m2) |} (world m2) = (Rejected e, w3) ->
  handleLinkPackage npmLink arguments_ s
  = (Resolved tt,
     {| machine := {| world := w3; executed := executed m2 |};
        shown := shown s1 ++
                 [ErrorMessage ("Error saving package link: " ++ describe e)] |}).
Proof.
  intros S N F P L T U.
  rewrite (handle_after_selection S), (linkFrom_run s1 N F P L).
  now rewrite T, U.
Qed.

(** X27: a package saved under the path ["new"] cannot be linked from its
    saved path. Choosing the item of the saved path then opens the dialog, as
    choosing a new path does, and dismissing the dialog links nothing. *)
Theorem saved_path_new_opens_dialog (arguments_ : LinkPackageCommandArguments)
  (s : Session World) savedPackage choice w w' :
  StorageService.getLinkedPackage (name arguments_) (world (machine s))
    = Some savedPackage ->
  StorageService.localPath savedPackage = "new" ->
  nth_error (offered savedPackage) 0 = Some choice ->
  showQuickPick (offered savedPackage) "Select an option for linking the package"
    (world (machine s)) = (Resolved (Some choice), w) ->
  showOpenDialog w = (Resolved None, w') ->
  handleLinkPackage npmLink arguments_ s = (Resolved tt, moved s w').
Proof.
  intros G E C Q D.
  cbn [offered nth_error] in C. inversion C as [V]. subst choice. clear C.
  cbv [handleLinkPackage andThen look ask run call done]. session.
  rewrite G. session. rewrite Q. session.
  cbn [value]. rewrite E.
  change ("new" =? "new") with true. cbv iota.
  pose proof (selectPackagePath_run (moved s w) D) as K.
  unfold moved in *. cbn [machine world executed shown] in K.
  now rewrite K.
Qed.

(** X28: the command shows at most one message, whatever [npmLink], the
    store and the editor do. A run that rejects has shown nothing, or has
    shown one of the two messages about the missing project path, whose
    promise it waits for. Once a path is selected and the workspace gives a
    project path, so that the progress task is started, the command resolves
    and has shown exactly one message: nothing is thrown out of the task. *)
Theorem command_shows_at_most_one_message (arguments_ : LinkPackageCommandArguments)
  (s : Session World) :
  (exists o m messages,
      handleLinkPackage npmLink arguments_ s
      = (o, {| machine := m; shown := shown s ++ messages |}) /\
      length messages <= 1 /\
      (o = Resolved tt \/
       messages = [] \/
       messages = [ErrorMessage "No workspace folder is open"] \/
       messages = [ErrorMessage "Could not determine workspace path"])) /\
  (forall (s1 : Session World) (packagePath projectPath : string)
          (rest : list (option string)),
      selects arguments_ s packagePath s1 ->
      packagePath <> EmptyString ->
      workspaceFolders (world (machine s1)) = Some (Some projectPath :: rest) ->
      projectPath <> EmptyString ->
      exists m message,
        handleLinkPackage npmLink arguments_ s
        = (Resolved tt, {| machine := m; shown := shown s1 ++ [message] |})).
Proof.
  split.
  2:{ intros s1 packagePath projectPath rest S N F P.
      destruct (npmLink packagePath projectPath (name arguments_) (machine s1))
        as [o m2] eqn:L.
      rewrite (handle_after_selection S), (linkFrom_run s1 N F P L).
      destruct o as [result|e]; [|eexists _, _; reflexivity].
      destruct (success result); [|eexists _, _; reflexivity].
      destruct (StorageService.saveLinkedPackage _ (world m2)) as [[[]|e] w3];
        eexists _, _; reflexivity. }
  assert (Quiet : forall m : Machine World,
            {| machine := m; shown := shown s |}
            = {| machine := m; shown := shown s ++ [] |}).
  { intros m. now rewrite app_nil_r. }
  assert (Linking : forall packagePath w,
            exists o m messages,
              linkFrom npmLink (name arguments_) packagePath (moved s w)
              = (o, {| machine := m; shown := shown s ++ messages |}) /\
              length messages <= 1 /\
              (o = Resolved tt \/
               messages = [] \/
               messages = [ErrorMessage "No workspace folder is open"] \/
               messages = [ErrorMessage "Could not determine workspace path"])).
  { intros packagePath w.
    destruct (linkFrom_shows (name arguments_) packagePath (moved s w))
      as (o & m & messages & E & B & C).
    exists o, m, messages. split; [exact E | split; [exact B | tauto]]. }
  assert (Selecting : forall w,
            exists o m messages,
              andThen selectPackagePath (linkFrom npmLink (name arguments_)) (moved s w)
              = (o, {| machine := m; shown := shown s ++ messages |}) /\
              length messages <= 1 /\
              (o = Resolved tt \/
               messages = [] \/
               messages = [ErrorMessage "No workspace folder is open"] \/
               messages = [ErrorMessage "Could not determine workspace path"])).
  { intros w. unfold andThen.
    destruct (showOpenDialog w) as [[result|e] w'] eqn:D.
    - rewrite (selectPackagePath_run (moved s w) D).
      apply (Linking _ w').
    - cbv [selectPackagePath andThen ask run call]. session. rewrite D.
      eexists _, _, []. split; [now rewrite <- Quiet | cbn; auto]. }
  cbv [handleLinkPackage andThen look]. session.
  destruct (StorageService.getLinkedPackage (name arguments_) (world (machine s)))
    as [savedPackage|].
  2:{ destruct (Selecting (world (machine s))) as (o & m & l & E & B).
      unfold andThen, moved in E. destruct s as [[w0 x0] l0].
      cbn [machine world executed shown] in *. eauto. }
  session. cbv [ask run call]. session.
  destruct (showQuickPick _ _ (world (machine s))) as [[[choice|]|e] w].
  - session. destruct (value choice =? "new").
    + destruct (Selecting w) as (o & m & l & E & B).
      unfold andThen, moved in E. eauto.
    + apply (Linking (Some (value choice)) w).
  - eexists _, _, []. split; [now rewrite <- Quiet | cbn; auto].
  - eexists _, _, []. split; [now rewrite <- Quiet | cbn; auto].
Qed.

End CommandFacts.

(* ------------------------------------------------------------------ *)
(** Runs of the command, at the desk. *)

Lemma cancelling_does_nothing_witness :
  LinkPackage.handleLinkPackage
    (globalState := StorageService.inMemory)
    (workbench := LinkPackage.desk None None LinkPackage.open_proj)
    (LinkPackage.answering LinkPackage.it_linked)
    LinkPackage.foo_arguments
    (LinkPackage.opening (Some [LinkPackage.foo_entry "/old"]))
  = (Resolved tt, LinkPackage.opening (Some [LinkPackage.foo_entry "/old"])) /\
  LinkPackage.handleLinkPackage
    (globalState := StorageService.inMemory)
    (workbench := LinkPackage.desk None (Some []) LinkPackage.open_proj)
    (LinkPackage.answering LinkPackage.it_linked)
    LinkPackage.foo_arguments (LinkPackage.opening None)
  = (Resolved tt, LinkPackage.opening None).
Proof.
  split.
  - exact (proj1 (@cancelling_does_nothing _ StorageService.inMemory
                    (LinkPackage.desk None None LinkPackage.open_proj)
                    (LinkPackage.answering LinkPackage.it_linked)
                    LinkPackage.foo_arguments
                    (LinkPackage.opening (Some [LinkPackage.foo_entry "/old"])))
             (LinkPackage.foo_entry "/old") _ eq_refl eq_refl).
  - exact (proj2 (@cancelling_does_nothing _ StorageService.inMemory
                    (LinkPackage.desk None (Some []) LinkPackage.open_proj)
                    (LinkPackage.answering LinkPackage.it_linked)
                    LinkPackage.foo_arguments (LinkPackage.opening None))
             (Some []) None eq_refl eq_refl I).
Defined.

Lemma selects_at_desk (memento : StorageService.Memento
                                   (option (list StorageService.LinkedPackage)))
  (folders : option (list (option string))) :
  (forall store, StorageService.get StorageService.STORAGE_KEY store = store) ->
  LinkPackage.selects
    (globalState := memento)
    (workbench := LinkPackage.desk None LinkPackage.picked_pkg folders)
    LinkPackage.foo_arguments (LinkPackage.opening None) "/pkg"
    (LinkPackage.opening None).
Proof.
  intros G.
  refine (@LinkPackage.by_dialog _ memento
            (LinkPackage.desk None LinkPackage.picked_pkg folders)
            LinkPackage.foo_arguments (LinkPackage.opening None) "/pkg" [] None _ eq_refl).
  unfold StorageService.getLinkedPackage, StorageService.getLinkedPackages.
  cbn [LinkPackage.opening LinkPackage.machine world]. now rewrite G.
Defined.

Lemma selects_while_closing (folders : option (list (option string))) :
  LinkPackage.selects
    (globalState := StorageService.inMemory)
    (workbench := LinkPackage.closing None LinkPackage.picked_pkg folders)
    LinkPackage.foo_arguments (LinkPackage.opening None) "/pkg"
    (LinkPackage.opening None).
Proof.
  exact (@LinkPackage.by_dialog _ StorageService.inMemory
           (LinkPackage.closing None LinkPackage.picked_pkg folders)
           LinkPackage.foo_arguments (LinkPackage.opening None) "/pkg" [] None
           eq_refl eq_refl).
Defined.

Lemma no_project_no_link_witness :
  LinkPackage.handleLinkPackage
    (globalState := StorageService.inMemory)
    (workbench := LinkPackage.desk None LinkPackage.picked_pkg None)
    (LinkPackage.answering LinkPackage.it_linked)
    LinkPackage.foo_arguments (LinkPackage.opening None)
  = (Resolved tt,
     {| LinkPackage.machine := {| world := None; executed := [] |};
        LinkPackage.shown := [LinkPackage.ErrorMessage "No workspace folder is open"] |})
  /\
  LinkPackage.handleLinkPackage
    (globalState := StorageService.inMemory)
    (workbench := LinkPackage.closing None LinkPackage.picked_pkg (Some [None]))
    (LinkPackage.answering LinkPackage.it_linked)
    LinkPackage.foo_arguments (LinkPackage.opening None)
  = (Rejected (Error "Canceled"),
     {| LinkPackage.machine := {| world := None; executed := [] |};
        LinkPackage.shown :=
          [LinkPackage.ErrorMessage "Could not determine workspace path"] |}).
Proof.
  split.
  - refine (proj2 (@no_project_no_link _ StorageService.inMemory
                     (LinkPackage.desk None LinkPackage.picked_pkg None)
                     (LinkPackage.answering LinkPackage.it_linked)
                     LinkPackage.foo_arguments (LinkPackage.opening None)
                     (LinkPackage.opening None) "/pkg" "No workspace folder is open"
                     (Resolved None) None
                     (selects_at_desk StorageService.inMemory None (fun _ => eq_refl))
                     _ eq_refl eq_refl)).
    discriminate.
  - refine (proj2 (@no_project_no_link _ StorageService.inMemory
                     (LinkPackage.closing None LinkPackage.picked_pkg (Some [None]))
                     (LinkPackage.answering LinkPackage.it_linked)
                     LinkPackage.foo_arguments (LinkPackage.opening None)
                     (LinkPackage.opening None) "/pkg"
                     "Could not determine workspace path"
                     (Rejected (Error "Canceled")) None
                     (selects_while_closing (Some [None]))
                     _ eq_refl eq_refl)).
    discriminate.
Defined.

Lemma successful_link_is_remembered_witness :
  LinkPackage.handleLinkPackage
    (globalState := StorageService.inMemory)
    (workbench := LinkPackage.desk None LinkPackage.picked_pkg LinkPackage.open_proj)
    (LinkPackage.answering LinkPackage.it_linked)
    LinkPackage.foo_arguments (LinkPackage.opening None)
  = (Resolved tt,
     {| LinkPackage.machine :=
          {| world := Some [LinkPackage.foo_entry "/pkg"];
             executed := [("npm link /pkg", "/proj")] |};
        LinkPackage.shown := [LinkPackage.InformationMessage "Successfully linked foo"] |})
  /\
  StorageService.getLinkedPackage (globalState := StorageService.inMemory) "foo"
    (Some [LinkPackage.foo_entry "/pkg"])
  = Some (LinkPackage.foo_entry "/pkg").
Proof.
  refine (@successful_link_is_remembered _ StorageService.inMemory
            (LinkPackage.desk None LinkPackage.picked_pkg LinkPackage.open_proj)
            (LinkPackage.answering LinkPackage.it_linked)
            LinkPackage.foo_arguments (LinkPackage.opening None)
            (LinkPackage.opening None) "/pkg" "/proj" [] LinkPackage.it_linked
            {| world := None; executed := [("npm link /pkg", "/proj")] |}
            (Some [LinkPackage.foo_entry "/pkg"])
            inMemory_keeps
            (selects_at_desk StorageService.inMemory LinkPackage.open_proj
               (fun _ => eq_refl))
            _ eq_refl _ eq_refl eq_refl eq_refl); discriminate.
Defined.

Lemma failed_link_is_not_remembered_witness :
  LinkPackage.handleLinkPackage
    (globalState := StorageService.inMemory)
    (workbench := LinkPackage.desk None LinkPackage.picked_pkg LinkPackage.open_proj)
    (LinkPackage.answering LinkPackage.it_failed)
    LinkPackage.foo_arguments (LinkPackage.opening None)
  = (Resolved tt,
     {| LinkPackage.machine :=
          {| world := None; executed := [("npm link /pkg", "/proj")] |};
        LinkPackage.shown := [LinkPackage.ErrorMessage "Failed to create link: no"] |}).
Proof.
  refine (@failed_link_is_not_remembered _ StorageService.inMemory
            (LinkPackage.desk None LinkPackage.picked_pkg LinkPackage.open_proj)
            (LinkPackage.answering LinkPackage.it_failed)
            LinkPackage.foo_arguments (LinkPackage.opening None)
            (LinkPackage.opening None) "/pkg" "/proj" []
            (Resolved LinkPackage.it_failed)
            {| world := None; executed := [("npm link /pkg", "/proj")] |}
            (selects_at_desk StorageService.inMemory LinkPackage.open_proj
               (fun _ => eq_refl))
            _ eq_refl _ eq_refl _); try discriminate.
  intros result H. inversion H. reflexivity.
Defined.

Lemma refused_save_is_reported_witness :
  LinkPackage.handleLinkPackage
    (globalState := LinkPackage.refusing)
    (workbench := LinkPackage.desk None LinkPackage.picked_pkg LinkPackage.open_proj)
    (LinkPackage.answering LinkPackage.it_linked)
    LinkPackage.foo_arguments (LinkPackage.opening None)
  = (Resolved tt,
     {| LinkPackage.machine :=
          {| world := None; executed := [("npm link /pkg", "/proj")] |};
        LinkPackage.shown :=
          [LinkPackage.ErrorMessage "Error saving package link: quota exceeded"] |}).
Proof.
  refine (@refused_save_is_reported _ LinkPackage.refusing
            (LinkPackage.desk None LinkPackage.picked_pkg LinkPackage.open_proj)
            (LinkPackage.answering LinkPackage.it_linked)
            LinkPackage.foo_arguments (LinkPackage.opening None)
            (LinkPackage.opening None) "/pkg" "/proj" [] LinkPackage.it_linked
            {| world := None; executed := [("npm link /pkg", "/proj")] |}
            (Str "quota exceeded") None
            (selects_at_desk LinkPackage.refusing LinkPackage.open_proj
               (fun _ => eq_refl))
            _ eq_refl _ eq_refl eq_refl eq_refl); discriminate.
Defined.

Lemma saved_path_new_opens_dialog_witness :
  let choice :=
    {| LinkPackage.description := "Last linked: 2023-01-01T00:00:00.000Z";
       LinkPackage.label := "Use saved path: new";
       LinkPackage.value := "new" |} in
  LinkPackage.handleLinkPackage
    (globalState := StorageService.inMemory)
    (workbench := LinkPackage.desk (Some choice) None LinkPackage.open_proj)
    (LinkPackage.answering LinkPackage.it_linked)
    LinkPackage.foo_arguments
    (LinkPackage.opening (Some [LinkPackage.foo_entry "new"]))
  = (Resolved tt, LinkPackage.opening (Some [LinkPackage.foo_entry "new"])).
Proof.
  cbv zeta.
  exact (@saved_path_new_opens_dialog _ StorageService.inMemory
           (LinkPackage.desk
              (Some {| LinkPackage.description := "Last linked: 2023-01-01T00:00:00.000Z";
                       LinkPackage.label := "Use saved path: new";
                       LinkPackage.value := "new" |})
              None LinkPackage.open_proj)
           (LinkPackage.answering LinkPackage.it_linked)
           LinkPackage.foo_arguments
           (LinkPackage.opening (Some [LinkPackage.foo_entry "new"]))
           (LinkPackage.foo_entry "new") _ _ _
           eq_refl eq_refl eq_refl eq_refl eq_refl).
Defined.

Lemma command_shows_at_most_one_message_witness :
  exists m message,
    LinkPackage.handleLinkPackage
      (globalState := LinkPackage.refusing)
      (workbench := LinkPackage.desk None LinkPackage.picked_pkg LinkPackage.open_proj)
      (LinkPackage.answering LinkPackage.it_linked)
      LinkPackage.foo_arguments (LinkPackage.opening None)
    = (Resolved tt, {| LinkPackage.machine := m; LinkPackage.shown := [message] |}).
Proof.
  refine (proj2 (@command_shows_at_most_one_message _ LinkPackage.refusing
                   (LinkPackage.desk None LinkPackage.picked_pkg LinkPackage.open_proj)
                   (LinkPackage.answering LinkPackage.it_linked)
                   LinkPackage.foo_arguments (LinkPackage.opening None))
            (LinkPackage.opening None) "/pkg" "/proj" []
            (selects_at_desk LinkPackage.refusing LinkPackage.open_proj
               (fun _ => eq_refl))
            _ eq_refl _); discriminate.
Defined.
